(** * wavescapes: the audio worklet, the page script and their message protocol

    A shallow embedding of [src/worklet.js], [src/unnamed/part_000] (a second
    revision of the worklet) and [src/unnamed/part_001] (the page script),
    together with the part of the browser they run on: JavaScript values,
    typed arrays living in a heap, exceptions, and the two directions of the
    [MessagePort] that joins the page to the [AudioWorkletProcessor]. *)

From Stdlib Require Import ZArith String List Bool Lia PrimFloat Uint63.
From stdpp Require Import base list.
Import ListNotations.

Set Warnings "-inexact-float,-register-all".
Local Open Scope string_scope.
Local Open Scope list_scope.
Local Open Scope nat_scope.

(** ** JavaScript values *)

Module JS.

(** The values that travel in messages.  An [ArrayBuffer] and a
    [Float32Array] are objects with identity: they are addresses into the
    heap.  A [Float32Array] at address [a] is the view that [new
    Float32Array(n)] creates, covering the whole of its own buffer, so
    [x.buffer] of [VFloat32Array a] is [VArrayBuffer a].  Plain objects are
    never mutated by the program and are kept by value, keys in insertion
    order. *)
Inductive val : Type :=
| VUndefined
| VNull
| VBool (b : bool)
| VNumber (x : float)
| VString (s : string)
| VArrayBuffer (a : nat)
| VFloat32Array (a : nat)
| VObject (fields : list (string * val)).

(** What an [ArrayBuffer] holds: raw bytes (the fetched binary), the float32
    elements a [Float32Array] reads through it, or nothing once it has been
    transferred away. *)
Inductive cell : Type :=
| Bytes (b : list Byte.byte)
| Samples (l : list float)
| Detached.

Abbreviation heap := (list cell).

Inductive exn : Type :=
| TypeError
| RangeError
| DataCloneError
| ForeignError (code : nat).

Inductive result (A : Type) : Type :=
| Ret (a : A)
| Throw (e : exn).
Arguments Ret {A} a.
Arguments Throw {A} e.

(** [ToBoolean]. *)
Definition truthy (v : val) : bool :=
  match v with
  | VUndefined | VNull => false
  | VBool b => b
  | VNumber x => negb (PrimFloat.is_zero x || PrimFloat.is_nan x)
  | VString s => negb (String.eqb s "")
  | VArrayBuffer _ | VFloat32Array _ | VObject _ => true
  end.

Fixpoint lookup_field (k : string) (fields : list (string * val)) : val :=
  match fields with
  | [] => VUndefined
  | (k', v) :: rest => if String.eqb k k' then v else lookup_field k rest
  end.

(** Property read [v.k] for the names this program reads ([wasm], [buffer],
    [buffers], [left], [right]), none of which is found on a prototype:
    reading from [undefined] or [null] throws, a typed array answers
    [buffer], an object answers its own fields, everything else is
    [undefined]. *)
Definition get (v : val) (k : string) : result val :=
  match v with
  | VUndefined | VNull => Throw TypeError
  | VObject fields => Ret (lookup_field k fields)
  | VFloat32Array a => Ret (if String.eqb k "buffer" then VArrayBuffer a else VUndefined)
  | _ => Ret VUndefined
  end.

(** The elements of the typed array at [a]; [None] when its buffer is
    detached. *)
Definition samples (h : heap) (a : nat) : option (list float) :=
  match h !! a with
  | Some (Samples l) => Some l
  | _ => None
  end.

(** [new Float32Array(n)]: a fresh zero-filled array. *)
Definition new_Float32Array (n : nat) (h : heap) : heap * val :=
  (h ++ [Samples (repeat 0%float n)], VFloat32Array (length h)).

(** [dst.set(src)] for a typed-array source, offset 0 (ECMAScript
    SetTypedArrayFromTypedArray): a detached side is a TypeError, a source
    longer than the target a RangeError, otherwise the source overwrites the
    first elements of the target. *)
Definition set_from_typed_array (dst src : nat) (h : heap) : result heap :=
  match samples h dst, samples h src with
  | Some d, Some s =>
      if length d <? length s then Throw RangeError
      else Ret (<[dst := Samples (s ++ drop (length s) d)]> h)
  | _, _ => Throw TypeError
  end.

(** Array index [xs[i]] on a JavaScript array of arrays or of values. *)
Definition index {A : Type} (xs : list A) (i : nat) : option A := xs !! i.

End JS.
Export JS.

(** ** The message port *)

Module Port.

(** [postMessage(message, transfer)] serializes [message] with the structured
    clone algorithm.  Every buffer reached from the message is recreated in
    the receiving realm (a fresh address); the memory of the algorithm keeps
    object identity, so two references to one array arrive as two references
    to one array.  A buffer listed in [transfer] is moved instead: the
    receiver gets its contents and the sender's object is detached. *)
Definition memory := list (nat * nat).

Fixpoint recall (a : nat) (m : memory) : option nat :=
  match m with
  | [] => None
  | (a0, a') :: rest => if Nat.eqb a a0 then Some a' else recall a rest
  end.

Definition clone_buffer (a : nat) (m : memory) (h : heap) : result (nat * memory * heap) :=
  match recall a m with
  | Some a' => Ret (a', m, h)
  | None =>
      match h !! a with
      | Some (Bytes b) => Ret (length h, (a, length h) :: m, h ++ [Bytes b])
      | Some (Samples l) => Ret (length h, (a, length h) :: m, h ++ [Samples l])
      | Some Detached | None => Throw DataCloneError
      end
  end.

Definition clone_fields (clone : val -> memory -> heap -> result (val * memory * heap))
  : list (string * val) -> memory -> heap -> result (list (string * val) * memory * heap) :=
  fix go fs m h :=
    match fs with
    | [] => Ret ([], m, h)
    | (k, x) :: rest =>
        match clone x m h with
        | Ret (x', m1, h1) =>
            match go rest m1 h1 with
            | Ret (rest', m2, h2) => Ret ((k, x') :: rest', m2, h2)
            | Throw e => Throw e
            end
        | Throw e => Throw e
        end
    end.

Fixpoint clone (v : val) (m : memory) (h : heap) : result (val * memory * heap) :=
  match v with
  | VArrayBuffer a =>
      match clone_buffer a m h with
      | Ret (a', m', h') => Ret (VArrayBuffer a', m', h')
      | Throw e => Throw e
      end
  | VFloat32Array a =>
      match clone_buffer a m h with
      | Ret (a', m', h') => Ret (VFloat32Array a', m', h')
      | Throw e => Throw e
      end
  | VObject fields =>
      match clone_fields clone fields m h with
      | Ret (fields', m', h') => Ret (VObject fields', m', h')
      | Throw e => Throw e
      end
  | _ => Ret (v, m, h)
  end.

(** The transfer list.  Converting it fails with a TypeError on an entry that
    is not an object; then every entry must be an [ArrayBuffer] (no other
    object here is transferable), attached, and listed once. *)
Definition is_object (v : val) : bool :=
  match v with
  | VArrayBuffer _ | VFloat32Array _ | VObject _ => true
  | _ => false
  end.

Fixpoint transferable_buffers (transfer : list val) (h : heap) : result (list nat) :=
  match transfer with
  | [] => Ret []
  | VArrayBuffer a :: rest =>
      match h !! a with
      | Some Detached | None => Throw DataCloneError
      | Some _ =>
          match transferable_buffers rest h with
          | Ret ids => if existsb (Nat.eqb a) ids then Throw DataCloneError else Ret (a :: ids)
          | Throw e => Throw e
          end
      end
  | _ :: _ => Throw DataCloneError
  end.

Definition transferables (transfer : list val) (h : heap) : result (list nat) :=
  if forallb is_object transfer then transferable_buffers transfer h else Throw TypeError.

Definition detach (ids : list nat) (h : heap) : heap :=
  fold_left (fun h a => <[a := Detached]> h) ids h.

(** The heap after the call and the message as the receiver will see it; a
    failed call leaves the heap as it was. *)
Definition postMessage (message : val) (transfer : list val) (h : heap) : result (heap * val) :=
  match transferables transfer h with
  | Ret ids =>
      match clone message [] h with
      | Ret (message', _, h') => Ret (detach ids h', message')
      | Throw e => Throw e
      end
  | Throw e => Throw e
  end.

(** A message as whoever holds it can observe it: every buffer by what it
    holds. *)
Inductive plain : Type :=
| PUndefined
| PNull
| PBool (b : bool)
| PNumber (x : float)
| PString (s : string)
| PArrayBuffer (c : option cell)
| PFloat32Array (c : option cell)
| PObject (fields : list (string * plain)).

Fixpoint observe (h : heap) (v : val) : plain :=
  match v with
  | VUndefined => PUndefined
  | VNull => PNull
  | VBool b => PBool b
  | VNumber x => PNumber x
  | VString s => PString s
  | VArrayBuffer a => PArrayBuffer (h !! a)
  | VFloat32Array a => PFloat32Array (h !! a)
  | VObject fields => PObject (map (fun kx => (fst kx, observe h (snd kx))) fields)
  end.

(** [each_address P v]: every buffer that [v] refers to satisfies [P]. *)
Fixpoint each_address (P : nat -> Prop) (v : val) : Prop :=
  match v with
  | VArrayBuffer a | VFloat32Array a => P a
  | VObject fields =>
      (fix go (fs : list (string * val)) : Prop :=
         match fs with
         | [] => True
         | kx :: rest => each_address P (snd kx) /\ go rest
         end) fields
  | _ => True
  end.

(** A message is live in a heap when every buffer it refers to is there and
    attached, as in a message that has just been delivered. *)
Definition attached (h : heap) (a : nat) : Prop :=
  exists c, h !! a = Some c /\ c <> Detached.
Definition live (h : heap) (v : val) : Prop := each_address (attached h) v.

(** The heap with the elements of the typed arrays among [targets] blanked
    out: what is left is everything but their sample contents. *)
Definition targeted (targets : list val) (a : nat) : bool :=
  existsb (fun v => match v with VFloat32Array b => a =? b | _ => false end) targets.
Definition blank (c : cell) : cell :=
  match c with
  | Samples l => Samples (repeat 0%float (length l))
  | _ => c
  end.
Definition erase (targets : list val) (h : heap) : heap :=
  imap (fun a c => if targeted targets a then blank c else c) h.

(** The memory of a clone in progress: every buffer of the original heap
    [h0] met so far has its copy beyond [h0], holding the same. *)
Definition memory_ok (h0 : heap) (m : memory) (h : heap) : Prop :=
  forall a a', recall a m = Some a' ->
    length h0 <= a' /\ exists c, h0 !! a = Some c /\ h !! a' = Some c.

(** [copied h0 h' v v']: [v'] in [h'] is a copy of [v] in [h0]: it refers
    only to buffers that did not exist in [h0], and they hold what the
    buffers of [v] held. *)
Definition copied (h0 h' : heap) (v v' : val) : Prop :=
  observe h' v' = observe h0 v /\
  each_address (fun a => length h0 <= a < length h') v'.

(** What cloning [v] achieves from any point of a clone in progress. *)
Definition clone_ok (h0 : heap) (v : val) : Prop :=
  forall m h, live h0 v -> h0 `prefix_of` h -> memory_ok h0 m h ->
  exists v' m' h',
    clone v m h = Ret (v', m', h') /\ h `prefix_of` h' /\ memory_ok h0 m' h' /\
    copied h0 h' v v'.

End Port.

(** ** The synthesis module *)

Module Wasm.

(** [fills targets h h']: going from [h] to [h'] no object was created or
    detached, and the only change is that typed arrays among [targets] may
    hold new elements, as many as before. *)
Definition fills (targets : list val) (h h' : heap) : Prop :=
  length h' = length h /\
  forall a : nat,
    h' !! a = h !! a \/
    (In (VFloat32Array a) targets /\
     exists l l' : list float,
       h !! a = Some (Samples l) /\ h' !! a = Some (Samples l') /\ length l' = length l).

(** Modelled from the spec: the package [./wasm/pkg/wasm.js] that both
    worklet revisions import is not among the sources.  Its four entry points
    are taken as they are called, with the contract of the spec's NoiseCore:
    a handle is an opaque reference (hence truthy in [if(this.handle)]);
    [get_sample] and [process] write as many samples as each of the two
    slices they are given holds and otherwise touch only the state behind the
    handle; any call may throw, and what it changed before throwing stays
    changed. *)
Class Package : Type := {
  Handle : Type;
  (** the state of the imported module: not yet instantiated, or the
      instance with every generator it holds *)
  Module_ : Type;
  imported : Module_;
  (** [wasm.initSync({ module: payload })] *)
  initSync : val -> heap -> Module_ -> Module_ * result unit;
  (** [wasm.State.new_handle(sampleRate)], in part_000
      [wasm.Instance.new_handle(sampleRate)] *)
  new_handle : float -> Module_ -> Module_ * result Handle;
  (** [wasm.get_sample(left, right, handle)] *)
  get_sample : val -> val -> Handle -> Module_ -> heap -> Module_ * heap * result unit;
  (** [wasm.process(left, right, handle)] *)
  process : val -> val -> Handle -> Module_ -> heap -> Module_ * heap * result unit;
  get_sample_fills : forall left right hd m h m' h' r,
    get_sample left right hd m h = (m', h', r) -> fills [left; right] h h';
  process_fills : forall left right hd m h m' h' r,
    process left right hd m h = (m', h', r) -> fills [left; right] h h'
}.

(** The functions of the package a processor can hold a reference to. *)
Inductive export : Type := wasm_process.

End Wasm.
Export Wasm.

(** ** The two realms and the monad their code runs in *)

Module World.
Section World.
Context `{W : Package}.

(** The fields of a [RandomNoiseProcessor] ([this.handle], [this.processFn]);
    [None] is a field never assigned. *)
Record processor : Type := {
  handle : option Handle;
  processFn : option export
}.

(** The page: how far the top level of its script has run (0: not started,
    1: waiting for the document, 2: done), the two arrays of the script
    ([undefined] until their declarations have run, which is before any
    callback that reads them is installed), whether the document has the
    play checkbox, the [d] attribute of the two
    path elements ([None]: no such element), whether the audio context is
    running rather than suspended, and the animation frame callbacks
    requested and not yet run. *)
Record page : Type := {
  phase : nat;
  bufLeft : val;
  bufRight : val;
  play : bool;
  pathLeft : option string;
  pathRight : option string;
  running : bool;
  frames : nat
}.

(** Everything: the heap of both realms (an object belongs to the realm that
    holds a reference to it), the audio worklet realm, the page, and the
    messages posted in either direction and not yet delivered. *)
Record world : Type := {
  heap_ : heap;
  wasm : Module_;
  this : processor;
  ui : page;
  to_worklet : list val;
  to_page : list val
}.

Definition with_heap (h : heap) (w : world) : world :=
  {| heap_ := h; wasm := wasm w; this := this w; ui := ui w;
     to_worklet := to_worklet w; to_page := to_page w |}.
Definition with_wasm (m : Module_) (w : world) : world :=
  {| heap_ := heap_ w; wasm := m; this := this w; ui := ui w;
     to_worklet := to_worklet w; to_page := to_page w |}.
Definition with_this (p : processor) (w : world) : world :=
  {| heap_ := heap_ w; wasm := wasm w; this := p; ui := ui w;
     to_worklet := to_worklet w; to_page := to_page w |}.
Definition with_ui (u : page) (w : world) : world :=
  {| heap_ := heap_ w; wasm := wasm w; this := this w; ui := u;
     to_worklet := to_worklet w; to_page := to_page w |}.
Definition with_to_worklet (q : list val) (w : world) : world :=
  {| heap_ := heap_ w; wasm := wasm w; this := this w; ui := ui w;
     to_worklet := q; to_page := to_page w |}.
Definition with_to_page (q : list val) (w : world) : world :=
  {| heap_ := heap_ w; wasm := wasm w; this := this w; ui := ui w;
     to_worklet := to_worklet w; to_page := q |}.

(** A computation changes the world and then returns or throws; what it
    changed before throwing stays changed. *)
Definition M (A : Type) : Type := world -> world * result A.

Definition ret {A : Type} (a : A) : M A := fun w => (w, Ret a).
Definition throw {A : Type} (e : exn) : M A := fun w => (w, Throw e).
Definition bind {A B : Type} (c : M A) (k : A -> M B) : M B :=
  fun w =>
    match c w with
    | (w', Ret a) => k a w'
    | (w', Throw e) => (w', Throw e)
    end.
Definition lift {A : Type} (r : result A) : M A := fun w => (w, r).

(** [preserves P c]: if [P] holds before [c] it holds after, whether [c]
    returns or throws. *)
Definition preserves {A : Type} (P : world -> Prop) (c : M A) : Prop :=
  forall w, P w -> P (fst (c w)).

End World.
End World.
Export World.

Declare Scope js_scope.
Delimit Scope js_scope with js.
Notation "x <- c ;; k" := (bind c (fun x => k))
  (at level 100, c at next level, right associativity) : js_scope.
Notation "c ;; k" := (bind c (fun _ => k))
  (at level 100, right associativity) : js_scope.

Local Open Scope js_scope.

(** ** What the code of either realm can do *)

Module Realm.
Section Realm.
Context `{W : Package}.

(** [v.k] *)
Definition prop (v : val) (k : string) : M val := lift (get v k).

Definition alloc (c : cell) : M nat :=
  fun w => (with_heap (heap_ w ++ [c]) w, Ret (length (heap_ w))).

(** Calls into the imported package. *)
Definition wasm_initSync (payload : val) : M unit :=
  fun w => let '(m, r) := initSync payload (heap_ w) (wasm w) in (with_wasm m w, r).

Definition wasm_new_handle (rate : float) : M Handle :=
  fun w => let '(m, r) := new_handle rate (wasm w) in (with_wasm m w, r).

Definition wasm_get_sample (left right : val) (hd : Handle) : M unit :=
  fun w =>
    let '(m, h, r) := get_sample left right hd (wasm w) (heap_ w) in
    (with_heap h (with_wasm m w), r).

Definition call (f : option export) (left right : val) (hd : Handle) : M unit :=
  match f with
  | Some wasm_process =>
      fun w =>
        let '(m, h, r) := process left right hd (wasm w) (heap_ w) in
        (with_heap h (with_wasm m w), r)
  | None => throw TypeError
  end.

(** [this.port.postMessage(message, transfer)] in the worklet: the message
    joins the queue towards the page. *)
Definition this_port_postMessage (message : val) (transfer : list val) : M unit :=
  fun w =>
    match Port.postMessage message transfer (heap_ w) with
    | Ret (h, message') => (with_to_page (to_page w ++ [message']) (with_heap h w), Ret tt)
    | Throw e => (w, Throw e)
    end.

(** [node.port.postMessage(message, transfer)] in the page: the message joins
    the queue towards the worklet. *)
Definition node_port_postMessage (message : val) (transfer : list val) : M unit :=
  fun w =>
    match Port.postMessage message transfer (heap_ w) with
    | Ret (h, message') => (with_to_worklet (to_worklet w ++ [message']) (with_heap h w), Ret tt)
    | Throw e => (w, Throw e)
    end.

Definition this_handle : M (option Handle) := fun w => (w, Ret (handle (this w))).
Definition this_processFn : M (option export) := fun w => (w, Ret (processFn (this w))).
Definition set_this_handle (hd : Handle) : M unit :=
  fun w => (with_this {| handle := Some hd; processFn := processFn (this w) |} w, Ret tt).
Definition set_this_processFn (f : export) : M unit :=
  fun w => (with_this {| handle := handle (this w); processFn := Some f |} w, Ret tt).

(** [xs[i]] where [xs] is an array or [undefined]. *)
Definition at_index (xs : option (list val)) (i : nat) : M val :=
  match xs with
  | Some xs => ret (default VUndefined (index xs i))
  | None => throw TypeError
  end.

End Realm.
End Realm.
Export Realm.

(** ** src/worklet.js *)

Module Worklet.
Section Worklet.
Context `{W : Package}.
(** the [sampleRate] global of the AudioWorkletGlobalScope *)
Variable sampleRate : float.

(** [this.port.onmessage], applied to [ev.data]. *)
Definition onmessage (data : val) : M unit :=
  payload <- prop data "wasm" ;;
  if truthy payload then
    wasm_initSync payload ;;
    set_this_processFn wasm_process ;;
    hd <- wasm_new_handle sampleRate ;;
    set_this_handle hd
  else
    h <- this_handle ;;
    match h with
    | Some hd =>
        buffer <- prop data "buffer" ;;
        if truthy buffer then
          left <- prop buffer "left" ;;
          right <- prop buffer "right" ;;
          wasm_get_sample left right hd ;;
          this_port_postMessage data []
        else ret tt
    | None => ret tt
    end.

Definition process (inputs outputs : list (list val)) (parameters : val) : M bool :=
  let output := index outputs 0 in
  h <- this_handle ;;
  match h with
  | Some hd =>
      f <- this_processFn ;;
      out0 <- at_index output 0 ;;
      out1 <- at_index output 1 ;;
      call f out0 out1 hd
  | None => ret tt
  end ;;
  ret true.

End Worklet.
End Worklet.

(** ** src/unnamed/part_000 *)

Module Part000.
Section Part000.
Context `{W : Package}.
Variable sampleRate : float.

Definition onmessage (data : val) : M unit :=
  payload <- prop data "wasm" ;;
  if truthy payload then
    wasm_initSync payload ;;
    set_this_processFn wasm_process ;;
    hd <- wasm_new_handle sampleRate ;;
    set_this_handle hd
  else
    h <- this_handle ;;
    match h with
    | Some hd =>
        buffers <- prop data "buffers" ;;
        if truthy buffers then
          left <- prop buffers "left" ;;
          right <- prop buffers "right" ;;
          wasm_get_sample left right hd ;;
          left <- prop buffers "left" ;;
          left_buffer <- prop left "buffer" ;;
          right <- prop buffers "right" ;;
          right_buffer <- prop right "buffer" ;;
          this_port_postMessage (VObject [("buffers", buffers)]) [left_buffer; right_buffer]
        else ret tt
    | None => ret tt
    end.

Definition process (inputs outputs : list (list val)) (parameters : val) : M bool :=
  let output := index outputs 0 in
  h <- this_handle ;;
  match h with
  | Some hd =>
      f <- this_processFn ;;
      out0 <- at_index output 0 ;;
      out1 <- at_index output 1 ;;
      call f out0 out1 hd
  | None => ret tt
  end ;;
  ret true.

End Part000.
End Part000.

(** ** src/unnamed/part_001 *)

Module Part001.
Section Part001.
Context `{W : Package}.
(** [Number::toString], as template literals apply it. *)
Variable num_to_string : float -> string.
(** [dst.set(src)] for a source that is neither a typed array nor
    [undefined] or [null] (ECMAScript SetTypedArrayFromArrayLike): from the
    elements of the target and the source to the new elements. *)
Variable set_from_array_like : list float -> val -> result (list float).

Definition size : nat := 256.

Definition with_phase (n : nat) (u : page) : page :=
  {| phase := n; bufLeft := bufLeft u; bufRight := bufRight u;
     play := play u; pathLeft := pathLeft u; pathRight := pathRight u;
     running := running u; frames := frames u |}.
Definition with_buffers (l r : val) (u : page) : page :=
  {| phase := phase u; bufLeft := l; bufRight := r;
     play := play u; pathLeft := pathLeft u; pathRight := pathRight u;
     running := running u; frames := frames u |}.
Definition with_pathLeft (d : string) (u : page) : page :=
  {| phase := phase u; bufLeft := bufLeft u; bufRight := bufRight u;
     play := play u; pathLeft := Some d; pathRight := pathRight u;
     running := running u; frames := frames u |}.
Definition with_pathRight (d : string) (u : page) : page :=
  {| phase := phase u; bufLeft := bufLeft u; bufRight := bufRight u;
     play := play u; pathLeft := pathLeft u; pathRight := Some d;
     running := running u; frames := frames u |}.
Definition with_frames (n : nat) (u : page) : page :=
  {| phase := phase u; bufLeft := bufLeft u; bufRight := bufRight u;
     play := play u; pathLeft := pathLeft u; pathRight := pathRight u;
     running := running u; frames := n |}.
Definition with_running (b : bool) (u : page) : page :=
  {| phase := phase u; bufLeft := bufLeft u; bufRight := bufRight u;
     play := play u; pathLeft := pathLeft u; pathRight := pathRight u;
     running := b; frames := frames u |}.

Definition new_Float32Array (n : nat) : M val :=
  fun w => let '(h, v) := JS.new_Float32Array n (heap_ w) in (with_heap h w, Ret v).

(** [requestAnimationFrame(drawFrame)] *)
Definition requestAnimationFrame : M unit :=
  fun w => (with_ui (with_frames (S (frames (ui w))) (ui w)) w, Ret tt).

(** [document.getElementById('pathLeft').setAttribute('d', d)] *)
Definition set_pathLeft (d : string) : M unit :=
  fun w =>
    match pathLeft (ui w) with
    | Some _ => (with_ui (with_pathLeft d (ui w)) w, Ret tt)
    | None => (w, Throw TypeError)
    end.
Definition set_pathRight (d : string) : M unit :=
  fun w =>
    match pathRight (ui w) with
    | Some _ => (with_ui (with_pathRight d (ui w)) w, Ret tt)
    | None => (w, Throw TypeError)
    end.

(** The text of [${buf[i]}] for one of the module's two arrays. *)
Definition element_text (buf : val) (i : nat) (h : heap) : string :=
  match buf with
  | VFloat32Array a =>
      match samples h a with
      | Some l => match l !! i with Some x => num_to_string x | None => "undefined" end
      | None => "undefined"
      end
  | _ => "undefined"
  end.

Definition float_of_nat (i : nat) : float := of_uint63 (Uint63.of_Z (Z.of_nat i)).

(** Lines 35-39 and 41-45: the path data of one channel. *)
Definition path_data (buf : val) (h : heap) : string :=
  let d :=
    fold_left
      (fun d i =>
         d ++ num_to_string (float_of_nat i * 6.28 / float_of_nat size)%float
           ++ " " ++ element_text buf i h ++ " L ")%string
      (seq 0 size) "M " in
  (d ++ "6.283 " ++ element_text buf 0 h)%string.

Definition mirror_request (l r : val) : val :=
  VObject [("buffer", VObject [("left", l); ("right", r)])].

Definition drawFrame : M unit :=
  dLeft <- (fun w => (w, Ret (path_data (bufLeft (ui w)) (heap_ w)))) ;;
  set_pathLeft dLeft ;;
  dRight <- (fun w => (w, Ret (path_data (bufRight (ui w)) (heap_ w)))) ;;
  set_pathRight dRight ;;
  requestAnimationFrame ;;
  l <- (fun w => (w, Ret (bufLeft (ui w)))) ;;
  r <- (fun w => (w, Ret (bufRight (ui w)))) ;;
  node_port_postMessage (mirror_request l r) [].

(** [dst.set(src)] *)
Definition typed_array_set (dst src : val) : M unit :=
  match dst with
  | VFloat32Array d =>
      match src with
      | VFloat32Array s =>
          fun w =>
            match set_from_typed_array d s (heap_ w) with
            | Ret h => (with_heap h w, Ret tt)
            | Throw e => (w, Throw e)
            end
      | VUndefined | VNull => throw TypeError
      | _ =>
          fun w =>
            match samples (heap_ w) d with
            | Some old =>
                match set_from_array_like old src with
                | Ret new => (with_heap (<[d := Samples new]> (heap_ w)) w, Ret tt)
                | Throw e => (w, Throw e)
                end
            | None => (w, Throw TypeError)
            end
      end
  | _ => throw TypeError
  end.

(** [node.port.onmessage], applied to [ev.data]. *)
Definition onmessage (data : val) : M unit :=
  bL <- (fun w => (w, Ret (bufLeft (ui w)))) ;;
  buffer <- prop data "buffer" ;;
  left <- prop buffer "left" ;;
  typed_array_set bL left ;;
  bR <- (fun w => (w, Ret (bufRight (ui w)))) ;;
  buffer <- prop data "buffer" ;;
  right <- prop buffer "right" ;;
  typed_array_set bR right.

(** The top level up to the first message (lines 1-10): the node is made,
    which constructs the processor in the worklet realm with both fields
    unassigned, the binary is fetched and posted. *)
Definition main_boot (fetched : list Byte.byte) : M unit :=
  a <- alloc (Bytes fetched) ;;
  node_port_postMessage (VObject [("wasm", VArrayBuffer a)]) [] ;;
  (fun w => (with_ui (with_phase 1 (ui w)) w, Ret tt)).

(** [document.getElementById('play').addEventListener('input', ...)] *)
Definition listen_to_play : M unit :=
  fun w => if play (ui w) then (w, Ret tt) else (w, Throw TypeError).

(** The listener of the play checkbox (lines 17-22): [ctx.resume()] when it
    is checked, [ctx.suspend()] when it is not. *)
Definition play_input (checked : bool) : M unit :=
  fun w => (with_ui (with_running checked (ui w)) w, Ret tt).

(** The rest of the top level, once the document is loaded (lines 12-51).
    It can only fail at its first statement, before it has changed
    anything. *)
Definition main_display : M unit :=
  listen_to_play ;;
  l <- new_Float32Array size ;;
  r <- new_Float32Array size ;;
  (fun w => (with_ui (with_buffers l r (ui w)) w, Ret tt)) ;;
  node_port_postMessage (mirror_request l r) [] ;;
  (fun w => (with_ui (with_phase 2 (ui w)) w, Ret tt)) ;;
  requestAnimationFrame.

End Part001.
End Part001.

(** ** The page and the worklet together *)

Module System.
Section System.
Context `{W : Package}.
Variable sampleRate : float.
Variable num_to_string : float -> string.
Variable set_from_array_like : list float -> val -> result (list float).

(** Which revision of the worklet is loaded as [worklet.js]. *)
Inductive revision : Type := worklet_js | part_000.

Definition processor_onmessage (v : revision) : val -> M unit :=
  match v with
  | worklet_js => Worklet.onmessage sampleRate
  | part_000 => Part000.onmessage sampleRate
  end.

Definition processor_process (v : revision) : list (list val) -> list (list val) -> val -> M bool :=
  match v with
  | worklet_js => Worklet.process
  | part_000 => Part000.process
  end.

(** What the browser does next. *)
Inductive event : Type :=
| Boot (fetched : list Byte.byte)  (** the page script runs up to its first message: the
                                       context, the worklet module and the node are set
                                       up and the fetch answers [fetched] *)
| Loaded                           (** the document is loaded: the rest of the top level *)
| Input (checked : bool)           (** the user sets the play checkbox *)
| Frame                            (** a requested animation frame callback runs *)
| ToWorklet                        (** the oldest message for the processor is delivered *)
| ToPage                           (** the oldest message for the page is delivered *)
| Audio.                           (** a render quantum while the context runs: [process]
                                       on a fresh output block *)

(** An exception that escapes a callback is reported by the browser; the
    world stays as the callback left it. *)
Definition after {A : Type} (c : M A) (w : world) : world := fst (c w).

Definition quantum : nat := 128.

Definition audio_callback (v : revision) : M bool :=
  out0 <- Part001.new_Float32Array quantum ;;
  out1 <- Part001.new_Float32Array quantum ;;
  processor_process v [[]] [[out0; out1]] (VObject []).

Definition step (v : revision) (e : event) (w : world) : world :=
  match e with
  | Boot fetched =>
      if phase (ui w) =? 0 then after (Part001.main_boot fetched) w else w
  | Loaded =>
      if phase (ui w) =? 1 then after Part001.main_display w else w
  | Input checked =>
      if phase (ui w) =? 2 then after (Part001.play_input checked) w else w
  | Frame =>
      match frames (ui w) with
      | S n =>
          after (Part001.drawFrame num_to_string)
                (with_ui (Part001.with_frames n (ui w)) w)
      | O => w
      end
  | ToWorklet =>
      match to_worklet w with
      | data :: rest => after (processor_onmessage v data) (with_to_worklet rest w)
      | [] => w
      end
  | ToPage =>
      if phase (ui w) =? 2 then
        match to_page w with
        | data :: rest =>
            after (Part001.onmessage set_from_array_like data) (with_to_page rest w)
        | [] => w
        end
      else w
  | Audio =>
      if negb (phase (ui w) =? 0) && running (ui w) then after (audio_callback v) w else w
  end.

Definition run (v : revision) (es : list event) (w : world) : world :=
  fold_left (fun w e => step v e w) es w.

(** Before the page script starts: whether the document has the play
    checkbox and the two path elements, and whether the browser lets a new
    audio context run at once. *)
Definition initial (checkbox : bool) (dL dR : option string) (autoplay : bool) : world :=
  {| heap_ := [];
     wasm := imported;
     this := {| handle := None; processFn := None |};
     ui := {| phase := 0; bufLeft := VUndefined; bufRight := VUndefined;
              play := checkbox; pathLeft := dL; pathRight := dR;
              running := autoplay; frames := 0 |};
     to_worklet := [];
     to_page := [] |}.

End System.
End System.

(** ** A package to run the model with *)

Module Sawtooth.

(** A stand-in for the synthesis module that meets the contract of
    [Wasm.Package]: any non-empty binary instantiates it, the one generator
    counts the samples it has produced, and sample [k] of the stream is
    [(k mod 3) - 1]. *)
Definition sample_at (k : nat) : float :=
  (of_uint63 (Uint63.of_Z (Z.of_nat (k mod 3))) - 1)%float.

Definition stream (k n : nat) : list float := map (fun i => sample_at (k + i)) (seq 0 n).

Definition initSync (payload : val) (h : heap) (m : option nat) : option nat * result unit :=
  match payload with
  | VArrayBuffer a =>
      match h !! a with
      | Some (Bytes (_ :: _)) => (Some 0, Ret tt)
      | _ => (m, Throw (ForeignError 1))
      end
  | _ => (m, Throw TypeError)
  end.

Definition new_handle (rate : float) (m : option nat) : option nat * result nat :=
  match m with
  | Some _ => if (0 <? rate)%float then (m, Ret 1) else (m, Throw (ForeignError 2))
  | None => (m, Throw TypeError)
  end.

Definition fill (left right : val) (hd : nat) (m : option nat) (h : heap)
  : option nat * heap * result unit :=
  match m, left, right with
  | Some k, VFloat32Array a, VFloat32Array b =>
      match samples h a, samples h b with
      | Some l, Some r =>
          if negb (hd =? 1) then (m, h, Throw (ForeignError 3))
          else if negb (length l =? length r) then (m, h, Throw (ForeignError 4))
          else
            let n := length l in
            (Some (k + 2 * n),
             <[b := Samples (stream (k + n) n)]> (<[a := Samples (stream k n)]> h),
             Ret tt)
      | _, _ => (m, h, Throw TypeError)
      end
  | _, _, _ => (m, h, Throw TypeError)
  end.

End Sawtooth.


(** ** The vocabulary of the protocol *)

Module Protocol.
Section Protocol.
Context `{W : Package}.

(** The render endpoint is Ready once [this.handle] holds a handle, and
    Uninitialized before. *)
Definition ready (w : world) : bool :=
  match handle (this w) with Some _ => true | None => false end.

(** The processor holds a handle and the fill function to call with it. *)
Definition serving (w : world) : Prop :=
  exists hd, handle (this w) = Some hd /\ processFn (this w) = Some wasm_process.

(** A bootstrap message carries a truthy [wasm] field. *)
Definition is_bootstrap (data : val) : bool :=
  match get data "wasm" with
  | Ret payload => truthy payload
  | Throw _ => false
  end.

(** A mirror request carries buffers, under [buffer] as the page script and
    src/worklet.js name them or under [buffers] as part_000 does, and no
    payload. *)
Definition is_mirror_request (data : val) : bool :=
  match get data "wasm", get data "buffer", get data "buffers" with
  | Ret payload, Ret b, Ret bs => negb (truthy payload) && (truthy b || truthy bs)
  | _, _, _ => false
  end.

(** Mirror traffic under way: requests posted to the worklet and not yet
    delivered, and replies posted to the page and not yet delivered. *)
Definition in_flight (w : world) : nat :=
  length (List.filter is_mirror_request (to_worklet w)) + length (to_page w).

(** The page once its top level has run: both arrays exist and are
    attached, the document has both path elements, a frame is requested. *)
Definition page_running (w : world) : Prop :=
  exists (a b : nat) (dL dR : string),
    bufLeft (ui w) = VFloat32Array a /\ bufRight (ui w) = VFloat32Array b /\
    Port.attached (heap_ w) a /\ Port.attached (heap_ w) b /\
    pathLeft (ui w) = Some dL /\ pathRight (ui w) = Some dR /\
    0 < frames (ui w).

End Protocol.
End Protocol.
Export Protocol.

(** ** What runs of the system are measured by *)

Module Mirror.
Section Mirror.
Context `{W : Package}.

(** [keeps h h']: every buffer attached in [h] is attached in [h']. *)
Definition keeps (h h' : heap) : Prop :=
  forall a, Port.attached h a -> Port.attached h' a.

(** Nothing waits for the page, and no message on its way to the worklet
    has a field [k]. *)
Definition unanswerable (k : string) (w : world) : Prop :=
  to_page w = [] /\ Forall (fun d => get d k = Ret VUndefined) (to_worklet w).

(** The page has at most one frame callback pending, and none before its top
    level is through. *)
Definition one_frame (w : world) : Prop :=
  frames (ui w) <= 1 /\ (phase (ui w) < 2 -> frames (ui w) = 0).

(** The page of a document without the play checkbox: its script has not
    got past installing the listener, so there are no arrays and no frame
    callback. *)
Definition stuck (w : world) : Prop :=
  play (ui w) = false /\ phase (ui w) <= 1 /\ frames (ui w) = 0 /\
  bufLeft (ui w) = VUndefined /\ bufRight (ui w) = VUndefined.

(** The audio context resumed or suspended, as the listener of the play
    checkbox leaves it. *)
Definition set_running (b : bool) (w : world) : world :=
  with_ui (Part001.with_running b (ui w)) w.

(** [blind b c]: the computation [c] does the same whether or not the audio
    context runs. *)
Definition blind {A : Type} (b : bool) (c : M A) : Prop :=
  forall w, c (set_running b w) = (set_running b (fst (c w)), snd (c w)).

End Mirror.
End Mirror.
Export Mirror.

(** ** Structured clone, transfer and filling *)

Lemma val_induction (P : val -> Prop) :
  P VUndefined -> P VNull -> (forall b, P (VBool b)) -> (forall x, P (VNumber x)) ->
  (forall s, P (VString s)) -> (forall a, P (VArrayBuffer a)) ->
  (forall a, P (VFloat32Array a)) ->
  (forall fields, Forall (fun kx => P (snd kx)) fields -> P (VObject fields)) ->
  forall v, P v.
Proof.
  intros Hu Hn Hb Hx Hs Hab Hfa Hobj.
  fix IH 1. intros [| | b | x | s | a | a | fields].
  - exact Hu.
  - exact Hn.
  - apply Hb.
  - apply Hx.
  - apply Hs.
  - apply Hab.
  - apply Hfa.
  - apply Hobj. induction fields as [|kx rest IHrest]; constructor;
      [apply IH|exact IHrest].
Qed.

Lemma each_address_object (P : nat -> Prop) (fields : list (string * val)) :
  Port.each_address P (VObject fields) <-> Forall (fun kx => Port.each_address P (snd kx)) fields.
Proof.
  induction fields as [|kx rest IH].
  - split; [constructor|intros _; exact I].
  - change (Port.each_address P (VObject (kx :: rest)))
      with (Port.each_address P (snd kx) /\ Port.each_address P (VObject rest)).
    rewrite IH. split.
    + intros [H1 H2]. constructor; assumption.
    + intros H. inversion H; subst. split; assumption.
Qed.

Lemma each_address_impl (P Q : nat -> Prop) (v : val) :
  (forall a, P a -> Q a) -> Port.each_address P v -> Port.each_address Q v.
Proof.
  intros HPQ. induction v as [| | | | | a | a | fields IH] using val_induction;
    try (intros; exact I); try (cbn; apply HPQ).
  rewrite !each_address_object. intros H.
  induction H as [|kx rest Hx Hrest IHrest]; constructor.
  - inversion IH; subst. auto.
  - inversion IH; subst. auto.
Qed.

Lemma observe_ext (h h' : heap) (v : val) :
  Port.each_address (fun a => h' !! a = h !! a) v -> Port.observe h' v = Port.observe h v.
Proof.
  induction v as [| | | | | a | a | fields IH] using val_induction;
    try reflexivity; try (cbn; intros ->; reflexivity).
  rewrite each_address_object. intros H. cbn [Port.observe]. f_equal.
  induction H as [|kx rest Hx Hrest IHrest]; [reflexivity|].
  inversion IH; subst. cbn [map]. f_equal; [f_equal|]; auto.
Qed.

Lemma prefix_lookup_lt (h h' : heap) (a : nat) :
  h `prefix_of` h' -> a < length h -> h' !! a = h !! a.
Proof.
  intros Hp Ha. destruct (lookup_lt_is_Some_2 h a Ha) as [c Hc].
  rewrite Hc. eapply prefix_lookup_Some; eauto.
Qed.

Lemma observe_prefix (h h' : heap) (v : val) :
  h `prefix_of` h' -> Port.each_address (fun a => a < length h) v ->
  Port.observe h' v = Port.observe h v.
Proof.
  intros Hp Hv. apply observe_ext. eapply each_address_impl; [|exact Hv].
  intros a Ha. apply prefix_lookup_lt; assumption.
Qed.

Lemma memory_ok_prefix (h0 h h' : heap) (m : Port.memory) :
  Port.memory_ok h0 m h -> h `prefix_of` h' -> Port.memory_ok h0 m h'.
Proof.
  intros Hm Hp a a' Hr. destruct (Hm a a' Hr) as (Hle & c & Hc & Hc').
  split; [exact Hle|]. exists c. split; [exact Hc|].
  eapply prefix_lookup_Some; eauto.
Qed.

Lemma clone_buffer_ok (h0 : heap) (a : nat) (m : Port.memory) (h : heap) :
  Port.attached h0 a -> h0 `prefix_of` h -> Port.memory_ok h0 m h ->
  exists a' m' h',
    Port.clone_buffer a m h = Ret (a', m', h') /\ h `prefix_of` h' /\ Port.memory_ok h0 m' h' /\
    h' !! a' = h0 !! a /\ length h0 <= a' < length h'.
Proof.
  intros (c & Hc & Hatt) Hp Hm. unfold Port.clone_buffer.
  destruct (Port.recall a m) as [a'|] eqn:Hr.
  - exists a', m, h. destruct (Hm a a' Hr) as (Hle & c' & Hc' & Hh).
    split; [reflexivity|]. split; [reflexivity|]. split; [exact Hm|].
    split; [congruence|]. split; [exact Hle|].
    apply lookup_lt_is_Some. eauto.
  - assert (Hh : h !! a = Some c) by (eapply prefix_lookup_Some; eauto).
    rewrite Hh.
    assert (Hnew : (h ++ [c]) !! length h = Some c)
      by (rewrite lookup_app_r by lia; rewrite Nat.sub_diag; reflexivity).
    assert (Hext : h `prefix_of` h ++ [c]) by (apply prefix_app_r; reflexivity).
    assert (Hlen : length h0 <= length h) by (apply prefix_length; exact Hp).
    assert (Hmem : Port.memory_ok h0 ((a, length h) :: m) (h ++ [c])).
    { intros b b' Hb. cbn [Port.recall] in Hb.
      destruct (b =? a) eqn:Hba.
      - apply Nat.eqb_eq in Hba. subst b. injection Hb as <-.
        split; [exact Hlen|]. exists c. split; assumption.
      - eapply memory_ok_prefix; eauto. }
    destruct c as [b | l |]; [| |congruence].
    + exists (length h), ((a, length h) :: m), (h ++ [Bytes b]).
      split; [reflexivity|]. split; [exact Hext|]. split; [exact Hmem|].
      split; [congruence|]. split; [exact Hlen|]. rewrite length_app. cbn. lia.
    + exists (length h), ((a, length h) :: m), (h ++ [Samples l]).
      split; [reflexivity|]. split; [exact Hext|]. split; [exact Hmem|].
      split; [congruence|]. split; [exact Hlen|]. rewrite length_app. cbn. lia.
Qed.

Lemma clone_fields_ok (h0 : heap) (fields : list (string * val)) :
  Forall (fun kx => Port.clone_ok h0 (snd kx)) fields ->
  forall m h, Port.live h0 (VObject fields) -> h0 `prefix_of` h -> Port.memory_ok h0 m h ->
  exists fields' m' h',
    Port.clone_fields Port.clone fields m h = Ret (fields', m', h') /\
    h `prefix_of` h' /\ Port.memory_ok h0 m' h' /\
    Port.copied h0 h' (VObject fields) (VObject fields').
Proof.
  induction 1 as [|[k x] rest Hx Hrest IH]; intros m h Hlive Hp Hm.
  - exists [], m, h. split; [reflexivity|]. split; [reflexivity|]. split; [exact Hm|].
    split; [reflexivity|exact I].
  - unfold Port.live in Hlive. rewrite each_address_object in Hlive.
    inversion Hlive as [|? ? Hlx Hlrest]; subst. cbn [snd] in Hlx, Hx.
    destruct (Hx m h Hlx Hp Hm) as (x' & m1 & h1 & Hcx & Hp1 & Hm1 & Hox & Hbx).
    assert (Hp01 : h0 `prefix_of` h1) by (etransitivity; eauto).
    assert (Hlr : Port.live h0 (VObject rest))
      by (unfold Port.live; rewrite each_address_object; exact Hlrest).
    destruct (IH m1 h1 Hlr Hp01 Hm1) as (rest' & m2 & h2 & Hcr & Hp2 & Hm2 & Hor & Hbr).
    exists ((k, x') :: rest'), m2, h2.
    cbn [Port.clone_fields]. rewrite Hcx.
    change (Port.clone_fields Port.clone rest m1 h1 = Ret (rest', m2, h2)) in Hcr.
    rewrite Hcr.
    split; [reflexivity|]. split; [etransitivity; eauto|]. split; [exact Hm2|].
    split.
    + assert (Hx2 : Port.observe h2 x' = Port.observe h0 x).
      { rewrite <- Hox. apply observe_prefix; [exact Hp2|].
        eapply each_address_impl; [|exact Hbx]. cbn. intros; lia. }
      cbn [Port.observe map fst snd]. cbn [Port.observe] in Hor.
      injection Hor as Hor. rewrite Hor, Hx2. reflexivity.
    + rewrite each_address_object. constructor.
      * cbn [snd]. eapply each_address_impl; [|exact Hbx]. cbn.
        intros a Ha. pose proof (prefix_length _ _ Hp2). lia.
      * rewrite <- each_address_object. exact Hbr.
Qed.

Lemma clone_spec (h0 : heap) (v : val) : Port.clone_ok h0 v.
Proof.
  induction v as [| | b | x | s | a | a | fields IH] using val_induction;
    intros m h Hlive Hp Hm.
  1-5: eexists _, m, h; (split; [reflexivity|]); (split; [reflexivity|]);
    (split; [exact Hm|]); (split; [reflexivity|exact I]).
  - destruct (clone_buffer_ok h0 a m h Hlive Hp Hm) as (a' & m' & h' & Hc & Hp' & Hm' & Hl & Hb).
    exists (VArrayBuffer a'), m', h'. cbn [Port.clone]. rewrite Hc.
    split; [reflexivity|]. split; [exact Hp'|]. split; [exact Hm'|].
    split; [cbn; congruence|cbn; lia].
  - destruct (clone_buffer_ok h0 a m h Hlive Hp Hm) as (a' & m' & h' & Hc & Hp' & Hm' & Hl & Hb).
    exists (VFloat32Array a'), m', h'. cbn [Port.clone]. rewrite Hc.
    split; [reflexivity|]. split; [exact Hp'|]. split; [exact Hm'|].
    split; [cbn; congruence|cbn; lia].
  - destruct (clone_fields_ok h0 fields IH m h Hlive Hp Hm)
      as (fields' & m' & h' & Hc & Hp' & Hm' & Hcopied).
    exists (VObject fields'), m', h'. cbn [Port.clone]. rewrite Hc.
    split; [reflexivity|]. split; [exact Hp'|]. split; [exact Hm'|]. exact Hcopied.
Qed.

Lemma memory_ok_nil (h : heap) : Port.memory_ok h [] h.
Proof. intros a a' Hr. discriminate. Qed.

(** Posting without a transfer list copies: the heap only grows, and the
    message that arrives refers to new buffers holding what the old ones
    held. *)
Lemma postMessage_copies (h : heap) (v : val) :
  Port.live h v ->
  exists v' h',
    Port.postMessage v [] h = Ret (h', v') /\ h `prefix_of` h' /\ Port.copied h h' v v'.
Proof.
  intros Hlive.
  destruct (clone_spec h v [] h Hlive) as (v' & m' & h' & Hc & Hp & _ & Hcopied);
    [reflexivity|apply memory_ok_nil|].
  exists v', h'. unfold Port.postMessage, Port.transferables.
  cbn [forallb Port.transferable_buffers]. rewrite Hc.
  split; [reflexivity|]. split; assumption.
Qed.

Lemma detach_lookup_old (ids : list nat) (h : heap) (a : nat) :
  ~ In a ids -> Port.detach ids h !! a = h !! a.
Proof.
  unfold Port.detach. revert h. induction ids as [|i ids IH]; intros h Hn; [reflexivity|].
  cbn [fold_left]. rewrite IH by (intros Hin; apply Hn; right; exact Hin).
  apply list_lookup_insert_ne. intros ->. apply Hn. left. reflexivity.
Qed.

Lemma detach_length (ids : list nat) (h : heap) : length (Port.detach ids h) = length h.
Proof.
  unfold Port.detach. revert h. induction ids as [|i ids IH]; intros h; [reflexivity|].
  cbn [fold_left]. rewrite IH. apply length_insert.
Qed.

Lemma detach_lookup_detached (ids : list nat) (h : heap) (a : nat) :
  In a ids -> a < length h -> Port.detach ids h !! a = Some Detached.
Proof.
  unfold Port.detach. revert h. induction ids as [|i ids IH]; intros h Hin Ha; [destruct Hin|].
  cbn [fold_left]. destruct (in_dec Nat.eq_dec a ids) as [Hin'|Hnot].
  - apply IH; [exact Hin'|]. rewrite length_insert. exact Ha.
  - destruct Hin as [->|Hin]; [|contradiction].
    fold (Port.detach ids (<[a := Detached]> h)). rewrite detach_lookup_old by exact Hnot.
    apply list_lookup_insert_eq. exact Ha.
Qed.

Lemma attached_lt (h : heap) (a : nat) : Port.attached h a -> a < length h.
Proof. intros (c & Hc & _). apply lookup_lt_is_Some. eauto. Qed.

(** Posting with two distinct attached buffers in the transfer list moves
    them: the message arrives in new buffers holding what the old ones held,
    and the two old buffers are detached where they were. *)
Lemma postMessage_transfers (h : heap) (v : val) (la ra : nat) :
  Port.live h v -> Port.attached h la -> Port.attached h ra -> la <> ra ->
  exists v' h',
    Port.postMessage v [VArrayBuffer la; VArrayBuffer ra] h = Ret (h', v') /\
    length h <= length h' /\
    h' !! la = Some Detached /\ h' !! ra = Some Detached /\
    (forall a, a < length h -> a <> la -> a <> ra -> h' !! a = h !! a) /\
    Port.observe h' v' = Port.observe h v /\
    Port.each_address (fun a => length h <= a < length h') v'.
Proof.
  intros Hlive Hla Hra Hne.
  destruct (clone_spec h v [] h Hlive) as (v' & m' & h1 & Hc & Hp & _ & Hobs & Hnew);
    [reflexivity|apply memory_ok_nil|].
  pose proof (attached_lt _ _ Hla) as Hla_lt. pose proof (attached_lt _ _ Hra) as Hra_lt.
  pose proof (prefix_length _ _ Hp) as Hlen.
  exists v', (Port.detach [la; ra] h1). unfold Port.postMessage.
  assert (Ht : Port.transferables [VArrayBuffer la; VArrayBuffer ra] h = Ret [la; ra]).
  { unfold Port.transferables. cbn [forallb Port.is_object andb Port.transferable_buffers].
    destruct Hla as (cl & -> & Hcl). destruct Hra as (cr & -> & Hcr).
    apply Nat.eqb_neq in Hne.
    destruct cl; destruct cr; try contradiction; cbn [existsb]; rewrite Hne; reflexivity. }
  rewrite Ht, Hc.
  assert (Hold : forall a, length h <= a -> ~ In a [la; ra]).
  { intros a Ha [<-|[<-|[]]]; lia. }
  split; [reflexivity|]. split; [rewrite detach_length; exact Hlen|].
  split; [apply detach_lookup_detached; [left; reflexivity|lia]|].
  split; [apply detach_lookup_detached; [right; left; reflexivity|lia]|].
  split.
  { intros a Ha Hal Har. rewrite detach_lookup_old.
    - apply prefix_lookup_lt; assumption.
    - intros [<-|[<-|[]]]; congruence. }
  split.
  - rewrite <- Hobs. apply observe_ext. eapply each_address_impl; [|exact Hnew].
    intros a Ha. cbn beta in Ha |- *. apply detach_lookup_old, Hold. lia.
  - rewrite detach_length. exact Hnew.
Qed.

Lemma each_address_get (P : nat -> Prop) (v x : val) (k : string) :
  Port.each_address P v -> get v k = Ret x -> Port.each_address P x.
Proof.
  destruct v as [| | b | y | s | a | a | fields]; cbn [get]; intros Hv Hg;
    try discriminate; try (injection Hg as <-; exact I).
  - injection Hg as <-. destruct (String.eqb k "buffer"); [exact Hv|exact I].
  - injection Hg as <-. rewrite each_address_object in Hv.
    induction Hv as [|[k' y] rest Hy Hrest IH]; [exact I|].
    cbn [lookup_field]. destruct (String.eqb k k'); [exact Hy|exact IH].
Qed.

(** Reading a property commutes with observation: two messages that look
    the same have fields that look the same. *)
Lemma observe_get (h h' : heap) (v v' x : val) (k : string) :
  Port.observe h' v' = Port.observe h v -> get v k = Ret x ->
  exists x', get v' k = Ret x' /\ Port.observe h' x' = Port.observe h x.
Proof.
  intros Hobs Hg.
  destruct v as [| | b | y | s | a | a | fields];
    destruct v' as [| | b' | y' | s' | a' | a' | fields'];
    try discriminate; cbn [get] in *; try discriminate;
    try (injection Hg as <-; eexists; split; reflexivity).
  - injection Hg as <-. eexists. split; [reflexivity|].
    cbn [Port.observe] in Hobs. injection Hobs as Hobs.
    destruct (String.eqb k "buffer"); [cbn [Port.observe]; congruence|reflexivity].
  - injection Hg as <-. eexists. split; [reflexivity|].
    cbn [Port.observe] in Hobs. injection Hobs as Hobs.
    revert fields' Hobs. induction fields as [|[k0 y] rest IH]; intros [|[k0' y'] rest'] Hobs;
      try discriminate; [reflexivity|].
    cbn [map fst snd] in Hobs. injection Hobs as -> Hy Hrest.
    cbn [lookup_field]. destruct (String.eqb k k0); [exact Hy|apply IH; exact Hrest].
Qed.

Lemma fills_observe (targets : list val) (h h' : heap) (x : val) :
  fills targets h h' ->
  Port.each_address (fun a => ~ In (VFloat32Array a) targets) x ->
  Port.observe h' x = Port.observe h x.
Proof.
  intros [_ Hcells] Hx. apply observe_ext. eapply each_address_impl; [|exact Hx].
  intros a Ha. cbn beta in Ha |- *. destruct (Hcells a) as [Hsame|[Hin _]]; [exact Hsame|].
  contradiction.
Qed.

Lemma targeted_in (targets : list val) (a : nat) :
  In (VFloat32Array a) targets -> Port.targeted targets a = true.
Proof.
  intros Hin. unfold Port.targeted. apply existsb_exists.
  exists (VFloat32Array a). split; [exact Hin|]. apply Nat.eqb_refl.
Qed.

(** Filling changes nothing but the sample contents of its targets. *)
Lemma fills_erase (targets : list val) (h h' : heap) :
  fills targets h h' -> Port.erase targets h' = Port.erase targets h.
Proof.
  intros [Hlen Hcells]. apply list_eq. intros a. unfold Port.erase.
  rewrite !list_lookup_imap.
  destruct (Hcells a) as [->|(Hin & l & l' & -> & -> & Hll)]; [reflexivity|].
  cbn. rewrite (targeted_in _ _ Hin). cbn. rewrite Hll. reflexivity.
Qed.

Lemma fills_attached (targets : list val) (h h' : heap) (a : nat) :
  fills targets h h' -> Port.attached h a -> Port.attached h' a.
Proof.
  intros [_ Hcells] (c & Hc & Hatt).
  destruct (Hcells a) as [Hsame|(_ & l & l' & _ & Hl' & _)].
  - exists c. split; [congruence|exact Hatt].
  - exists (Samples l'). split; [exact Hl'|discriminate].
Qed.

Lemma fills_live (targets : list val) (h h' : heap) (v : val) :
  fills targets h h' -> Port.live h v -> Port.live h' v.
Proof.
  intros Hf. apply each_address_impl. intros a. apply (fills_attached targets). exact Hf.
Qed.

(** ** The stand-in package meets the contract *)

Lemma fills_refl (targets : list val) (h : heap) : fills targets h h.
Proof. split; [reflexivity|]. intros a; left; reflexivity. Qed.

Lemma fills_write (targets : list val) (h h' : heap) (a : nat) (old new : list float) :
  fills targets h h' -> In (VFloat32Array a) targets ->
  samples h' a = Some old -> length new = length old ->
  fills targets h (<[a := Samples new]> h').
Proof.
  intros [Hlen Hcells] Ha Hold Hnew. split.
  - rewrite length_insert. exact Hlen.
  - intros b. destruct (decide (a = b)) as [<-|Hne].
    + right. split; [exact Ha|].
      unfold samples in Hold.
      destruct (h' !! a) as [[| l' |]|] eqn:Hcell; try discriminate.
      injection Hold as ->.
      assert (Hin : a < length h') by (apply lookup_lt_is_Some; eauto).
      rewrite list_lookup_insert_eq by exact Hin.
      destruct (Hcells a) as [Hsame | (_ & l & l'' & Hl & Hl' & Hll)].
      * exists old, new. rewrite <- Hsame, Hcell. auto.
      * exists l, new. rewrite Hcell in Hl'. injection Hl' as <-.
        split; [exact Hl|]. split; [reflexivity|]. congruence.
    + rewrite list_lookup_insert_ne by exact Hne. apply Hcells.
Qed.

Lemma sawtooth_stream_length (k n : nat) : length (Sawtooth.stream k n) = n.
Proof. unfold Sawtooth.stream. rewrite length_map. apply length_seq. Qed.

Lemma sawtooth_fill_fills left right hd m h m' h' r :
  Sawtooth.fill left right hd m h = (m', h', r) -> fills [left; right] h h'.
Proof.
  unfold Sawtooth.fill. intros H.
  destruct m as [k|]; [|inversion H; subst; apply fills_refl].
  destruct left; try (inversion H; subst; apply fills_refl).
  destruct right; try (inversion H; subst; apply fills_refl).
  destruct (samples h a) as [l|] eqn:Hl; [|inversion H; subst; apply fills_refl].
  destruct (samples h a0) as [l0|] eqn:Hl0; [|inversion H; subst; apply fills_refl].
  destruct (negb (hd =? 1)); [inversion H; subst; apply fills_refl|].
  destruct (length l =? length l0) eqn:Hlen; simpl in H;
    inversion H; subst; [|apply fills_refl].
  apply Nat.eqb_eq in Hlen.
  assert (Hfirst : fills [VFloat32Array a; VFloat32Array a0] h
                     (<[a := Samples (Sawtooth.stream k (length l))]> h)).
  { eapply fills_write; [apply fills_refl|left; reflexivity|exact Hl|].
    apply sawtooth_stream_length. }
  destruct (decide (a = a0)) as [<-|Hne].
  - eapply fills_write; [exact Hfirst|left; reflexivity| |].
    + unfold samples. rewrite list_lookup_insert_eq; [reflexivity|].
      unfold samples in Hl. apply lookup_lt_is_Some.
      destruct (h !! a); [eauto|discriminate].
    + rewrite !sawtooth_stream_length. reflexivity.
  - eapply fills_write; [exact Hfirst|right; left; reflexivity| |].
    + unfold samples. rewrite list_lookup_insert_ne by exact Hne. exact Hl0.
    + rewrite sawtooth_stream_length. exact Hlen.
Qed.

(** ** A concrete setting for examples *)

Module Demo.

Definition package : Package :=
  {| Handle := nat;
     Module_ := option nat;
     imported := None;
     initSync := Sawtooth.initSync;
     new_handle := Sawtooth.new_handle;
     get_sample := Sawtooth.fill;
     process := Sawtooth.fill;
     get_sample_fills := sawtooth_fill_fills;
     process_fills := sawtooth_fill_fills |}.

Definition sampleRate : float := 48000%float.
Definition num_to_string (x : float) : string := "0".
Definition set_from_array_like (old : list float) (src : val) : result (list float) := Ret old.

(** A document with the checkbox and both path elements, and a browser
    that lets audio run, before the page script starts. *)
Definition start : @world package :=
  System.initial (W := package) true (Some "") (Some "") true.

Definition run (v : System.revision) (es : list System.event) : @world package :=
  System.run (W := package) sampleRate num_to_string set_from_array_like v es start.

Definition binary : list Byte.byte := [Byte.x01].

(** The page has loaded; nothing has been delivered yet. *)
Definition loaded : @world package := run System.worklet_js [System.Boot binary; System.Loaded].
(** The bootstrap message has been delivered to src/worklet.js. *)
Definition booted : @world package :=
  run System.worklet_js [System.Boot binary; System.Loaded; System.ToWorklet].
(** The first mirror request has been serviced; its reply is on its way. *)
Definition replied : @world package :=
  run System.worklet_js [System.Boot binary; System.Loaded; System.ToWorklet; System.ToWorklet].
(** The same page with part_000 as the worklet, bootstrap delivered. *)
Definition booted_000 : @world package :=
  run System.part_000 [System.Boot binary; System.Loaded; System.ToWorklet].
(** The fetch answered an empty binary: the bootstrap message has been
    delivered and has failed. *)
Definition failed : @world package :=
  run System.worklet_js [System.Boot []; System.Loaded; System.ToWorklet].

Definition request (a b : nat) : val :=
  Part001.mirror_request (VFloat32Array a) (VFloat32Array b).
Definition request_000 (a b : nat) : val :=
  VObject [("buffers", VObject [("left", VFloat32Array a); ("right", VFloat32Array b)])].
Definition zeros : list float := repeat 0%float 256.

(** The one handle the stand-in gives out, the instance after [k] samples,
    and the fields of a processor that has bootstrapped. *)
Definition the_handle : @Handle package := 1.
Definition instance (k : nat) : @Module_ package := Some k.
Definition ready_fields : @processor package :=
  {| handle := Some the_handle; processFn := Some wasm_process |}.

Definition step : System.revision -> System.event -> @world package -> @world package :=
  System.step (W := package) sampleRate num_to_string set_from_array_like.

End Demo.

(** ** The render endpoint before bootstrap *)

Section Uninitialized.
Context `{W : Package}.
Variable sampleRate : float.

Lemma mirror_request_no_payload (data : val) :
  is_mirror_request data = true ->
  exists payload, get data "wasm" = Ret payload /\ truthy payload = false.
Proof.
  unfold is_mirror_request. intros H.
  destruct (get data "wasm") as [payload|]; [|discriminate].
  exists payload. split; [reflexivity|].
  destruct (get data "buffer"); [|discriminate].
  destruct (get data "buffers"); [|discriminate].
  destruct (truthy payload); [discriminate|reflexivity].
Qed.

Lemma worklet_onmessage_uninitialized (w : world) (data : val) :
  handle (this w) = None -> is_mirror_request data = true ->
  Worklet.onmessage sampleRate data w = (w, Ret tt).
Proof.
  intros Hh Hreq. destruct (mirror_request_no_payload data Hreq) as (p & Hp & Hfalsy).
  unfold Worklet.onmessage, bind, prop, lift. rewrite Hp, Hfalsy.
  unfold this_handle. rewrite Hh. reflexivity.
Qed.

Lemma part000_onmessage_uninitialized (w : world) (data : val) :
  handle (this w) = None -> is_mirror_request data = true ->
  Part000.onmessage sampleRate data w = (w, Ret tt).
Proof.
  intros Hh Hreq. destruct (mirror_request_no_payload data Hreq) as (p & Hp & Hfalsy).
  unfold Part000.onmessage, bind, prop, lift. rewrite Hp, Hfalsy.
  unfold this_handle. rewrite Hh. reflexivity.
Qed.

(** C3. A mirror request that reaches src/worklet.js while no handle exists
    is ignored: the handler returns without throwing and leaves the whole
    world as it was, so no generator state is created or changed, no buffer
    is written and nothing is posted. *)
Theorem C3_uninitialized_request_ignored (w : world) (data : val) :
  ready w = false -> is_mirror_request data = true ->
  Worklet.onmessage sampleRate data w = (w, Ret tt).
Proof.
  unfold ready. intros Hr Hreq. apply worklet_onmessage_uninitialized; [|exact Hreq].
  destruct (handle (this w)); [discriminate|reflexivity].
Qed.

(** C2, as amended. A mirror request delivered while no handle exists gets no
    reply from either revision of the worklet: the queue towards the page and
    every buffer are as before. *)
Theorem C2_uninitialized_request_unanswered (w : world) (data : val) :
  ready w = false -> is_mirror_request data = true ->
  let w1 := fst (Worklet.onmessage sampleRate data w) in
  let w2 := fst (Part000.onmessage sampleRate data w) in
  (to_page w1 = to_page w /\ heap_ w1 = heap_ w) /\
  (to_page w2 = to_page w /\ heap_ w2 = heap_ w).
Proof.
  unfold ready. intros Hr Hreq.
  assert (Hh : handle (this w) = None) by (destruct (handle (this w)); [discriminate|reflexivity]).
  cbv zeta.
  rewrite (worklet_onmessage_uninitialized w data Hh Hreq).
  rewrite (part000_onmessage_uninitialized w data Hh Hreq).
  simpl. auto.
Qed.

End Uninitialized.

(** ** Bootstrap and the audio callback *)

Section Bootstrap.
Context `{W : Package}.
Variable sampleRate : float.

Lemma process_revisions_agree : @Part000.process W = @Worklet.process W.
Proof. reflexivity. Qed.

(** What the bootstrap branch does, whatever initSync and new_handle answer. *)
Lemma worklet_onmessage_bootstrap (w : world) (data payload : val) :
  get data "wasm" = Ret payload -> truthy payload = true ->
  Worklet.onmessage sampleRate data w =
    match initSync payload (heap_ w) (wasm w) with
    | (m1, Ret _) =>
        let this1 := {| handle := handle (this w); processFn := Some wasm_process |} in
        match new_handle sampleRate m1 with
        | (m2, Ret hd) =>
            (with_this {| handle := Some hd; processFn := Some wasm_process |}
               (with_wasm m2 (with_this this1 (with_wasm m1 w))), Ret tt)
        | (m2, Throw e) => (with_wasm m2 (with_this this1 (with_wasm m1 w)), Throw e)
        end
    | (m1, Throw e) => (with_wasm m1 w, Throw e)
    end.
Proof.
  intros Hp Ht. unfold Worklet.onmessage, bind, prop, lift. rewrite Hp, Ht.
  unfold wasm_initSync.
  destruct (initSync payload (heap_ w) (wasm w)) as [m1 [[]|e]]; [|reflexivity].
  unfold set_this_processFn, wasm_new_handle. cbn [wasm with_this with_wasm this handle].
  destruct (new_handle sampleRate m1) as [m2 [hd|e]]; reflexivity.
Qed.

Lemma part000_onmessage_bootstrap (w : world) (data payload : val) :
  get data "wasm" = Ret payload -> truthy payload = true ->
  Part000.onmessage sampleRate data w =
  Worklet.onmessage sampleRate (VObject [("wasm", payload)]) w.
Proof.
  intros Hp Ht. unfold Part000.onmessage, Worklet.onmessage, bind, prop, lift.
  rewrite Hp, Ht. cbn [get lookup_field String.eqb Ascii.eqb Bool.eqb]. rewrite Ht.
  reflexivity.
Qed.

Lemma bootstrap_payload (data : val) :
  is_bootstrap data = true ->
  exists payload, get data "wasm" = Ret payload /\ truthy payload = true.
Proof.
  unfold is_bootstrap. intros H.
  destruct (get data "wasm") as [payload|]; [|discriminate].
  exists payload. split; [reflexivity|exact H].
Qed.

(** C9. A message whose [wasm] field is truthy is handled as a bootstrap and
    as nothing else, by both revisions, whatever else the message carries.
    The handler's whole result is the bootstrap's: initSync is called on the
    payload; if it returns, [this.processFn] is assigned and new_handle is
    called; if that returns, [this.handle] is assigned its result; the first
    exception ends the handler.  Nothing of the message but the payload
    enters it, so mirror buffers in the same message are not filled and no
    reply is sent: the heap, both queues and the page are as they were.  When
    both calls return the endpoint holds the new handle and the fill
    function. *)
Theorem C9_payload_means_bootstrap_only (w : world) (data : val) :
  is_bootstrap data = true ->
  exists payload,
    get data "wasm" = Ret payload /\ truthy payload = true /\
    let bootstrapped :=
      match initSync payload (heap_ w) (wasm w) with
      | (m1, Ret _) =>
          let this1 := {| handle := handle (this w); processFn := Some wasm_process |} in
          match new_handle sampleRate m1 with
          | (m2, Ret hd) =>
              (with_this {| handle := Some hd; processFn := Some wasm_process |}
                 (with_wasm m2 (with_this this1 (with_wasm m1 w))), Ret tt)
          | (m2, Throw e) => (with_wasm m2 (with_this this1 (with_wasm m1 w)), Throw e)
          end
      | (m1, Throw e) => (with_wasm m1 w, Throw e)
      end in
    Worklet.onmessage sampleRate data w = bootstrapped /\
    Part000.onmessage sampleRate data w = bootstrapped /\
    heap_ (fst bootstrapped) = heap_ w /\
    to_page (fst bootstrapped) = to_page w /\
    to_worklet (fst bootstrapped) = to_worklet w /\
    ui (fst bootstrapped) = ui w /\
    (forall (m1 m2 : Module_) (hd : Handle),
       initSync payload (heap_ w) (wasm w) = (m1, Ret tt) ->
       new_handle sampleRate m1 = (m2, Ret hd) ->
       bootstrapped =
         (with_this {| handle := Some hd; processFn := Some wasm_process |} (with_wasm m2 w),
          Ret tt)).
Proof.
  intros Hboot. destruct (bootstrap_payload data Hboot) as (payload & Hp & Ht).
  exists payload. split; [exact Hp|]. split; [exact Ht|]. cbv zeta.
  rewrite (part000_onmessage_bootstrap w data payload Hp Ht).
  rewrite (worklet_onmessage_bootstrap w data payload Hp Ht).
  rewrite (worklet_onmessage_bootstrap w (VObject [("wasm", payload)]) payload eq_refl Ht).
  split; [reflexivity|]. split; [reflexivity|].
  destruct (initSync payload (heap_ w) (wasm w)) as [m1 [[]|e]].
  - cbv zeta. destruct (new_handle sampleRate m1) as [m2 [hd|e]] eqn:Hnew.
    + do 4 (split; [reflexivity|]).
      intros m1' m2' hd' Hinit' Hnew'. injection Hinit' as <-.
      rewrite Hnew in Hnew'. injection Hnew' as <- <-. reflexivity.
    + do 4 (split; [reflexivity|]).
      intros m1' m2' hd' Hinit' Hnew'. injection Hinit' as <-.
      rewrite Hnew in Hnew'. discriminate.
  - do 4 (split; [reflexivity|]).
    intros m1' m2' hd' Hinit' Hnew'. discriminate.
Qed.

(** The audio callback when a handle is stored: the two channels of the
    first output go to the stored fill function with the stored handle. *)
Lemma worklet_process_ready (w : world) (inputs outputs : list (list val))
    (parameters : val) (output : list val) (hd : Handle) :
  handle (this w) = Some hd -> processFn (this w) = Some wasm_process ->
  outputs !! 0 = Some output ->
  Worklet.process inputs outputs parameters w =
    match process (default VUndefined (output !! 0)) (default VUndefined (output !! 1))
                  hd (wasm w) (heap_ w) with
    | (m, h, Ret _) => (with_heap h (with_wasm m w), Ret true)
    | (m, h, Throw e) => (with_heap h (with_wasm m w), Throw e)
    end.
Proof.
  intros Hh Hf Ho. unfold Worklet.process, bind, this_handle, this_processFn, index.
  rewrite Hh, Hf, Ho. unfold at_index, ret, call, index.
  destruct (process _ _ hd (wasm w) (heap_ w)) as [[m h] [[]|e]]; reflexivity.
Qed.

Lemma worklet_process_uninitialized (w : world) (inputs outputs : list (list val))
    (parameters : val) :
  handle (this w) = None -> Worklet.process inputs outputs parameters w = (w, Ret true).
Proof.
  intros Hh. unfold Worklet.process, bind, this_handle. rewrite Hh. reflexivity.
Qed.

Lemma worklet_process_never_false (w w' : world) (inputs outputs : list (list val))
    (parameters : val) (b : bool) :
  Worklet.process inputs outputs parameters w = (w', Ret b) -> b = true.
Proof.
  unfold Worklet.process, bind.
  destruct (this_handle w) as [w1 [[hd|]|e]]; [| |discriminate].
  - destruct (this_processFn w1) as [w2 [f|e]]; [|discriminate].
    destruct (at_index (index outputs 0) 0 w2) as [w3 [o0|e]]; [|discriminate].
    destruct (at_index (index outputs 0) 1 w3) as [w4 [o1|e]]; [|discriminate].
    destruct (call f o0 o1 hd w4) as [w5 [[]|e]]; [|discriminate].
    unfold ret. congruence.
  - unfold ret. congruence.
Qed.

(** C4. While no handle exists the audio callback of either revision leaves
    the whole world, the output block included, as it was, throws nothing and
    returns true.  In every state the callback returns no value but true, and
    it does return true whenever the stored fill function returns. *)
Theorem C4_process_keeps_running (w : world) (inputs outputs : list (list val))
    (parameters : val) :
  (ready w = false ->
     Worklet.process inputs outputs parameters w = (w, Ret true) /\
     Part000.process inputs outputs parameters w = (w, Ret true)) /\
  (forall w' b,
     Worklet.process inputs outputs parameters w = (w', Ret b) \/
     Part000.process inputs outputs parameters w = (w', Ret b) -> b = true) /\
  (forall hd output m h,
     handle (this w) = Some hd -> processFn (this w) = Some wasm_process ->
     outputs !! 0 = Some output ->
     process (default VUndefined (output !! 0)) (default VUndefined (output !! 1))
             hd (wasm w) (heap_ w) = (m, h, Ret tt) ->
     Worklet.process inputs outputs parameters w = (with_heap h (with_wasm m w), Ret true) /\
     Part000.process inputs outputs parameters w = (with_heap h (with_wasm m w), Ret true)).
Proof.
  rewrite process_revisions_agree. split; [|split].
  - unfold ready. intros Hr.
    assert (Hh : handle (this w) = None)
      by (destruct (handle (this w)); [discriminate|reflexivity]).
    split; apply worklet_process_uninitialized, Hh.
  - intros w' b [H|H]; exact (worklet_process_never_false _ _ _ _ _ _ H).
  - intros hd output m h Hh Hf Ho Hcall.
    rewrite (worklet_process_ready w inputs outputs parameters output hd Hh Hf Ho), Hcall.
    split; reflexivity.
Qed.

End Bootstrap.

(** ** What a computation leaves alone *)

Section Preserves.
Context `{W : Package}.

Lemma preserves_bind {A B : Type} (P : world -> Prop) (c : M A) (k : A -> M B) :
  preserves P c -> (forall a, preserves P (k a)) -> preserves P (bind c k).
Proof.
  intros Hc Hk w Hw. unfold bind. specialize (Hc w Hw).
  destruct (c w) as [w' [a|e]]; [apply Hk|]; exact Hc.
Qed.

Lemma preserves_ret {A : Type} (P : world -> Prop) (a : A) : preserves P (ret a).
Proof. intros w Hw. exact Hw. Qed.

Lemma preserves_throw {A : Type} (P : world -> Prop) (e : exn) : preserves P (@throw W A e).
Proof. intros w Hw. exact Hw. Qed.

Lemma preserves_read {A : Type} (P : world -> Prop) (f : world -> A) :
  preserves P (fun w => (w, Ret (f w))).
Proof. intros w Hw. exact Hw. Qed.

End Preserves.

Ltac world_cbn :=
  cbn [fst snd heap_ wasm this ui to_worklet to_page handle processFn
       with_heap with_wasm with_this with_ui with_to_worklet with_to_page
       phase bufLeft bufRight play pathLeft pathRight running frames
       Part001.with_phase Part001.with_buffers Part001.with_pathLeft
       Part001.with_pathRight Part001.with_frames Part001.with_running ready] in *.

Ltac unfold_prims :=
  cbv beta delta
    [ret throw lift prop alloc wasm_initSync wasm_new_handle wasm_get_sample call
     this_port_postMessage node_port_postMessage this_handle this_processFn
     set_this_handle set_this_processFn at_index
     Part001.new_Float32Array Part001.requestAnimationFrame Part001.set_pathLeft
     Part001.set_pathRight Part001.typed_array_set Part001.listen_to_play
     Part001.play_input JS.new_Float32Array] in *.

(** Walk through a computation: a bind splits, a branch is taken both ways,
    and what is left is a primitive step, handed to [prim]. *)
Ltac preserve_with prim :=
  repeat
    lazymatch goal with
    | |- preserves _ (bind _ _) => apply preserves_bind; [|intros ?]
    | |- preserves _ (ret _) => apply preserves_ret
    | |- preserves _ (throw _) => apply preserves_throw
    | |- preserves _ (fun w => (w, Ret _)) => apply preserves_read
    | |- preserves _ (if ?b then _ else _) => destruct b
    | |- preserves _ (match ?x with _ => _ end) => destruct x
    | |- preserves _ _ => prim
    end.

(** A primitive step and a property that can be read off the updated
    record. *)
Ltac preserve_prim :=
  let w := fresh "w" in
  let Hw := fresh "Hw" in
  intros w Hw; unfold_prims;
  repeat case_match; world_cbn; first [exact Hw | reflexivity | congruence].

Ltac preserve := preserve_with preserve_prim.

(** ** What only the processor's fields decide *)

Section Invariant.
Context `{W : Package}.
Variable sampleRate : float.
Variable num_to_string : float -> string.
Variable set_from_array_like : list float -> val -> result (list float).

(** A property of the processor's fields that survives both assignments the
    worklet makes to them. *)
Variable P : world -> Prop.
Hypothesis P_this : forall w w', this w' = this w -> P w -> P w'.
Hypothesis P_handle : forall w hd,
  P w -> P (with_this {| handle := Some hd; processFn := processFn (this w) |} w).
Hypothesis P_processFn : forall w,
  P w -> P (with_this {| handle := handle (this w); processFn := Some wasm_process |} w).

Ltac keep_prim :=
  let w := fresh "w" in
  let Hw := fresh "Hw" in
  intros w Hw; unfold_prims; repeat case_match;
  first [ exact Hw
        | apply P_handle; exact Hw
        | apply P_processFn; exact Hw
        | apply (P_this w); [reflexivity|exact Hw] ].

Ltac keep := preserve_with keep_prim.

Lemma worklet_onmessage_keeps (data : val) : preserves P (Worklet.onmessage sampleRate data).
Proof. unfold Worklet.onmessage. keep. Qed.

Lemma part000_onmessage_keeps (data : val) : preserves P (Part000.onmessage sampleRate data).
Proof. unfold Part000.onmessage. keep. Qed.

Lemma worklet_process_keeps (inputs outputs : list (list val)) (parameters : val) :
  preserves P (Worklet.process inputs outputs parameters).
Proof. unfold Worklet.process. keep. Qed.

Lemma page_onmessage_keeps (data : val) :
  preserves P (Part001.onmessage set_from_array_like data).
Proof. unfold Part001.onmessage. keep. Qed.

Lemma drawFrame_keeps : preserves P (Part001.drawFrame num_to_string).
Proof. unfold Part001.drawFrame. keep. Qed.

Lemma main_boot_keeps (fetched : list Byte.byte) : preserves P (Part001.main_boot fetched).
Proof. unfold Part001.main_boot. keep. Qed.

Lemma play_input_keeps (checked : bool) : preserves P (Part001.play_input checked).
Proof. keep. Qed.

Lemma main_display_keeps : preserves P Part001.main_display.
Proof. unfold Part001.main_display. keep. Qed.

Lemma audio_callback_keeps (v : System.revision) : preserves P (System.audio_callback v).
Proof.
  unfold System.audio_callback, System.processor_process.
  destruct v; unfold Worklet.process, Part000.process; keep.
Qed.

Lemma step_keeps (v : System.revision) (e : System.event) (w : world) :
  P w -> P (System.step sampleRate num_to_string set_from_array_like v e w).
Proof.
  intros Hw. unfold System.step, System.after.
  destruct e.
  - destruct (phase (ui w) =? 0); [apply main_boot_keeps|]; exact Hw.
  - destruct (phase (ui w) =? 1); [apply main_display_keeps|]; exact Hw.
  - destruct (phase (ui w) =? 2); [|exact Hw]. apply play_input_keeps. exact Hw.
  - destruct (frames (ui w)); [exact Hw|]. apply drawFrame_keeps.
    apply (P_this w); [reflexivity|exact Hw].
  - destruct (to_worklet w) as [|data rest]; [exact Hw|].
    destruct v; [apply worklet_onmessage_keeps|apply part000_onmessage_keeps];
      (apply (P_this w); [reflexivity|exact Hw]).
  - destruct (phase (ui w) =? 2); [|exact Hw].
    destruct (to_page w) as [|data rest]; [exact Hw|].
    apply page_onmessage_keeps. apply (P_this w); [reflexivity|exact Hw].
  - destruct (negb (phase (ui w) =? 0) && running (ui w)); [|exact Hw].
    apply audio_callback_keeps. exact Hw.
Qed.

Lemma run_keeps (v : System.revision) (es : list System.event) (w : world) :
  P w -> P (System.run sampleRate num_to_string set_from_array_like v es w).
Proof.
  revert w. unfold System.run.
  induction es as [|e es IH]; intros w Hw; [exact Hw|].
  cbn [fold_left]. apply IH. apply step_keeps. exact Hw.
Qed.

End Invariant.

(** ** Ready is for good *)

Section OneWay.
Context `{W : Package}.
Variable sampleRate : float.
Variable num_to_string : float -> string.
Variable set_from_array_like : list float -> val -> result (list float).

Abbreviation is_ready := (fun w : world => ready w = true).

Lemma ready_this (w w' : world) : this w' = this w -> ready w = true -> ready w' = true.
Proof. unfold ready. intros ->. auto. Qed.

Lemma ready_handle (w : world) (hd : Handle) :
  ready w = true ->
  ready (with_this {| handle := Some hd; processFn := processFn (this w) |} w) = true.
Proof. reflexivity. Qed.

Lemma ready_processFn (w : world) :
  ready w = true ->
  ready (with_this {| handle := handle (this w); processFn := Some wasm_process |} w) = true.
Proof. intros Hw. exact Hw. Qed.

Lemma serving_this (w w' : world) : this w' = this w -> serving w -> serving w'.
Proof. unfold serving. intros ->. auto. Qed.

Lemma serving_handle (w : world) (hd : Handle) :
  serving w -> serving (with_this {| handle := Some hd; processFn := processFn (this w) |} w).
Proof. intros (hd0 & _ & Hf). exists hd. split; [reflexivity|exact Hf]. Qed.

Lemma serving_processFn (w : world) :
  serving w ->
  serving (with_this {| handle := handle (this w); processFn := Some wasm_process |} w).
Proof. intros (hd & Hh & _). exists hd. split; [exact Hh|reflexivity]. Qed.

(** C8. Once a handle is stored the render endpoint never loses it: no
    message, whatever it carries, and no audio callback of either revision
    unsets [this.handle], and so nothing the page and the browser do
    afterwards leads back to Uninitialized. *)
Theorem C8_ready_is_one_way (w : world) :
  ready w = true ->
  (forall data, ready (fst (Worklet.onmessage sampleRate data w)) = true /\
                ready (fst (Part000.onmessage sampleRate data w)) = true) /\
  (forall inputs outputs parameters,
     ready (fst (Worklet.process inputs outputs parameters w)) = true /\
     ready (fst (Part000.process inputs outputs parameters w)) = true) /\
  (forall v es,
     ready (System.run sampleRate num_to_string set_from_array_like v es w) = true).
Proof.
  intros Hw. split; [|split].
  - intros data. split;
      [apply (worklet_onmessage_keeps sampleRate is_ready)
      |apply (part000_onmessage_keeps sampleRate is_ready)];
      first [exact ready_this | exact ready_handle | exact ready_processFn | exact Hw].
  - intros inputs outputs parameters.
    split; apply (worklet_process_keeps is_ready);
      first [exact ready_this | exact ready_handle | exact ready_processFn | exact Hw].
  - intros v es. apply (run_keeps sampleRate num_to_string set_from_array_like is_ready);
      first [exact ready_this | exact ready_handle | exact ready_processFn | exact Hw].
Qed.

(** C5. A bootstrap message whose payload instantiates makes src/worklet.js
    call new_handle with the ambient sample rate on the new instance, store
    the handle it returns together with the fill function, and so become
    Ready; whatever happens next, every audio callback from then on passes
    both channels of its output to the fill function with the handle that is
    stored. *)
Theorem C5_bootstrap_makes_ready (w : world) (data payload : val)
    (m1 m2 : Module_) (hd : Handle) :
  get data "wasm" = Ret payload -> truthy payload = true ->
  initSync payload (heap_ w) (wasm w) = (m1, Ret tt) ->
  new_handle sampleRate m1 = (m2, Ret hd) ->
  let w' := with_this {| handle := Some hd; processFn := Some wasm_process |} (with_wasm m2 w) in
  Worklet.onmessage sampleRate data w = (w', Ret tt) /\
  ready w' = true /\
  forall es : list System.event,
    let w'' := System.run sampleRate num_to_string set_from_array_like
                 System.worklet_js es w' in
    exists stored,
      handle (this w'') = Some stored /\
      forall inputs outputs parameters output,
        outputs !! 0 = Some output ->
        Worklet.process inputs outputs parameters w'' =
          match process (default VUndefined (output !! 0)) (default VUndefined (output !! 1))
                        stored (wasm w'') (heap_ w'') with
          | (m, h, Ret _) => (with_heap h (with_wasm m w''), Ret true)
          | (m, h, Throw e) => (with_heap h (with_wasm m w''), Throw e)
          end.
Proof.
  intros Hp Ht Hinit Hnew. cbv zeta. split; [|split].
  - rewrite (worklet_onmessage_bootstrap sampleRate w data payload Hp Ht), Hinit.
    cbv zeta. rewrite Hnew. reflexivity.
  - reflexivity.
  - intros es.
    destruct (run_keeps sampleRate num_to_string set_from_array_like serving
                serving_this serving_handle serving_processFn System.worklet_js es
                (with_this {| handle := Some hd; processFn := Some wasm_process |}
                   (with_wasm m2 w)))
      as (stored & Hstored & Hfn).
    { exists hd. split; reflexivity. }
    exists stored. split; [exact Hstored|].
    intros inputs outputs parameters output Ho.
    apply worklet_process_ready; assumption.
Qed.

End OneWay.

(** ** A mirror request serviced *)

Section Serviced.
Context `{W : Package}.
Variable sampleRate : float.

Lemma worklet_onmessage_serviced (w : world) (data payload buffer left right : val)
    (hd : Handle) (m : Module_) (h1 : heap) :
  handle (this w) = Some hd ->
  get data "wasm" = Ret payload -> truthy payload = false ->
  get data "buffer" = Ret buffer -> truthy buffer = true ->
  get buffer "left" = Ret left -> get buffer "right" = Ret right ->
  get_sample left right hd (wasm w) (heap_ w) = (m, h1, Ret tt) ->
  Worklet.onmessage sampleRate data w =
    match Port.postMessage data [] h1 with
    | Ret (h2, reply) =>
        (with_to_page (to_page w ++ [reply]) (with_heap h2 (with_wasm m w)), Ret tt)
    | Throw e => (with_heap h1 (with_wasm m w), Throw e)
    end.
Proof.
  intros Hh Hp Hfalsy Hb Htruthy Hl Hr Hfill.
  unfold Worklet.onmessage, bind, prop, lift. rewrite Hp, Hfalsy.
  unfold this_handle. rewrite Hh, Hb, Htruthy, Hl, Hr.
  unfold wasm_get_sample. rewrite Hfill.
  unfold this_port_postMessage. world_cbn.
  destruct (Port.postMessage data [] h1) as [[h2 reply]|e]; reflexivity.
Qed.

(** C10. A mirror request serviced by src/worklet.js while Ready is answered
    by exactly one message, and that message is the request's own data
    posted back after filling: what arrives is what the request holds once
    filled; filling changed nothing in the heap but the sample contents of
    the left and right arrays; so every field of the request that does not
    refer to those two arrays arrives as it was. *)
Theorem C10_reply_is_the_filled_request (w : world)
    (data payload buffer left right : val) (hd : Handle) (m : Module_) (h1 : heap) :
  handle (this w) = Some hd ->
  get data "wasm" = Ret payload -> truthy payload = false ->
  get data "buffer" = Ret buffer -> truthy buffer = true ->
  get buffer "left" = Ret left -> get buffer "right" = Ret right ->
  Port.live (heap_ w) data ->
  get_sample left right hd (wasm w) (heap_ w) = (m, h1, Ret tt) ->
  exists reply h2,
    Worklet.onmessage sampleRate data w =
      (with_to_page (to_page w ++ [reply]) (with_heap h2 (with_wasm m w)), Ret tt) /\
    Port.postMessage data [] h1 = Ret (h2, reply) /\
    Port.observe h2 reply = Port.observe h1 data /\
    Port.erase [left; right] h1 = Port.erase [left; right] (heap_ w) /\
    forall (k : string) (x : val),
      get data k = Ret x ->
      Port.each_address (fun a => ~ In (VFloat32Array a) [left; right]) x ->
      exists x', get reply k = Ret x' /\ Port.observe h2 x' = Port.observe (heap_ w) x.
Proof.
  intros Hh Hp Hfalsy Hb Htruthy Hl Hr Hlive Hfill.
  pose proof (get_sample_fills _ _ _ _ _ _ _ _ Hfill) as Hfills.
  destruct (postMessage_copies h1 data (fills_live _ _ _ _ Hfills Hlive))
    as (reply & h2 & Hpost & _ & Hobs & _).
  exists reply, h2.
  rewrite (worklet_onmessage_serviced w data payload buffer left right hd m h1) by assumption.
  rewrite Hpost. split; [reflexivity|]. split; [reflexivity|]. split; [exact Hobs|].
  split; [apply fills_erase; exact Hfills|].
  intros k x Hk Hx. destruct (observe_get _ _ _ _ _ _ Hobs Hk) as (x' & Hk' & Hx').
  exists x'. split; [exact Hk'|]. rewrite Hx'. eapply fills_observe; eauto.
Qed.

End Serviced.

(** ** The page script *)

Section Page.
Context `{W : Package}.
Variable num_to_string : float -> string.
Variable set_from_array_like : list float -> val -> result (list float).

Lemma live_mirror_request (h : heap) (a b : nat) :
  Port.attached h a -> Port.attached h b ->
  Port.live h (Part001.mirror_request (VFloat32Array a) (VFloat32Array b)).
Proof. intros Ha Hb. cbn. auto. Qed.

Lemma observe_mirror_request_inv (h h' : heap) (l r v' : val) :
  Port.observe h' v' = Port.observe h (Part001.mirror_request l r) ->
  exists l' r', v' = Part001.mirror_request l' r'.
Proof.
  intros H. destruct v' as [| | | | | | |fields]; try discriminate.
  cbn in H. injection H as H.
  destruct fields as [|[k x] [|? ?]]; try discriminate.
  cbn in H. injection H as -> H.
  destruct x as [| | | | | | |fields]; try discriminate.
  cbn in H. injection H as H.
  destruct fields as [|[k1 x1] [|[k2 x2] [|? ?]]]; try discriminate.
  cbn in H. injection H as -> _ -> _.
  exists x1, x2. reflexivity.
Qed.

Lemma is_mirror_request_mirror_request (l r : val) :
  is_mirror_request (Part001.mirror_request l r) = true.
Proof. reflexivity. Qed.

(** Every run of drawFrame on a page whose arrays and path elements are in
    place redraws, asks for the next frame and posts one mirror request: a
    copy of the two arrays, which stay with the page. *)
Lemma drawFrame_posts (w : world) (a b : nat) (dL dR : string) :
  bufLeft (ui w) = VFloat32Array a -> bufRight (ui w) = VFloat32Array b ->
  Port.attached (heap_ w) a -> Port.attached (heap_ w) b ->
  pathLeft (ui w) = Some dL -> pathRight (ui w) = Some dR ->
  exists l' r' h',
    Port.postMessage (Part001.mirror_request (VFloat32Array a) (VFloat32Array b)) [] (heap_ w)
      = Ret (h', Part001.mirror_request l' r') /\
    heap_ w `prefix_of` h' /\
    Port.copied (heap_ w) h' (Part001.mirror_request (VFloat32Array a) (VFloat32Array b))
                (Part001.mirror_request l' r') /\
    Part001.drawFrame num_to_string w =
      (with_to_worklet (to_worklet w ++ [Part001.mirror_request l' r'])
         (with_heap h'
            (with_ui
               (Part001.with_frames (S (frames (ui w)))
                  (Part001.with_pathRight
                     (Part001.path_data num_to_string (VFloat32Array b) (heap_ w))
                     (Part001.with_pathLeft
                        (Part001.path_data num_to_string (VFloat32Array a) (heap_ w))
                        (ui w)))) w)),
       Ret tt).
Proof.
  intros HbL HbR Ha Hb HpL HpR.
  destruct (postMessage_copies (heap_ w) _ (live_mirror_request _ a b Ha Hb))
    as (v' & h' & Hpost & Hp & Hcopied).
  destruct (observe_mirror_request_inv _ _ _ _ _ (proj1 Hcopied)) as (l' & r' & ->).
  exists l', r', h'. split; [exact Hpost|]. split; [exact Hp|]. split; [exact Hcopied|].
  unfold Part001.drawFrame, bind, Part001.set_pathLeft, Part001.set_pathRight,
    Part001.requestAnimationFrame, node_port_postMessage.
  rewrite HpL. world_cbn. rewrite HpR. world_cbn. rewrite HbL, HbR, Hpost.
  reflexivity.
Qed.

(** The rest of the top level, on a document that has the play checkbox:
    two fresh arrays, and the first mirror request, a copy of them. *)
Lemma main_display_posts (w : world) :
  play (ui w) = true ->
  let n := length (heap_ w) in
  let h0 := heap_ w ++ [Samples (repeat 0%float Part001.size)]
                    ++ [Samples (repeat 0%float Part001.size)] in
  exists l' r' h',
    Port.postMessage (Part001.mirror_request (VFloat32Array n) (VFloat32Array (S n))) [] h0
      = Ret (h', Part001.mirror_request l' r') /\
    h0 `prefix_of` h' /\
    Port.copied h0 h' (Part001.mirror_request (VFloat32Array n) (VFloat32Array (S n)))
                (Part001.mirror_request l' r') /\
    Part001.main_display w =
      (with_to_worklet (to_worklet w ++ [Part001.mirror_request l' r'])
         (with_heap h'
            (with_ui
               (Part001.with_frames (S (frames (ui w)))
                  (Part001.with_phase 2
                     (Part001.with_buffers (VFloat32Array n) (VFloat32Array (S n)) (ui w))))
               w)),
       Ret tt).
Proof.
  intros Hplay. cbv zeta.
  set (n := length (heap_ w)).
  set (z := Samples (repeat 0%float Part001.size)).
  assert (Hn : (heap_ w ++ [z] ++ [z]) !! n = Some z).
  { rewrite lookup_app_r by (subst n; lia). subst n. rewrite Nat.sub_diag. reflexivity. }
  assert (HSn : (heap_ w ++ [z] ++ [z]) !! S n = Some z).
  { rewrite lookup_app_r by (subst n; lia). subst n.
    replace (S (length (heap_ w)) - length (heap_ w)) with 1 by lia. reflexivity. }
  assert (Hz : z <> Detached) by (subst z; discriminate).
  assert (Han : Port.attached (heap_ w ++ [z] ++ [z]) n) by (exists z; split; assumption).
  assert (HaSn : Port.attached (heap_ w ++ [z] ++ [z]) (S n)) by (exists z; split; assumption).
  destruct (postMessage_copies (heap_ w ++ [z] ++ [z]) _ (live_mirror_request _ n (S n) Han HaSn))
    as (v' & h' & Hpost & Hp & Hcopied).
  destruct (observe_mirror_request_inv _ _ _ _ _ (proj1 Hcopied)) as (l' & r' & ->).
  exists l', r', h'. split; [exact Hpost|]. split; [exact Hp|]. split; [exact Hcopied|].
  unfold Part001.main_display, bind, Part001.listen_to_play. rewrite Hplay.
  unfold Part001.new_Float32Array, JS.new_Float32Array, node_port_postMessage,
    Part001.requestAnimationFrame.
  world_cbn. rewrite length_app. cbn [length]. fold n. fold z.
  replace (n + 1) with (S n) by lia.
  rewrite <- app_assoc. rewrite Hpost. reflexivity.
Qed.

(** What the reply handler does with a reply of the expected shape. *)
Lemma page_onmessage_copies (w : world) (data buffer : val) (bl br sl sr : nat)
    (oldL oldR L R : list float) :
  bufLeft (ui w) = VFloat32Array bl -> bufRight (ui w) = VFloat32Array br ->
  bl <> br -> sr <> bl ->
  samples (heap_ w) bl = Some oldL -> samples (heap_ w) br = Some oldR ->
  get data "buffer" = Ret buffer ->
  get buffer "left" = Ret (VFloat32Array sl) -> get buffer "right" = Ret (VFloat32Array sr) ->
  samples (heap_ w) sl = Some L -> samples (heap_ w) sr = Some R ->
  length L = length oldL -> length R = length oldR ->
  Part001.onmessage set_from_array_like data w =
    (with_heap (<[br := Samples R]> (<[bl := Samples L]> (heap_ w))) w, Ret tt).
Proof.
  intros HbL HbR Hne Hsr HoldL HoldR Hb Hl Hr HL HR HlenL HlenR.
  assert (Hov : forall (X old : list float), length X = length old -> X ++ drop (length X) old = X).
  { intros X old Hlen. rewrite Hlen, drop_all. apply app_nil_r. }
  assert (Hlt : forall (X old : list float), length X = length old -> (length old <? length X) = false).
  { intros X old Hlen. apply Nat.ltb_ge. lia. }
  unfold Part001.onmessage, bind, prop, lift. rewrite HbL, Hb, Hl.
  unfold Part001.typed_array_set, set_from_typed_array.
  rewrite HoldL, HL, (Hlt _ _ HlenL), (Hov _ _ HlenL). world_cbn.
  rewrite HbR, Hr.
  assert (HoldR' : samples (<[bl := Samples L]> (heap_ w)) br = Some oldR).
  { unfold samples. rewrite list_lookup_insert_ne by exact Hne. exact HoldR. }
  assert (HR' : samples (<[bl := Samples L]> (heap_ w)) sr = Some R).
  { unfold samples. rewrite list_lookup_insert_ne by congruence. exact HR. }
  world_cbn. rewrite HoldR', HR', (Hlt _ _ HlenR), (Hov _ _ HlenR). reflexivity.
Qed.

Lemma page_onmessage_posts_nothing (data : val) (q : list val) :
  preserves (fun w => to_worklet w = q) (Part001.onmessage set_from_array_like data).
Proof. unfold Part001.onmessage. preserve. Qed.

End Page.

(** ** Polling by frames, copies and transfers *)

Section Polling.
Context `{W : Package}.
Variable sampleRate : float.
Variable num_to_string : float -> string.
Variable set_from_array_like : list float -> val -> result (list float).

Abbreviation run := (System.run sampleRate num_to_string set_from_array_like).
Abbreviation step := (System.step sampleRate num_to_string set_from_array_like).

Lemma attached_prefix (h h' : heap) (a : nat) :
  h `prefix_of` h' -> Port.attached h a -> Port.attached h' a.
Proof.
  intros Hp (c & Hc & Hatt). exists c. split; [|exact Hatt].
  eapply prefix_lookup_Some; eauto.
Qed.

Lemma frame_step (v : System.revision) (w : world) :
  page_running w ->
  page_running (step v System.Frame w) /\
  in_flight (step v System.Frame w) = S (in_flight w).
Proof.
  intros (a & b & dL & dR & HbL & HbR & Ha & Hb & HpL & HpR & Hf).
  unfold System.step. destruct (frames (ui w)) as [|n] eqn:Hn; [lia|].
  set (w0 := with_ui (Part001.with_frames n (ui w)) w).
  destruct (drawFrame_posts num_to_string w0 a b dL dR)
    as (l' & r' & h' & Hpost & Hp & Hcopied & Hdraw); try assumption.
  unfold System.after. rewrite Hdraw. split.
  - eexists a, b, _, _. subst w0. world_cbn.
    repeat split; try assumption; try reflexivity; try lia;
      eapply attached_prefix; eauto.
  - unfold in_flight. subst w0. world_cbn. rewrite List.filter_app, length_app.
    cbn [List.filter]. rewrite is_mirror_request_mirror_request. cbn [length]. lia.
Qed.

Lemma frames_run (v : System.revision) (n : nat) (w : world) :
  page_running w ->
  page_running (run v (repeat System.Frame n) w) /\
  in_flight (run v (repeat System.Frame n) w) = in_flight w + n.
Proof.
  revert w. induction n as [|n IH]; intros w Hw.
  - cbn. split; [exact Hw|lia].
  - cbn [repeat]. unfold System.run. cbn [fold_left].
    destruct (frame_step v w Hw) as [Hw' Hin].
    destruct (IH _ Hw') as [Hw'' Hin'']. split; [exact Hw''|].
    unfold System.run in Hin''. rewrite Hin'', Hin. lia.
Qed.

Lemma loaded_world (v : System.revision) (fetched : list Byte.byte) (dL dR : string)
    (autoplay : bool) :
  run v [System.Boot fetched; System.Loaded]
      (System.initial true (Some dL) (Some dR) autoplay) =
  let zeros := Samples (repeat 0%float Part001.size) in
  {| heap_ := [Bytes fetched; Bytes fetched; zeros; zeros; zeros; zeros];
     wasm := imported;
     this := {| handle := None; processFn := None |};
     ui := {| phase := 2; bufLeft := VFloat32Array 2; bufRight := VFloat32Array 3;
              play := true; pathLeft := Some dL; pathRight := Some dR;
              running := autoplay; frames := 1 |};
     to_worklet := [VObject [("wasm", VArrayBuffer 1)];
                    Part001.mirror_request (VFloat32Array 4) (VFloat32Array 5)];
     to_page := [] |}.
Proof. reflexivity. Qed.


(** C1, as amended. The page issues one mirror request when its top level has
    run and one more on every animation frame, whether or not the reply to an
    earlier one has arrived, and its reply handler issues none.  So the
    number in flight is not bounded by one: once the page has loaded and
    drawn n frames with nothing delivered, n + 1 are in flight. *)
Theorem C1_one_request_per_frame :
  (forall (w : world) (data : val),
     to_worklet (fst (Part001.onmessage set_from_array_like data w)) = to_worklet w) /\
  (forall (v : System.revision) (w : world),
     page_running w -> in_flight (step v System.Frame w) = S (in_flight w)) /\
  (forall (v : System.revision) (fetched : list Byte.byte) (dL dR : string)
          (autoplay : bool) (n : nat),
     in_flight (run v (System.Boot fetched :: System.Loaded :: repeat System.Frame n)
                      (System.initial true (Some dL) (Some dR) autoplay)) = S n).
Proof.
  split; [|split].
  - intros w data. apply (page_onmessage_posts_nothing set_from_array_like data (to_worklet w)).
    reflexivity.
  - intros v w Hw. apply frame_step. exact Hw.
  - intros v fetched dL dR autoplay n.
    change (System.Boot fetched :: System.Loaded :: repeat System.Frame n)
      with ([System.Boot fetched; System.Loaded] ++ repeat System.Frame n).
    unfold System.run. rewrite fold_left_app.
    change (fold_left _ [System.Boot fetched; System.Loaded] _)
      with (run v [System.Boot fetched; System.Loaded]
                  (System.initial true (Some dL) (Some dR) autoplay)).
    rewrite loaded_world. cbv zeta.
    match goal with |- in_flight (fold_left _ _ ?w0) = _ =>
      destruct (frames_run v n w0) as [_ Hn] end.
    + exists 2, 3, dL, dR. world_cbn.
      repeat split; try reflexivity; try lia;
        eexists; (split; [reflexivity|discriminate]).
    + unfold System.run in Hn. rewrite Hn. reflexivity.
Qed.

(** C6, as amended. On a mirror reply the handler copies the returned samples
    into the page's two arrays and posts nothing; the next mirror request is
    posted by the next drawFrame, from the same two arrays.  The reply is one
    the worklet can send: two arrays as long as the page's, the right one not
    the page's own left array. *)
Theorem C6_reply_copied_request_on_frame (w : world) (data buffer : val)
    (bl br sl sr : nat) (oldL oldR L R : list float) (dL dR : string) :
  bufLeft (ui w) = VFloat32Array bl -> bufRight (ui w) = VFloat32Array br ->
  bl <> br -> sr <> bl ->
  samples (heap_ w) bl = Some oldL -> samples (heap_ w) br = Some oldR ->
  get data "buffer" = Ret buffer ->
  get buffer "left" = Ret (VFloat32Array sl) -> get buffer "right" = Ret (VFloat32Array sr) ->
  samples (heap_ w) sl = Some L -> samples (heap_ w) sr = Some R ->
  length L = length oldL -> length R = length oldR ->
  pathLeft (ui w) = Some dL -> pathRight (ui w) = Some dR ->
  let w' := fst (Part001.onmessage set_from_array_like data w) in
  Part001.onmessage set_from_array_like data w = (w', Ret tt) /\
  samples (heap_ w') bl = Some L /\ samples (heap_ w') br = Some R /\
  to_worklet w' = to_worklet w /\
  exists l' r' h'',
    Part001.drawFrame num_to_string w' =
      (fst (Part001.drawFrame num_to_string w'), Ret tt) /\
    to_worklet (fst (Part001.drawFrame num_to_string w')) =
      to_worklet w ++ [Part001.mirror_request l' r'] /\
    heap_ (fst (Part001.drawFrame num_to_string w')) = h'' /\
    Port.copied (heap_ w') h''
      (Part001.mirror_request (VFloat32Array bl) (VFloat32Array br))
      (Part001.mirror_request l' r').
Proof.
  intros HbL HbR Hne Hsr HoldL HoldR Hb Hl Hr HL HR HlenL HlenR HpL HpR.
  cbv zeta.
  rewrite (page_onmessage_copies set_from_array_like w data buffer bl br sl sr oldL oldR L R)
    by assumption.
  cbn [fst]. set (h' := <[br := Samples R]> (<[bl := Samples L]> (heap_ w))).
  assert (Hbl_lt : bl < length (heap_ w)).
  { unfold samples in HoldL. apply lookup_lt_is_Some.
    destruct (heap_ w !! bl); [eauto|discriminate]. }
  assert (Hbr_lt : br < length (heap_ w)).
  { unfold samples in HoldR. apply lookup_lt_is_Some.
    destruct (heap_ w !! br); [eauto|discriminate]. }
  assert (HL' : h' !! bl = Some (Samples L)).
  { subst h'. rewrite list_lookup_insert_ne by congruence.
    apply list_lookup_insert_eq. exact Hbl_lt. }
  assert (HR' : h' !! br = Some (Samples R)).
  { subst h'. apply list_lookup_insert_eq. rewrite length_insert. exact Hbr_lt. }
  split; [reflexivity|].
  split; [unfold samples; world_cbn; rewrite HL'; reflexivity|].
  split; [unfold samples; world_cbn; rewrite HR'; reflexivity|].
  split; [reflexivity|].
  destruct (drawFrame_posts num_to_string (with_heap h' w) bl br dL dR)
    as (l' & r' & h'' & Hpost & Hp & Hcopied & Hdraw); try assumption.
  - exists (Samples L). split; [exact HL'|discriminate].
  - exists (Samples R). split; [exact HR'|discriminate].
  - exists l', r', h''. rewrite Hdraw. world_cbn.
    split; [reflexivity|]. split; [reflexivity|]. split; [reflexivity|exact Hcopied].
Qed.

Lemma part000_onmessage_serviced (w : world) (data payload buffers : val)
    (la ra : nat) (hd : Handle) (m : Module_) (h1 : heap) :
  handle (this w) = Some hd ->
  get data "wasm" = Ret payload -> truthy payload = false ->
  get data "buffers" = Ret buffers -> truthy buffers = true ->
  get buffers "left" = Ret (VFloat32Array la) ->
  get buffers "right" = Ret (VFloat32Array ra) ->
  get_sample (VFloat32Array la) (VFloat32Array ra) hd (wasm w) (heap_ w) = (m, h1, Ret tt) ->
  Part000.onmessage sampleRate data w =
    match Port.postMessage (VObject [("buffers", buffers)])
                           [VArrayBuffer la; VArrayBuffer ra] h1 with
    | Ret (h2, reply) =>
        (with_to_page (to_page w ++ [reply]) (with_heap h2 (with_wasm m w)), Ret tt)
    | Throw e => (with_heap h1 (with_wasm m w), Throw e)
    end.
Proof.
  intros Hh Hp Hfalsy Hb Htruthy Hl Hr Hfill.
  unfold Part000.onmessage, bind, prop, lift. rewrite Hp, Hfalsy.
  unfold this_handle. rewrite Hh, Hb, Htruthy, Hl, Hr.
  unfold wasm_get_sample. rewrite Hfill.
  cbn [get String.eqb Ascii.eqb Bool.eqb].
  unfold this_port_postMessage. world_cbn.
  destruct (Port.postMessage _ _ h1) as [[h2 reply]|e]; reflexivity.
Qed.

(** C7, as amended. The page posts a mirror request, the first one from its
    top level and the others from drawFrame, without a transfer list: the
    request that travels is a copy, and the page's two arrays stay where
    they are with what they hold.  src/worklet.js answers the same way: the
    reply is a copy and nothing on the worklet's side is detached.  Only
    part_000 transfers: its reply moves the two filled buffers to the page
    and leaves them detached on the worklet's side. *)
Theorem C7_copied_out_moved_back_only_by_part000 :
  (forall (w : world),
     play (ui w) = true ->
     let w' := fst (Part001.main_display w) in
     let h0 := heap_ w ++ [Samples (repeat 0%float Part001.size)]
                       ++ [Samples (repeat 0%float Part001.size)] in
     exists request,
       to_worklet w' = to_worklet w ++ [request] /\
       h0 `prefix_of` heap_ w' /\
       Port.copied h0 (heap_ w') (Part001.mirror_request (bufLeft (ui w')) (bufRight (ui w')))
                   request) /\
  (forall (w : world) (a b : nat) (dL dR : string),
     bufLeft (ui w) = VFloat32Array a -> bufRight (ui w) = VFloat32Array b ->
     Port.attached (heap_ w) a -> Port.attached (heap_ w) b ->
     pathLeft (ui w) = Some dL -> pathRight (ui w) = Some dR ->
     let w' := fst (Part001.drawFrame num_to_string w) in
     exists request,
       to_worklet w' = to_worklet w ++ [request] /\
       heap_ w `prefix_of` heap_ w' /\
       Port.copied (heap_ w) (heap_ w')
         (Part001.mirror_request (VFloat32Array a) (VFloat32Array b)) request) /\
  (forall (w : world) (data payload buffer left right : val)
          (hd : Handle) (m : Module_) (h1 : heap),
     handle (this w) = Some hd ->
     get data "wasm" = Ret payload -> truthy payload = false ->
     get data "buffer" = Ret buffer -> truthy buffer = true ->
     get buffer "left" = Ret left -> get buffer "right" = Ret right ->
     Port.live (heap_ w) data ->
     get_sample left right hd (wasm w) (heap_ w) = (m, h1, Ret tt) ->
     let w' := fst (Worklet.onmessage sampleRate data w) in
     exists reply,
       to_page w' = to_page w ++ [reply] /\
       h1 `prefix_of` heap_ w' /\
       Port.copied h1 (heap_ w') data reply) /\
  (forall (w : world) (data payload buffers : val) (la ra : nat)
          (hd : Handle) (m : Module_) (h1 : heap),
     handle (this w) = Some hd ->
     get data "wasm" = Ret payload -> truthy payload = false ->
     get data "buffers" = Ret buffers -> truthy buffers = true ->
     get buffers "left" = Ret (VFloat32Array la) ->
     get buffers "right" = Ret (VFloat32Array ra) -> la <> ra ->
     Port.live (heap_ w) data ->
     get_sample (VFloat32Array la) (VFloat32Array ra) hd (wasm w) (heap_ w) = (m, h1, Ret tt) ->
     let w' := fst (Part000.onmessage sampleRate data w) in
     exists reply,
       to_page w' = to_page w ++ [reply] /\
       heap_ w' !! la = Some Detached /\ heap_ w' !! ra = Some Detached /\
       Port.observe (heap_ w') reply = Port.observe h1 (VObject [("buffers", buffers)]) /\
       Port.each_address (fun a => length h1 <= a < length (heap_ w')) reply).
Proof.
  split; [|split; [|split]].
  - intros w Hplay. cbv zeta.
    destruct (main_display_posts w Hplay) as (l' & r' & h' & Hpost & Hp & Hcopied & Hmain).
    rewrite Hmain. world_cbn. eexists. split; [reflexivity|]. split; assumption.
  - intros w a b dL dR HbL HbR Ha Hb HpL HpR. cbv zeta.
    destruct (drawFrame_posts num_to_string w a b dL dR)
      as (l' & r' & h' & Hpost & Hp & Hcopied & Hdraw); try assumption.
    rewrite Hdraw. world_cbn. eexists. split; [reflexivity|]. split; assumption.
  - intros w data payload buffer left right hd m h1
      Hh Hp Hfalsy Hb Htruthy Hl Hr Hlive Hfill. cbv zeta.
    pose proof (get_sample_fills _ _ _ _ _ _ _ _ Hfill) as Hfills.
    destruct (postMessage_copies h1 data (fills_live _ _ _ _ Hfills Hlive))
      as (reply & h2 & Hpost & Hpre & Hcopied).
    rewrite (worklet_onmessage_serviced sampleRate w data payload buffer left right hd m h1)
      by assumption.
    rewrite Hpost. world_cbn. exists reply. split; [reflexivity|]. split; assumption.
  - intros w data payload buffers la ra hd m h1
      Hh Hp Hfalsy Hb Htruthy Hl Hr Hne Hlive Hfill. cbv zeta.
    pose proof (get_sample_fills _ _ _ _ _ _ _ _ Hfill) as Hfills.
    assert (Hlb : Port.live h1 buffers).
    { eapply fills_live; [exact Hfills|]. eapply each_address_get; eauto. }
    assert (Hla : Port.attached h1 la) by exact (each_address_get _ _ _ _ Hlb Hl).
    assert (Hra : Port.attached h1 ra) by exact (each_address_get _ _ _ _ Hlb Hr).
    assert (Hlo : Port.live h1 (VObject [("buffers", buffers)])) by (split; [exact Hlb|exact I]).
    destruct (postMessage_transfers h1 _ la ra Hlo Hla Hra Hne)
      as (reply & h2 & Hpost & Hlen & Hdl & Hdr & _ & Hobs & Hnew).
    rewrite (part000_onmessage_serviced w data payload buffers la ra hd m h1) by assumption.
    rewrite Hpost. world_cbn. exists reply.
    split; [reflexivity|]. split; [exact Hdl|]. split; [exact Hdr|]. split; assumption.
Qed.

End Polling.

(** ** When the worklet posts, and when it does not *)

Section Replies.
Context `{W : Package}.
Variable sampleRate : float.

Lemma worklet_onmessage_posts (w : world) (data : val) :
  let w' := fst (Worklet.onmessage sampleRate data w) in
  to_page w' = to_page w \/
  exists reply payload buffer,
    to_page w' = to_page w ++ [reply] /\ ready w = true /\
    get data "wasm" = Ret payload /\ truthy payload = false /\
    get data "buffer" = Ret buffer /\ truthy buffer = true.
Proof.
  cbv zeta. destruct (get data "wasm") as [payload|e] eqn:Hp.
  - destruct (truthy payload) eqn:Ht.
    + left. rewrite (worklet_onmessage_bootstrap sampleRate w data payload Hp Ht).
      destruct (initSync payload (heap_ w) (wasm w)) as [m1 [[]|e]]; [|reflexivity].
      cbv zeta. destruct (new_handle sampleRate m1) as [m2 [hd|e]]; reflexivity.
    + unfold Worklet.onmessage, bind, prop, lift. rewrite Hp, Ht.
      unfold this_handle. destruct (handle (this w)) as [hd|] eqn:Hh; [|left; reflexivity].
      destruct (get data "buffer") as [buffer|e] eqn:Hb; [|left; reflexivity].
      destruct (truthy buffer) eqn:Htb; [|left; reflexivity].
      destruct (get buffer "left") as [lft|e]; [|left; reflexivity].
      destruct (get buffer "right") as [rgt|e]; [|left; reflexivity].
      unfold wasm_get_sample.
      destruct (get_sample lft rgt hd (wasm w) (heap_ w)) as [[m h1] [[]|e]];
        [|left; reflexivity].
      unfold this_port_postMessage. world_cbn.
      destruct (Port.postMessage data [] h1) as [[h2 reply]|e]; [|left; reflexivity].
      right. exists reply, payload, buffer. world_cbn. unfold ready. rewrite Hh.
      repeat split; first [reflexivity | assumption].
  - left. unfold Worklet.onmessage, bind, prop, lift. rewrite Hp. reflexivity.
Qed.

Lemma part000_onmessage_posts (w : world) (data : val) :
  let w' := fst (Part000.onmessage sampleRate data w) in
  to_page w' = to_page w \/
  exists reply payload buffers,
    to_page w' = to_page w ++ [reply] /\ ready w = true /\
    get data "wasm" = Ret payload /\ truthy payload = false /\
    get data "buffers" = Ret buffers /\ truthy buffers = true.
Proof.
  cbv zeta. destruct (get data "wasm") as [payload|e] eqn:Hp.
  - destruct (truthy payload) eqn:Ht.
    + left. rewrite (part000_onmessage_bootstrap sampleRate w data payload Hp Ht).
      rewrite (worklet_onmessage_bootstrap sampleRate w (VObject [("wasm", payload)]) payload
                 eq_refl Ht).
      destruct (initSync payload (heap_ w) (wasm w)) as [m1 [[]|e]]; [|reflexivity].
      cbv zeta. destruct (new_handle sampleRate m1) as [m2 [hd|e]]; reflexivity.
    + unfold Part000.onmessage, bind, prop, lift. rewrite Hp, Ht.
      unfold this_handle. destruct (handle (this w)) as [hd|] eqn:Hh; [|left; reflexivity].
      destruct (get data "buffers") as [buffers|e] eqn:Hb; [|left; reflexivity].
      destruct (truthy buffers) eqn:Htb; [|left; reflexivity].
      destruct (get buffers "left") as [lft|e]; [|left; reflexivity].
      destruct (get buffers "right") as [rgt|e]; [|left; reflexivity].
      unfold wasm_get_sample.
      destruct (get_sample lft rgt hd (wasm w) (heap_ w)) as [[m h1] [[]|e]];
        [|left; reflexivity].
      world_cbn.
      destruct (get lft "buffer") as [lb|e]; [|left; reflexivity].
      destruct (get rgt "buffer") as [rb|e]; [|left; reflexivity].
      unfold this_port_postMessage. world_cbn.
      destruct (Port.postMessage _ _ h1) as [[h2 reply]|e]; [|left; reflexivity].
      right. exists reply, payload, buffers. world_cbn. unfold ready. rewrite Hh.
      repeat split; first [reflexivity | assumption].
  - left. unfold Part000.onmessage, bind, prop, lift. rewrite Hp. reflexivity.
Qed.

Lemma worklet_process_posts_nothing (inputs outputs : list (list val)) (parameters : val)
    (q : list val) :
  preserves (fun w => to_page w = q) (Worklet.process inputs outputs parameters).
Proof. unfold Worklet.process. preserve. Qed.

(** X1. Whatever the state and the message, the handler of either revision
    keeps what is queued for the page and adds at most one message to it, and
    it adds one only when a handle is stored and the message has a falsy
    [wasm] field and a truthy [buffer] field ([buffers] for part_000).  The
    audio callback never posts. *)
Theorem X1_replies_only_to_requests (w : world) (data : val) :
  (let w' := fst (Worklet.onmessage sampleRate data w) in
   to_page w' = to_page w \/
   exists reply payload buffer,
     to_page w' = to_page w ++ [reply] /\ ready w = true /\
     get data "wasm" = Ret payload /\ truthy payload = false /\
     get data "buffer" = Ret buffer /\ truthy buffer = true) /\
  (let w' := fst (Part000.onmessage sampleRate data w) in
   to_page w' = to_page w \/
   exists reply payload buffers,
     to_page w' = to_page w ++ [reply] /\ ready w = true /\
     get data "wasm" = Ret payload /\ truthy payload = false /\
     get data "buffers" = Ret buffers /\ truthy buffers = true) /\
  (forall inputs outputs parameters,
     to_page (fst (Worklet.process inputs outputs parameters w)) = to_page w /\
     to_page (fst (Part000.process inputs outputs parameters w)) = to_page w).
Proof.
  split; [apply worklet_onmessage_posts|]. split; [apply part000_onmessage_posts|].
  intros inputs outputs parameters.
  split; apply (worklet_process_posts_nothing inputs outputs parameters (to_page w));
    reflexivity.
Qed.


(** X2. A bootstrap message that fails, because initSync or new_handle
    throws, leaves [this.handle] as it was in both revisions: an
    Uninitialized endpoint stays Uninitialized and a Ready one keeps the
    handle it had.  No buffer is touched and nothing is posted; when it is
    initSync that throws, [this.processFn] is as it was too. *)
Theorem X2_failed_bootstrap_keeps_handle (w w' : world) (data payload : val) (e : exn) :
  get data "wasm" = Ret payload -> truthy payload = true ->
  Worklet.onmessage sampleRate data w = (w', Throw e) \/
  Part000.onmessage sampleRate data w = (w', Throw e) ->
  handle (this w') = handle (this w) /\ ready w' = ready w /\
  heap_ w' = heap_ w /\ to_page w' = to_page w /\
  (forall m1, initSync payload (heap_ w) (wasm w) = (m1, Throw e) ->
     this w' = this w /\ wasm w' = m1).
Proof.
  intros Hp Ht Hthrow.
  assert (H : Worklet.onmessage sampleRate data w = (w', Throw e)).
  { destruct Hthrow as [H|H]; [exact H|].
    rewrite (part000_onmessage_bootstrap sampleRate w data payload Hp Ht) in H.
    rewrite (worklet_onmessage_bootstrap sampleRate w (VObject [("wasm", payload)]) payload
               eq_refl Ht) in H.
    rewrite (worklet_onmessage_bootstrap sampleRate w data payload Hp Ht). exact H. }
  clear Hthrow. rewrite (worklet_onmessage_bootstrap sampleRate w data payload Hp Ht) in H.
  destruct (initSync payload (heap_ w) (wasm w)) as [m1 [[]|e1]].
  - cbv zeta in H. destruct (new_handle sampleRate m1) as [m2 [hd|e2]]; [discriminate|].
    injection H as <- <-. do 4 (split; [reflexivity|]).
    intros m1' Hinit. discriminate.
  - injection H as <- <-. do 4 (split; [reflexivity|]).
    intros m1' Hinit. injection Hinit as <-. split; reflexivity.
Qed.

(** X3. part_000 cannot answer a request whose left and right are one and
    the same array: the samples are written, then the reply lists the one
    underlying buffer twice for transfer, so postMessage throws a
    DataCloneError; no reply is posted and no buffer is detached. *)
Theorem X3_part000_same_array_twice (w : world) (data payload buffers : val) (a : nat)
    (hd : Handle) (m : Module_) (h1 : heap) :
  handle (this w) = Some hd ->
  get data "wasm" = Ret payload -> truthy payload = false ->
  get data "buffers" = Ret buffers -> truthy buffers = true ->
  get buffers "left" = Ret (VFloat32Array a) ->
  get buffers "right" = Ret (VFloat32Array a) ->
  get_sample (VFloat32Array a) (VFloat32Array a) hd (wasm w) (heap_ w) = (m, h1, Ret tt) ->
  Part000.onmessage sampleRate data w = (with_heap h1 (with_wasm m w), Throw DataCloneError).
Proof.
  intros Hh Hp Hfalsy Hb Htruthy Hl Hr Hfill.
  rewrite (part000_onmessage_serviced sampleRate w data payload buffers a a hd m h1)
    by assumption.
  assert (Hpost : Port.postMessage (VObject [("buffers", buffers)])
                    [VArrayBuffer a; VArrayBuffer a] h1 = Throw DataCloneError).
  { unfold Port.postMessage, Port.transferables.
    cbn [forallb Port.is_object andb Port.transferable_buffers].
    destruct (h1 !! a) as [[b | l |]|]; try reflexivity;
      cbn [existsb]; rewrite Nat.eqb_refl; reflexivity. }
  rewrite Hpost. reflexivity.
Qed.

(** What part_000 does with a message that has no [buffers]. *)
Lemma part000_onmessage_no_buffers (w : world) (data : val) :
  get data "buffers" = Ret VUndefined ->
  to_page (fst (Part000.onmessage sampleRate data w)) = to_page w /\
  to_worklet (fst (Part000.onmessage sampleRate data w)) = to_worklet w.
Proof.
  intros Hb. destruct (get data "wasm") as [payload|e] eqn:Hp.
  - destruct (truthy payload) eqn:Ht.
    + rewrite (part000_onmessage_bootstrap sampleRate w data payload Hp Ht).
      rewrite (worklet_onmessage_bootstrap sampleRate w (VObject [("wasm", payload)]) payload
                 eq_refl Ht).
      destruct (initSync payload (heap_ w) (wasm w)) as [m1 [[]|e]]; [|split; reflexivity].
      cbv zeta. destruct (new_handle sampleRate m1) as [m2 [hd|e]]; split; reflexivity.
    + unfold Part000.onmessage, bind, prop, lift. rewrite Hp, Ht.
      unfold this_handle. destruct (handle (this w)) as [hd|]; [|split; reflexivity].
      rewrite Hb. split; reflexivity.
  - unfold Part000.onmessage, bind, prop, lift. rewrite Hp. split; reflexivity.
Qed.

End Replies.

(** ** The page of part_001 with part_000 as its worklet *)

Lemma clone_fields_keep_undefined (k : string) (fields : list (string * val)) :
  forall m h fields' m' h',
    Port.clone_fields Port.clone fields m h = Ret (fields', m', h') ->
    lookup_field k fields = VUndefined -> lookup_field k fields' = VUndefined.
Proof.
  induction fields as [|[k0 x] rest IH]; intros m h fields' m' h' Hc Hk.
  - cbn in Hc. injection Hc as <- _ _. reflexivity.
  - cbn [Port.clone_fields] in Hc.
    destruct (Port.clone x m h) as [[[x' m1] h1]|e] eqn:Hx; [|discriminate].
    change (match Port.clone_fields Port.clone rest m1 h1 with
            | Ret (rest', m2, h2) => Ret ((k0, x') :: rest', m2, h2)
            | Throw e => Throw e
            end = Ret (fields', m', h')) in Hc.
    destruct (Port.clone_fields Port.clone rest m1 h1) as [[[rest' m2] h2]|e] eqn:Hr;
      [|discriminate].
    injection Hc as <- _ _. cbn [lookup_field] in *.
    destruct (String.eqb k k0).
    + subst x. cbn in Hx. injection Hx as <- _ _. reflexivity.
    + eapply IH; eauto.
Qed.

(** A field that is [undefined] in a message is [undefined] in its copy. *)
Lemma postMessage_keeps_undefined (v v' : val) (t : list val) (h h' : heap) (k : string) :
  Port.postMessage v t h = Ret (h', v') -> get v k = Ret VUndefined ->
  get v' k = Ret VUndefined.
Proof.
  unfold Port.postMessage. destruct (Port.transferables t h) as [ids|e]; [|discriminate].
  destruct (Port.clone v [] h) as [[[v1 m1] h1]|e] eqn:Hc; [|discriminate].
  intros H Hk. injection H as _ <-.
  destruct v as [| | b | x | s | a | a | fields]; cbn [Port.clone] in Hc;
    try discriminate; try (injection Hc as <- _ _; exact Hk).
  - destruct (Port.clone_buffer a [] h) as [[[a' m'] h2]|e]; [|discriminate].
    injection Hc as <- _ _. reflexivity.
  - destruct (Port.clone_buffer a [] h) as [[[a' m'] h2]|e]; [|discriminate].
    injection Hc as <- _ _. cbn [get] in *. destruct (String.eqb k "buffer"); [discriminate|].
    reflexivity.
  - destruct (Port.clone_fields Port.clone fields [] h) as [[[fields' m'] h2]|e] eqn:Hf;
      [|discriminate].
    injection Hc as <- _ _. cbn [get] in *. injection Hk as Hk. f_equal.
    eapply clone_fields_keep_undefined; eauto.
Qed.

Section Unanswerable.
Context `{W : Package}.

Lemma unanswerable_same (k : string) (w w' : world) :
  to_worklet w' = to_worklet w -> to_page w' = to_page w ->
  unanswerable k w -> unanswerable k w'.
Proof. unfold unanswerable. intros -> ->. auto. Qed.

Lemma unanswerable_post (k : string) (message : val) (t : list val) :
  get message k = Ret VUndefined ->
  preserves (unanswerable k) (node_port_postMessage message t).
Proof.
  intros Hm w [Hpage Hq]. unfold node_port_postMessage.
  destruct (Port.postMessage message t (heap_ w)) as [[h message']|e] eqn:Hpost;
    [|split; assumption].
  split; [exact Hpage|]. world_cbn. apply Forall_app. split; [exact Hq|].
  constructor; [|constructor]. eapply postMessage_keeps_undefined; eauto.
Qed.

End Unanswerable.

Ltac unanswerable_prim :=
  first
    [ apply unanswerable_post; reflexivity
    | let w := fresh "w" in
      let Hw := fresh "Hw" in
      intros w Hw; unfold_prims; repeat case_match;
      (apply (unanswerable_same _ w); [reflexivity|reflexivity|exact Hw]) ].

Section Mismatch.
Context `{W : Package}.
Variable sampleRate : float.
Variable num_to_string : float -> string.
Variable set_from_array_like : list float -> val -> result (list float).

Lemma part000_step_unanswerable (e : System.event) (w : world) :
  unanswerable "buffers" w ->
  unanswerable "buffers" (System.step sampleRate num_to_string set_from_array_like System.part_000 e w).
Proof.
  intros Hw. unfold System.step, System.after. destruct e.
  - destruct (phase (ui w) =? 0); [|exact Hw].
    revert w Hw. change (preserves (unanswerable "buffers") (Part001.main_boot fetched)).
    unfold Part001.main_boot. preserve_with unanswerable_prim.
  - destruct (phase (ui w) =? 1); [|exact Hw].
    revert w Hw. change (preserves (unanswerable "buffers") Part001.main_display).
    unfold Part001.main_display. preserve_with unanswerable_prim.
  - destruct (phase (ui w) =? 2); [|exact Hw].
    apply (unanswerable_same _ w); [reflexivity|reflexivity|exact Hw].
  - destruct (frames (ui w)) as [|n]; [exact Hw|].
    assert (H : preserves (unanswerable "buffers") (Part001.drawFrame num_to_string))
      by (unfold Part001.drawFrame; preserve_with unanswerable_prim).
    apply H. apply (unanswerable_same _ w); [reflexivity|reflexivity|exact Hw].
  - destruct (to_worklet w) as [|data rest] eqn:Etw; [exact Hw|].
    destruct Hw as [Hpage Hq]. rewrite Etw in Hq.
    inversion Hq as [|? ? Hdata Hrest]; subst.
    destruct (part000_onmessage_no_buffers sampleRate (with_to_worklet rest w) data Hdata)
      as [Hp' Hq'].
    unfold System.processor_onmessage. split; [rewrite Hp'; exact Hpage|].
    rewrite Hq'. exact Hrest.
  - destruct (phase (ui w) =? 2); [|exact Hw].
    destruct (to_page w) as [|data rest] eqn:Etp; [exact Hw|].
    destruct Hw as [Hpage _]. congruence.
  - destruct (negb (phase (ui w) =? 0) && running (ui w)); [|exact Hw].
    assert (H : preserves (unanswerable "buffers") (System.audio_callback System.part_000)).
    { unfold System.audio_callback, System.processor_process, Part000.process.
      preserve_with unanswerable_prim. }
    apply H. exact Hw.
Qed.

(** X4. The page script of part_001 and the worklet of part_000 do not speak
    the same protocol: the page names its arrays [buffer], part_000 reads
    [buffers].  In every state part_000 drops the page's request without a
    reply, and in every run of the two together no message ever reaches the
    page, whatever the document and the binary are. *)
Theorem X4_part000_never_answers_part001 :
  (forall (w : world) (l r : val),
     Part000.onmessage sampleRate (Part001.mirror_request l r) w = (w, Ret tt)) /\
  (forall (es : list System.event) (checkbox : bool) (dL dR : option string) (autoplay : bool),
     to_page (System.run sampleRate num_to_string set_from_array_like System.part_000 es
                (System.initial checkbox dL dR autoplay)) = []).
Proof.
  split.
  - intros w l r. unfold Part000.onmessage, bind, prop, lift, this_handle.
    cbn [get lookup_field Part001.mirror_request String.eqb Ascii.eqb Bool.eqb truthy].
    destruct (handle (this w)); reflexivity.
  - intros es checkbox dL dR autoplay.
    assert (H : forall w, unanswerable "buffers" w ->
              unanswerable "buffers" (System.run sampleRate num_to_string set_from_array_like
                              System.part_000 es w)).
    { unfold System.run. induction es as [|e es IH]; intros w Hw; [exact Hw|].
      cbn [fold_left]. apply IH. apply part000_step_unanswerable. exact Hw. }
    apply H. split; [reflexivity|constructor].
Qed.

End Mismatch.

(** ** Where the page script fails *)

Section PageFailures.
Context `{W : Package}.
Variable sampleRate : float.
Variable num_to_string : float -> string.
Variable set_from_array_like : list float -> val -> result (list float).

(** X5. The reply handler of the page trusts the shape of what it is sent.
    A message without a [buffer] field (a reply of part_000, say) makes it
    throw a TypeError with nothing changed; a left array longer than the
    page's makes it throw a RangeError with nothing changed; and when only
    the right array is too long the left one has been copied by the time it
    throws, so the page is left with one channel of the new block and one of
    the old. *)
Theorem X5_reply_handler_failures (w : world) (data : val) :
  (get data "buffer" = Ret VUndefined \/ get data "buffer" = Throw TypeError ->
   Part001.onmessage set_from_array_like data w = (w, Throw TypeError)) /\
  (forall (buffer : val) (bl sl : nat) (oldL L : list float),
     bufLeft (ui w) = VFloat32Array bl ->
     get data "buffer" = Ret buffer -> get buffer "left" = Ret (VFloat32Array sl) ->
     samples (heap_ w) bl = Some oldL -> samples (heap_ w) sl = Some L ->
     length oldL < length L ->
     Part001.onmessage set_from_array_like data w = (w, Throw RangeError)) /\
  (forall (buffer : val) (bl br sl sr : nat) (oldL oldR L R : list float),
     bufLeft (ui w) = VFloat32Array bl -> bufRight (ui w) = VFloat32Array br ->
     bl <> br -> sr <> bl ->
     get data "buffer" = Ret buffer ->
     get buffer "left" = Ret (VFloat32Array sl) ->
     get buffer "right" = Ret (VFloat32Array sr) ->
     samples (heap_ w) bl = Some oldL -> samples (heap_ w) br = Some oldR ->
     samples (heap_ w) sl = Some L -> samples (heap_ w) sr = Some R ->
     length L = length oldL -> length oldR < length R ->
     Part001.onmessage set_from_array_like data w =
       (with_heap (<[bl := Samples L]> (heap_ w)) w, Throw RangeError)).
Proof.
  split; [|split].
  - intros [H|H]; unfold Part001.onmessage, bind, prop, lift; rewrite H; reflexivity.
  - intros buffer bl sl oldL L HbL Hb Hl Hold HL Hlen.
    unfold Part001.onmessage, bind, prop, lift. rewrite HbL, Hb, Hl.
    unfold Part001.typed_array_set, set_from_typed_array. rewrite Hold, HL.
    apply Nat.ltb_lt in Hlen. rewrite Hlen. reflexivity.
  - intros buffer bl br sl sr oldL oldR L R HbL HbR Hne Hsr Hb Hl Hr HoldL HoldR HL HR
      HlenL HlenR.
    unfold Part001.onmessage, bind, prop, lift. rewrite HbL, Hb, Hl.
    unfold Part001.typed_array_set, set_from_typed_array. rewrite HoldL, HL.
    replace (length oldL <? length L) with false by (symmetry; apply Nat.ltb_ge; lia).
    rewrite HlenL, drop_all, app_nil_r. world_cbn. rewrite HbR, Hr.
    assert (HoldR' : samples (<[bl := Samples L]> (heap_ w)) br = Some oldR).
    { unfold samples. rewrite list_lookup_insert_ne by exact Hne. exact HoldR. }
    assert (HR' : samples (<[bl := Samples L]> (heap_ w)) sr = Some R).
    { unfold samples. rewrite list_lookup_insert_ne by congruence. exact HR. }
    world_cbn. rewrite HoldR', HR'. apply Nat.ltb_lt in HlenR. rewrite HlenR. reflexivity.
Qed.

(** On a document that lacks one of the two path elements drawFrame throws
    at the [setAttribute] of that element: before it has asked for the next
    frame and before it has posted. *)
Lemma drawFrame_missing_element (w : world) :
  pathLeft (ui w) = None \/ pathRight (ui w) = None ->
  let w' := fst (Part001.drawFrame num_to_string w) in
  snd (Part001.drawFrame num_to_string w) = Throw TypeError /\
  frames (ui w') = frames (ui w) /\ to_worklet w' = to_worklet w /\
  to_page w' = to_page w /\ heap_ w' = heap_ w /\ this w' = this w /\
  pathRight (ui w') = pathRight (ui w) /\
  (pathLeft (ui w) = None -> w' = w).
Proof.
  intros H. cbv zeta.
  unfold Part001.drawFrame, bind, Part001.set_pathLeft, Part001.set_pathRight.
  destruct (pathLeft (ui w)) as [dL|] eqn:HL.
  - destruct H as [H|H]; [discriminate|]. world_cbn. rewrite H. world_cbn.
    repeat split; try reflexivity; congruence.
  - world_cbn. repeat split; reflexivity.
Qed.

(** X6. drawFrame re-arms itself: the call of [requestAnimationFrame] is
    inside it, after both [setAttribute] calls.  On a document that lacks
    one of the two path elements every frame callback throws before that
    call and before the post, so each pending callback is used up without a
    mirror request and without a successor; once none is pending, frames
    change nothing at all. *)
Theorem X6_missing_path_element_stops_polling (v : System.revision) (w : world) (n : nat) :
  pathLeft (ui w) = None \/ pathRight (ui w) = None ->
  let w' := System.run sampleRate num_to_string set_from_array_like v
              (repeat System.Frame n) w in
  frames (ui w') = frames (ui w) - n /\
  to_worklet w' = to_worklet w /\ to_page w' = to_page w /\
  heap_ w' = heap_ w /\ this w' = this w /\
  (frames (ui w) = 0 -> w' = w).
Proof.
  cbv zeta. revert w. induction n as [|n IH]; intros w H.
  - cbn. repeat split; try reflexivity. lia.
  - cbn [repeat]. unfold System.run. cbn [fold_left System.step].
    destruct (frames (ui w)) as [|k] eqn:Hk.
    + destruct (IH w H) as (Hf & Hq & Hp & Hh & Ht & Hz). unfold System.run in *.
      rewrite Hz by exact Hk. repeat split; try reflexivity. exact Hk.
    + set (w0 := with_ui (Part001.with_frames k (ui w)) w).
      assert (H0 : pathLeft (ui w0) = None \/ pathRight (ui w0) = None) by exact H.
      destruct (drawFrame_missing_element w0 H0) as (_ & Hf & Hq & Hp & Hh & Ht & HR & HL).
      unfold System.after.
      set (w1 := fst (Part001.drawFrame num_to_string w0)) in *.
      assert (H1 : pathLeft (ui w1) = None \/ pathRight (ui w1) = None).
      { destruct H as [H|H]; [left; rewrite (HL H); exact H|right; rewrite HR; exact H]. }
      destruct (IH w1 H1) as (Hf' & Hq' & Hp' & Hh' & Ht' & _). unfold System.run in *.
      rewrite Hf', Hq', Hp', Hh', Ht', Hf, Hq, Hp, Hh, Ht.
      subst w0. world_cbn. repeat split; try reflexivity; congruence.
Qed.

End PageFailures.

(** ** A render quantum *)

Section Quantum.
Context `{W : Package}.
Variable sampleRate : float.
Variable num_to_string : float -> string.
Variable set_from_array_like : list float -> val -> result (list float).

(** Filling arrays that lie beyond a heap leaves that heap a prefix. *)
Lemma fills_beyond (h h0 h' : heap) (targets : list val) :
  h `prefix_of` h0 -> fills targets h0 h' ->
  (forall a, In (VFloat32Array a) targets -> length h <= a) ->
  h `prefix_of` h'.
Proof.
  intros Hp [Hlen Hf] Hb.
  assert (Hle : length h <= length h0) by (apply prefix_length; exact Hp).
  exists (drop (length h) h').
  rewrite <- (take_drop (length h) h') at 1. f_equal.
  symmetry. apply list_eq. intros a.
  destruct (Nat.lt_ge_cases a (length h)) as [Hlt|Hge].
  - rewrite lookup_take_lt by exact Hlt.
    destruct (Hf a) as [Heq|[Hin _]]; [|specialize (Hb a Hin); lia].
    rewrite Heq. destruct (h !! a) as [c|] eqn:Hc.
    + symmetry. eapply prefix_lookup_Some; eauto.
    + apply lookup_ge_None in Hc. lia.
  - rewrite lookup_take_ge by exact Hge. apply lookup_ge_None. exact Hge.
Qed.

(** X7. A render quantum stays away from the mirror.  Whatever [process]
    does, in either revision, on the fresh output block the browser hands it:
    every object that existed before still holds what it held (the old heap
    is a prefix of the new one), no message is posted or consumed, the page
    is as it was, and the processor's fields are not assigned. *)
Theorem X7_audio_leaves_the_mirror_alone (v : System.revision) (w : world) :
  let w' := System.step sampleRate num_to_string set_from_array_like v System.Audio w in
  heap_ w `prefix_of` heap_ w' /\
  to_worklet w' = to_worklet w /\ to_page w' = to_page w /\
  ui w' = ui w /\ this w' = this w.
Proof.
  cbv zeta. unfold System.step.
  destruct (negb (phase (ui w) =? 0) && running (ui w)); [|repeat split; reflexivity].
  unfold System.after, System.audio_callback, System.processor_process.
  assert (Hp2 : heap_ w `prefix_of`
                  (heap_ w ++ [Samples (repeat 0%float System.quantum)])
                    ++ [Samples (repeat 0%float System.quantum)]).
  { rewrite <- app_assoc. apply prefix_app_r. reflexivity. }
  replace (match v with
           | System.worklet_js => Worklet.process
           | System.part_000 => Part000.process
           end) with (@Worklet.process W) by (destruct v; reflexivity).
  unfold Worklet.process, bind, Part001.new_Float32Array, JS.new_Float32Array, this_handle,
    this_processFn, at_index, index, call, ret.
  world_cbn. destruct (handle (this w)) as [hd|]; [|repeat split; try reflexivity; exact Hp2].
  cbn [lookup list_lookup default from_option id]. world_cbn.
  destruct (processFn (this w)) as [[]|]; [|repeat split; try reflexivity; exact Hp2].
  world_cbn. rewrite length_app. cbn [length].
  match goal with
  | |- context [process ?l ?r ?hd ?m ?h] =>
      pose proof (process_fills l r hd m h) as Hfill;
      destruct (process l r hd m h) as [[m' h'] r']
  end.
  specialize (Hfill _ _ _ eq_refl). destruct r' as [[]|e]; world_cbn.
  all: split; [|repeat split; reflexivity].
  all: eapply fills_beyond; [exact Hp2|exact Hfill|].
  all: intros a [Ha|[Ha|[]]]; injection Ha as <-; lia.
Qed.

End Quantum.

(** ** Nothing is detached without a transfer list *)

Lemma keeps_refl (h : heap) : keeps h h.
Proof. intros a Ha. exact Ha. Qed.

Lemma keeps_trans (h1 h2 h3 : heap) : keeps h1 h2 -> keeps h2 h3 -> keeps h1 h3.
Proof. intros H12 H23 a Ha. apply H23, H12, Ha. Qed.

Lemma keeps_prefix (h h' : heap) : h `prefix_of` h' -> keeps h h'.
Proof. intros Hp a Ha. eapply attached_prefix; eauto. Qed.

Lemma keeps_app (h : heap) (c : cell) : keeps h (h ++ [c]).
Proof. apply keeps_prefix, prefix_app_r. reflexivity. Qed.

Lemma keeps_fills (targets : list val) (h h' : heap) : fills targets h h' -> keeps h h'.
Proof. intros Hf a. apply (fills_attached targets). exact Hf. Qed.

Lemma keeps_insert (h : heap) (d : nat) (l : list float) : keeps h (<[d := Samples l]> h).
Proof.
  intros a (c & Hc & Hatt). destruct (Nat.eq_dec a d) as [->|Hne].
  - exists (Samples l). split; [|discriminate].
    apply list_lookup_insert_eq. apply lookup_lt_is_Some. eauto.
  - exists c. split; [|exact Hatt]. rewrite list_lookup_insert_ne by congruence. exact Hc.
Qed.

Lemma keeps_set (d s : nat) (h h' : heap) : set_from_typed_array d s h = Ret h' -> keeps h h'.
Proof.
  unfold set_from_typed_array.
  destruct (samples h d) as [ld|]; [|discriminate].
  destruct (samples h s) as [ls|]; [|discriminate].
  destruct (length ld <? length ls); [discriminate|].
  intros H. injection H as <-. apply keeps_insert.
Qed.

Lemma clone_buffer_prefix (a : nat) (m m' : Port.memory) (h h' : heap) (a' : nat) :
  Port.clone_buffer a m h = Ret (a', m', h') -> h `prefix_of` h'.
Proof.
  unfold Port.clone_buffer. destruct (Port.recall a m) as [b|].
  - intros H. injection H as _ _ <-. reflexivity.
  - destruct (h !! a) as [[b | l |]|]; try discriminate;
      intros H; injection H as _ _ <-; apply prefix_app_r; reflexivity.
Qed.

Lemma clone_prefix (v : val) :
  forall m h v' m' h', Port.clone v m h = Ret (v', m', h') -> h `prefix_of` h'.
Proof.
  induction v as [| | b | x | s | a | a | fields IH] using val_induction;
    intros m h v' m' h' Hc; cbn [Port.clone] in Hc;
    try (injection Hc as _ _ <-; reflexivity).
  - destruct (Port.clone_buffer a m h) as [[[a1 m1] h1]|e] eqn:Hb; [|discriminate].
    injection Hc as _ _ <-. eapply clone_buffer_prefix; eauto.
  - destruct (Port.clone_buffer a m h) as [[[a1 m1] h1]|e] eqn:Hb; [|discriminate].
    injection Hc as _ _ <-. eapply clone_buffer_prefix; eauto.
  - destruct (Port.clone_fields Port.clone fields m h) as [[[fields' m1] h1]|e] eqn:Hf;
      [|discriminate].
    injection Hc as _ _ <-. clear v'.
    revert m h fields' m1 h1 Hf.
    induction IH as [|[k x] rest Hx Hrest IHrest]; intros m h fields' m1 h1 Hf.
    + cbn in Hf. injection Hf as _ _ <-. reflexivity.
    + cbn [Port.clone_fields] in Hf.
      destruct (Port.clone x m h) as [[[x' m2] h2]|e] eqn:Hcx; [|discriminate].
      change (match Port.clone_fields Port.clone rest m2 h2 with
              | Ret (rest', m3, h3) => Ret ((k, x') :: rest', m3, h3)
              | Throw e => Throw e
              end = Ret (fields', m1, h1)) in Hf.
      destruct (Port.clone_fields Port.clone rest m2 h2) as [[[rest' m3] h3]|e] eqn:Hr;
        [|discriminate].
      injection Hf as _ _ <-. etransitivity; [eapply Hx; eauto|eapply IHrest; eauto].
Qed.

(** Whatever the message, posting it without a transfer list only adds to
    the heap. *)
Lemma postMessage_nil_prefix (v v' : val) (h h' : heap) :
  Port.postMessage v [] h = Ret (h', v') -> h `prefix_of` h'.
Proof.
  unfold Port.postMessage, Port.transferables.
  cbn [forallb Port.transferable_buffers Port.detach fold_left].
  destruct (Port.clone v [] h) as [[[v1 m1] h1]|e] eqn:Hc; [|discriminate].
  intros H. injection H as <- _. eapply clone_prefix; eauto.
Qed.

Lemma keeps_post (v v' : val) (h h' : heap) :
  Port.postMessage v [] h = Ret (h', v') -> keeps h h'.
Proof. intros H. apply keeps_prefix. eapply postMessage_nil_prefix; eauto. Qed.

Section Attached.
Context `{W : Package}.
Variable sampleRate : float.
Variable num_to_string : float -> string.
Variable set_from_array_like : list float -> val -> result (list float).

Abbreviation run := (System.run sampleRate num_to_string set_from_array_like).
Abbreviation step := (System.step sampleRate num_to_string set_from_array_like).

(** A property of the world that only improves when the heap keeps its
    attached buffers and the page keeps its arrays and path elements and has
    no fewer frames pending. *)
Variable P : world -> Prop.
Hypothesis P_mono : forall w w',
  keeps (heap_ w) (heap_ w') ->
  bufLeft (ui w') = bufLeft (ui w) -> bufRight (ui w') = bufRight (ui w) ->
  (pathLeft (ui w) <> None -> pathLeft (ui w') <> None) ->
  (pathRight (ui w) <> None -> pathRight (ui w') <> None) ->
  frames (ui w) <= frames (ui w') ->
  P w -> P w'.
(** The two places where the page replaces its arrays or uses up a frame. *)
Hypothesis P_display : forall w, P w -> P (fst (Part001.main_display w)).
Hypothesis P_frame : forall w, P w -> P (step System.worklet_js System.Frame w).

Ltac keeps_heap :=
  first
    [ apply keeps_refl
    | apply keeps_app
    | eapply keeps_post; eassumption
    | eapply keeps_set; eassumption
    | apply keeps_insert
    | eapply keeps_fills; eapply get_sample_fills; eassumption
    | eapply keeps_fills; eapply process_fills; eassumption ].

Ltac mono_prim :=
  let w := fresh "w" in
  let Hw := fresh "Hw" in
  intros w Hw; unfold_prims; cbv beta iota zeta; repeat case_match;
  first
    [ exact Hw
    | apply (P_mono w);
      [ world_cbn; keeps_heap
      | reflexivity
      | reflexivity
      | world_cbn; congruence
      | world_cbn; congruence
      | world_cbn; lia
      | exact Hw ] ].

Ltac mono := preserve_with mono_prim.

Lemma worklet_onmessage_mono (data : val) : preserves P (Worklet.onmessage sampleRate data).
Proof. unfold Worklet.onmessage. mono. Qed.

Lemma worklet_process_mono (inputs outputs : list (list val)) (parameters : val) :
  preserves P (Worklet.process inputs outputs parameters).
Proof. unfold Worklet.process. mono. Qed.

Lemma page_onmessage_mono (data : val) :
  preserves P (Part001.onmessage set_from_array_like data).
Proof. unfold Part001.onmessage. mono. Qed.

Lemma main_boot_mono (fetched : list Byte.byte) : preserves P (Part001.main_boot fetched).
Proof. unfold Part001.main_boot. mono. Qed.

Lemma drawFrame_mono : preserves P (Part001.drawFrame num_to_string).
Proof. unfold Part001.drawFrame. mono. Qed.

Lemma audio_callback_mono : preserves P (System.audio_callback System.worklet_js).
Proof.
  unfold System.audio_callback, System.processor_process, Worklet.process. mono.
Qed.

Lemma step_mono (e : System.event) (w : world) : P w -> P (step System.worklet_js e w).
Proof.
  intros Hw. destruct e; try (apply P_frame; exact Hw); unfold System.step, System.after.
  - destruct (phase (ui w) =? 0); [apply main_boot_mono|]; exact Hw.
  - destruct (phase (ui w) =? 1); [apply P_display|]; exact Hw.
  - destruct (phase (ui w) =? 2); [|exact Hw].
    apply (P_mono w); try reflexivity; try (intros H; exact H); [apply keeps_refl|exact Hw].
  - destruct (to_worklet w) as [|data rest]; [exact Hw|].
    apply worklet_onmessage_mono.
    apply (P_mono w); try reflexivity; try (intros H; exact H); [apply keeps_refl|exact Hw].
  - destruct (phase (ui w) =? 2); [|exact Hw].
    destruct (to_page w) as [|data rest]; [exact Hw|].
    apply page_onmessage_mono.
    apply (P_mono w); try reflexivity; try (intros H; exact H); [apply keeps_refl|exact Hw].
  - destruct (negb (phase (ui w) =? 0) && running (ui w)); [|exact Hw].
    apply audio_callback_mono. exact Hw.
Qed.

Lemma run_mono (es : list System.event) (w : world) : P w -> P (run System.worklet_js es w).
Proof.
  revert w. unfold System.run.
  induction es as [|e es IH]; intros w Hw; [exact Hw|].
  cbn [fold_left]. apply IH. apply step_mono. exact Hw.
Qed.

End Attached.

Section NeverDetached.
Context `{W : Package}.
Variable sampleRate : float.
Variable num_to_string : float -> string.
Variable set_from_array_like : list float -> val -> result (list float).

Lemma main_display_keeps_attached (w : world) :
  keeps (heap_ w) (heap_ (fst (Part001.main_display w))).
Proof.
  unfold Part001.main_display, bind, Part001.listen_to_play.
  destruct (play (ui w)); [|apply keeps_refl].
  unfold Part001.new_Float32Array, JS.new_Float32Array, node_port_postMessage,
    Part001.requestAnimationFrame.
  world_cbn.
  match goal with
  | |- context [Port.postMessage ?v [] ?h] =>
      destruct (Port.postMessage v [] h) as [[h' v']|e] eqn:Hpost
  end; world_cbn.
  - eapply keeps_trans; [|eapply keeps_post; exact Hpost].
    eapply keeps_trans; apply keeps_app.
  - eapply keeps_trans; apply keeps_app.
Qed.

(** X8. With src/worklet.js as the worklet nothing is ever detached: no call
    in the page script or in worklet.js passes a transfer list, so a buffer
    that is attached stays attached through every run, whatever the events,
    the messages in the queues and the imported package do. *)
Theorem X8_worklet_js_never_detaches (es : list System.event) (w : world) (a : nat) :
  Port.attached (heap_ w) a ->
  Port.attached
    (heap_ (System.run sampleRate num_to_string set_from_array_like System.worklet_js es w)) a.
Proof.
  intros Ha.
  assert (Hmono : forall w1 w2 : world,
            keeps (heap_ w1) (heap_ w2) -> keeps (heap_ w) (heap_ w1) ->
            keeps (heap_ w) (heap_ w2)).
  { intros w1 w2 H12 H1. eapply keeps_trans; eauto. }
  refine (run_mono sampleRate num_to_string set_from_array_like
            (fun w' => keeps (heap_ w) (heap_ w')) _ _ _ es w (keeps_refl _) a Ha).
  - intros w1 w2 H12 _ _ _ _ _ H1. exact (Hmono w1 w2 H12 H1).
  - intros w1 H1. apply (Hmono w1); [apply main_display_keeps_attached|exact H1].
  - intros w1 H1. unfold System.step. destruct (frames (ui w1)) as [|n]; [exact H1|].
    refine (drawFrame_mono num_to_string (fun w' => keeps (heap_ w) (heap_ w')) _
              (with_ui (Part001.with_frames n (ui w1)) w1) H1).
    intros w2 w3 H23 _ _ _ _ _ H2. exact (Hmono w2 w3 H23 H2).
Qed.

(** X9. With src/worklet.js as the worklet the polling of the page never
    stops by itself.  Once the top level of the page script has run on a
    document that has both path elements, then after any events whatever, in
    any order, with any replies (well formed or not) and whatever the package
    does, the page still has its two arrays attached, both path elements, and
    a frame callback pending: the next frame posts the next request. *)
Theorem X9_polling_never_stops (es : list System.event) (w : world) :
  page_running w ->
  page_running
    (System.run sampleRate num_to_string set_from_array_like System.worklet_js es w).
Proof.
  apply (run_mono sampleRate num_to_string set_from_array_like page_running).
  - intros w1 w2 Hk HbL HbR HpL HpR Hf (a & b & dL & dR & H1 & H2 & Ha & Hb & H3 & H4 & H5).
    destruct (pathLeft (ui w2)) as [dL'|] eqn:EL; [|exfalso; apply HpL; congruence].
    destruct (pathRight (ui w2)) as [dR'|] eqn:ER; [|exfalso; apply HpR; congruence].
    exists a, b, dL', dR'. repeat split; try congruence; try lia; auto.
  - intros w1 H1. destruct (play (ui w1)) eqn:Hplay.
    + destruct (main_display_posts w1 Hplay) as (l' & r' & h' & _ & Hp & _ & ->).
      destruct H1 as (_ & _ & dL & dR & _ & _ & _ & _ & H3 & H4 & _).
      set (n := length (heap_ w1)) in *.
      set (z := Samples (repeat 0%float Part001.size)) in *.
      assert (Hz : z <> Detached) by (subst z; discriminate).
      exists n, (S n), dL, dR. world_cbn.
      split; [reflexivity|]. split; [reflexivity|].
      split.
      { eapply attached_prefix; [exact Hp|]. exists z. split; [|exact Hz].
        rewrite lookup_app_r by (subst n; lia). subst n. rewrite Nat.sub_diag. reflexivity. }
      split.
      { eapply attached_prefix; [exact Hp|]. exists z. split; [|exact Hz].
        rewrite lookup_app_r by (subst n; lia). subst n.
        replace (S (length (heap_ w1)) - length (heap_ w1)) with 1 by lia. reflexivity. }
      split; [exact H3|]. split; [exact H4|]. lia.
    + unfold Part001.main_display, bind, Part001.listen_to_play. rewrite Hplay. exact H1.
  - intros w1 H1.
    exact (proj1 (frame_step sampleRate num_to_string set_from_array_like _ w1 H1)).
Qed.

End NeverDetached.

(** ** From the first request to the page's arrays *)

Section RoundTrip.
Context `{W : Package}.
Variable sampleRate : float.
Variable num_to_string : float -> string.
Variable set_from_array_like : list float -> val -> result (list float).

(** Filling the last two of six cells, both zero-filled arrays of one
    length, gives a heap of the same shape. *)
Lemma fills_last_two (c0 c1 c2 c3 : cell) (n : nat) (h' : heap) :
  fills [VFloat32Array 4; VFloat32Array 5]
        [c0; c1; c2; c3; Samples (repeat 0%float n); Samples (repeat 0%float n)] h' ->
  exists l4 l5 : list float,
    h' = [c0; c1; c2; c3; Samples l4; Samples l5] /\ length l4 = n /\ length l5 = n.
Proof.
  intros [Hlen Hcells].
  assert (Hold : forall a, a < 4 ->
            h' !! a = [c0; c1; c2; c3; Samples (repeat 0%float n);
                       Samples (repeat 0%float n)] !! a).
  { intros a Ha. destruct (Hcells a) as [H|[[H|[H|[]]] _]]; [exact H| |];
      injection H as <-; lia. }
  assert (Hnew : forall a, a = 4 \/ a = 5 ->
            exists l, h' !! a = Some (Samples l) /\ length l = n).
  { intros a Ha. destruct (Hcells a) as [H|(_ & l & l' & Hl & Hl' & Hll)].
    - exists (repeat 0%float n). rewrite H, repeat_length.
      destruct Ha as [-> | ->]; split; reflexivity.
    - exists l'. split; [exact Hl'|]. rewrite Hll.
      destruct Ha as [-> | ->]; cbn in Hl; injection Hl as <-; apply repeat_length. }
  destruct (Hnew 4 (or_introl eq_refl)) as (l4 & H4 & Hl4).
  destruct (Hnew 5 (or_intror eq_refl)) as (l5 & H5 & Hl5).
  pose proof (Hold 0 ltac:(lia)) as H0. pose proof (Hold 1 ltac:(lia)) as H1.
  pose proof (Hold 2 ltac:(lia)) as H2. pose proof (Hold 3 ltac:(lia)) as H3.
  exists l4, l5. split; [|split; assumption].
  destruct h' as [|d0 [|d1 [|d2 [|d3 [|d4 [|d5 [|d6 rest]]]]]]]; try discriminate Hlen.
  cbn in H0, H1, H2, H3, H4, H5. congruence.
Qed.

(** X10. The first round trip, end to end, with src/worklet.js and any
    package whose calls succeed.  The page boots and loads; the worklet is
    handed the bootstrap message and then the first mirror request; the page
    is handed the reply.  Then the page's two arrays hold exactly what
    [get_sample] wrote into the arrays of the request, both queues are empty
    and the instance is in the state [get_sample] left it in. *)
Theorem X10_first_round_trip (fetched : list Byte.byte) (dL dR : string) (autoplay : bool)
    (payload l r : val) (m1 m2 m3 : Module_) (hd : Handle) (h3 : heap) :
  let w0 := System.run sampleRate num_to_string set_from_array_like System.worklet_js
              [System.Boot fetched; System.Loaded]
              (System.initial true (Some dL) (Some dR) autoplay) in
  to_worklet w0 = [VObject [("wasm", payload)]; Part001.mirror_request l r] ->
  initSync payload (heap_ w0) imported = (m1, Ret tt) ->
  new_handle sampleRate m1 = (m2, Ret hd) ->
  get_sample l r hd m2 (heap_ w0) = (m3, h3, Ret tt) ->
  let w' := System.run sampleRate num_to_string set_from_array_like System.worklet_js
              [System.ToWorklet; System.ToWorklet; System.ToPage] w0 in
  Port.observe (heap_ w') (bufLeft (ui w')) = Port.observe h3 l /\
  Port.observe (heap_ w') (bufRight (ui w')) = Port.observe h3 r /\
  to_worklet w' = [] /\ to_page w' = [] /\
  wasm w' = m3 /\ handle (this w') = Some hd.
Proof.
  rewrite loaded_world. cbv zeta.
  set (z := Samples (repeat 0%float Part001.size)).
  set (h0 := [Bytes fetched; Bytes fetched; z; z; z; z]).
  set (u := {| phase := 2; bufLeft := VFloat32Array 2; bufRight := VFloat32Array 3;
               play := true; pathLeft := Some dL; pathRight := Some dR;
               running := autoplay; frames := 1 |}).
  cbn [to_worklet heap_]. intros Hq Hinit Hnew Hfill.
  injection Hq as <- <- <-.
  destruct (fills_last_two _ _ _ _ _ _ (get_sample_fills _ _ _ _ _ _ _ _ Hfill))
    as (l4 & l5 & -> & Hl4 & Hl5).
  unfold System.run. cbn [fold_left].
  (* the bootstrap message *)
  set (req := Part001.mirror_request (VFloat32Array 4) (VFloat32Array 5)).
  set (ready_this := {| handle := Some hd; processFn := Some wasm_process |}).
  assert (S1 : System.step sampleRate num_to_string set_from_array_like System.worklet_js
                 System.ToWorklet
                 {| heap_ := h0; wasm := imported;
                    this := {| handle := None; processFn := None |}; ui := u;
                    to_worklet := [VObject [("wasm", VArrayBuffer 1)]; req];
                    to_page := [] |} =
               {| heap_ := h0; wasm := m2; this := ready_this; ui := u;
                  to_worklet := [req]; to_page := [] |}).
  { unfold System.step. cbn [to_worklet]. unfold System.after, System.processor_onmessage.
    rewrite (worklet_onmessage_bootstrap sampleRate _ _ (VArrayBuffer 1)) by reflexivity.
    world_cbn. rewrite Hinit. cbv zeta. rewrite Hnew. reflexivity. }
  rewrite S1. clear S1.
  (* the mirror request *)
  set (h3 := [Bytes fetched; Bytes fetched; z; z; Samples l4; Samples l5]) in *.
  assert (S2 : System.step sampleRate num_to_string set_from_array_like System.worklet_js
                 System.ToWorklet
                 {| heap_ := h0; wasm := m2; this := ready_this; ui := u;
                    to_worklet := [req]; to_page := [] |} =
               {| heap_ := h3 ++ [Samples l4; Samples l5]; wasm := m3; this := ready_this;
                  ui := u; to_worklet := [];
                  to_page := [Part001.mirror_request (VFloat32Array 6) (VFloat32Array 7)] |}).
  { unfold System.step. cbn [to_worklet]. unfold System.after, System.processor_onmessage.
    rewrite (worklet_onmessage_serviced sampleRate _ req VUndefined
               (VObject [("left", VFloat32Array 4); ("right", VFloat32Array 5)])
               (VFloat32Array 4) (VFloat32Array 5) hd m3 h3)
      by first [reflexivity|exact Hfill].
    reflexivity. }
  rewrite S2. clear S2.
  (* the reply *)
  unfold System.step. cbn [ui phase u Nat.eqb to_page]. unfold System.after.
  rewrite (page_onmessage_copies set_from_array_like _
             (Part001.mirror_request (VFloat32Array 6) (VFloat32Array 7))
             (VObject [("left", VFloat32Array 6); ("right", VFloat32Array 7)])
             2 3 6 7 (repeat 0%float Part001.size) (repeat 0%float Part001.size) l4 l5);
    try reflexivity; try lia;
    try (rewrite repeat_length; assumption).
  cbn. repeat split; reflexivity.
Qed.

End RoundTrip.

(** ** What the page has pending *)

(** A primitive step and a property of the page that [lia] can read off the
    updated record. *)
Ltac page_prim :=
  let w := fresh "w" in
  let Hw := fresh "Hw" in
  intros w Hw; unfold_prims; cbv beta iota zeta; repeat case_match; world_cbn;
  first [exact Hw | lia | intuition (first [congruence | lia])].

Section Pending.
Context `{W : Package}.
Variable sampleRate : float.
Variable num_to_string : float -> string.
Variable set_from_array_like : list float -> val -> result (list float).

Abbreviation run := (System.run sampleRate num_to_string set_from_array_like).
Abbreviation step := (System.step sampleRate num_to_string set_from_array_like).

Lemma worklet_onmessage_no_buffer (w : world) (data : val) :
  get data "buffer" = Ret VUndefined ->
  to_page (fst (Worklet.onmessage sampleRate data w)) = to_page w /\
  to_worklet (fst (Worklet.onmessage sampleRate data w)) = to_worklet w.
Proof.
  intros Hb. destruct (get data "wasm") as [payload|e] eqn:Hp.
  - destruct (truthy payload) eqn:Ht.
    + rewrite (worklet_onmessage_bootstrap sampleRate w data payload Hp Ht).
      destruct (initSync payload (heap_ w) (wasm w)) as [m1 [[]|e]]; [|split; reflexivity].
      cbv zeta. destruct (new_handle sampleRate m1) as [m2 [hd|e]]; split; reflexivity.
    + unfold Worklet.onmessage, bind, prop, lift. rewrite Hp, Ht.
      unfold this_handle. destruct (handle (this w)) as [hd|]; [|split; reflexivity].
      rewrite Hb. split; reflexivity.
  - unfold Worklet.onmessage, bind, prop, lift. rewrite Hp. split; reflexivity.
Qed.

(** Neither revision of the worklet, nor a render quantum, nor the reply
    handler touches the page record. *)
Lemma processor_onmessage_page (v : System.revision) (data : val) (u : page) :
  preserves (fun w => ui w = u) (System.processor_onmessage sampleRate v data).
Proof.
  destruct v; unfold System.processor_onmessage, Worklet.onmessage, Part000.onmessage;
    preserve_with page_prim.
Qed.

Lemma audio_callback_page (v : System.revision) (u : page) :
  preserves (fun w => ui w = u) (System.audio_callback v).
Proof.
  destruct v;
    unfold System.audio_callback, System.processor_process, Worklet.process, Part000.process;
    preserve_with page_prim.
Qed.

Lemma page_onmessage_page (data : val) (u : page) :
  preserves (fun w => ui w = u) (Part001.onmessage set_from_array_like data).
Proof. unfold Part001.onmessage. preserve_with page_prim. Qed.

Lemma main_boot_frames (fetched : list Byte.byte) (n : nat) :
  preserves (fun w => frames (ui w) = n) (Part001.main_boot fetched).
Proof. unfold Part001.main_boot. preserve_with page_prim. Qed.

Lemma main_display_frames (w : world) :
  frames (ui w) = 0 ->
  let w' := fst (Part001.main_display w) in
  frames (ui w') = 0 \/ (frames (ui w') = 1 /\ phase (ui w') = 2).
Proof.
  intros Hf. cbv zeta. unfold Part001.main_display, bind, Part001.listen_to_play.
  destruct (play (ui w)); [|left; exact Hf].
  unfold Part001.new_Float32Array, JS.new_Float32Array, node_port_postMessage,
    Part001.requestAnimationFrame.
  world_cbn.
  match goal with
  | |- context [Port.postMessage ?v [] ?h] =>
      destruct (Port.postMessage v [] h) as [[h' v']|e]
  end; world_cbn; [right; split; [rewrite Hf|]; reflexivity|left; exact Hf].
Qed.

Lemma drawFrame_frames (w : world) :
  let w' := fst (Part001.drawFrame num_to_string w) in
  frames (ui w') <= S (frames (ui w)) /\ phase (ui w') = phase (ui w).
Proof.
  cbv zeta.
  unfold Part001.drawFrame, bind, Part001.set_pathLeft, Part001.set_pathRight,
    Part001.requestAnimationFrame, node_port_postMessage.
  destruct (pathLeft (ui w)); world_cbn; [|split; [lia|reflexivity]].
  destruct (pathRight (ui w)); world_cbn; [|split; [lia|reflexivity]].
  match goal with
  | |- context [Port.postMessage ?v [] ?h] =>
      destruct (Port.postMessage v [] h) as [[h' v']|e]
  end; world_cbn; split; first [lia|reflexivity].
Qed.

Lemma one_frame_page (w w' : world) :
  phase (ui w') = phase (ui w) -> frames (ui w') = frames (ui w) ->
  one_frame w -> one_frame w'.
Proof. unfold one_frame. intros -> ->. auto. Qed.

Lemma step_one_frame (v : System.revision) (e : System.event) (w : world) :
  one_frame w -> one_frame (step v e w).
Proof.
  intros Hw. unfold System.step, System.after. destruct e.
  - destruct (phase (ui w) =? 0) eqn:Hph; [|exact Hw].
    apply Nat.eqb_eq in Hph. destruct Hw as [_ Hw].
    pose proof (main_boot_frames fetched 0 w (Hw ltac:(lia))) as H. cbv beta in H.
    split; [rewrite H; lia|intros _; exact H].
  - destruct (phase (ui w) =? 1) eqn:Hph; [|exact Hw].
    apply Nat.eqb_eq in Hph. destruct Hw as [_ Hw].
    destruct (main_display_frames w) as [H|[H1 H2]]; [apply Hw; lia| |].
    + split; [lia|intros _; exact H].
    + split; lia.
  - destruct (phase (ui w) =? 2); [|exact Hw].
    apply (one_frame_page w); [reflexivity|reflexivity|exact Hw].
  - destruct (frames (ui w)) as [|n] eqn:Hn; [exact Hw|].
    destruct Hw as [Hle Hph]. rewrite Hn in Hle, Hph.
    destruct (drawFrame_frames (with_ui (Part001.with_frames n (ui w)) w)) as [H1 H2].
    world_cbn. split; [lia|]. intros Hlt. rewrite H2 in Hlt.
    assert (S n = 0) by (apply Hph; exact Hlt). discriminate.
  - destruct (to_worklet w) as [|data rest]; [exact Hw|].
    pose proof (processor_onmessage_page v data (ui w) (with_to_worklet rest w) eq_refl)
      as H. cbv beta in H.
    apply (one_frame_page w); [rewrite H; reflexivity|rewrite H; reflexivity|exact Hw].
  - destruct (phase (ui w) =? 2); [|exact Hw].
    destruct (to_page w) as [|data rest]; [exact Hw|].
    pose proof (page_onmessage_page data (ui w) (with_to_page rest w) eq_refl) as H.
    cbv beta in H.
    apply (one_frame_page w); [rewrite H; reflexivity|rewrite H; reflexivity|exact Hw].
  - destruct (negb (phase (ui w) =? 0) && running (ui w)); [|exact Hw].
    pose proof (audio_callback_page v (ui w) w eq_refl) as H. cbv beta in H.
    apply (one_frame_page w); [rewrite H; reflexivity|rewrite H; reflexivity|exact Hw].
Qed.

(** X11. At most one frame callback of the page is ever pending, whichever
    revision the worklet is, whatever the document and the events: drawFrame
    is requested once by the top level and once by each run of itself, after
    that run has been taken off the list.  So the page draws, and asks the
    worklet, at most once per frame of the display. *)
Theorem X11_at_most_one_frame_pending (v : System.revision) (es : list System.event)
    (checkbox : bool) (dL dR : option string) (autoplay : bool) :
  frames (ui (run v es (System.initial checkbox dL dR autoplay))) <= 1.
Proof.
  assert (H : forall w, one_frame w -> one_frame (run v es w)).
  { unfold System.run. induction es as [|e es IH]; intros w Hw; [exact Hw|].
    cbn [fold_left]. apply IH, step_one_frame, Hw. }
  apply H. split; [cbn; lia|reflexivity].
Qed.

Lemma stuck_page (w w' : world) : ui w' = ui w -> stuck w -> stuck w'.
Proof. unfold stuck. intros ->. auto. Qed.

Lemma main_boot_stuck (fetched : list Byte.byte) :
  preserves (fun w => stuck w /\ unanswerable "buffer" w /\ unanswerable "buffers" w)
    (Part001.main_boot fetched).
Proof.
  assert (H1 : preserves stuck (Part001.main_boot fetched))
    by (unfold Part001.main_boot, stuck; preserve_with page_prim).
  assert (H2 : forall k, k = "buffer" \/ k = "buffers" ->
               preserves (unanswerable k) (Part001.main_boot fetched)).
  { intros k [-> | ->]; unfold Part001.main_boot; preserve_with unanswerable_prim. }
  intros w (Hs & Hb & Hbs). split; [|split].
  - apply H1, Hs.
  - apply (H2 "buffer"); auto.
  - apply (H2 "buffers"); auto.
Qed.

Lemma audio_callback_unanswerable (v : System.revision) (k : string) :
  preserves (unanswerable k) (System.audio_callback v).
Proof.
  destruct v;
    unfold System.audio_callback, System.processor_process, Worklet.process, Part000.process;
    preserve_with unanswerable_prim.
Qed.

Lemma step_stuck (v : System.revision) (e : System.event) (w : world) :
  stuck w /\ unanswerable "buffer" w /\ unanswerable "buffers" w ->
  let w' := step v e w in
  stuck w' /\ unanswerable "buffer" w' /\ unanswerable "buffers" w'.
Proof.
  intros Hw. cbv zeta. unfold System.step, System.after. destruct e.
  - destruct (phase (ui w) =? 0); [|exact Hw]. apply main_boot_stuck. exact Hw.
  - destruct (phase (ui w) =? 1); [|exact Hw].
    unfold Part001.main_display, bind, Part001.listen_to_play.
    destruct Hw as ((Hplay & Hrest) & Hq). rewrite Hplay. split; [split|]; assumption.
  - destruct (phase (ui w) =? 2) eqn:Hph; [|exact Hw].
    apply Nat.eqb_eq in Hph. destruct Hw as ((_ & Hle & _) & _). lia.
  - destruct Hw as ((Hplay & Hle & Hf & Hrest) & Hq). rewrite Hf.
    split; [split; [|split; [|split]]|]; assumption.
  - destruct (to_worklet w) as [|data rest] eqn:Etw; [exact Hw|].
    destruct Hw as (Hs & [Hp1 Hq1] & [Hp2 Hq2]). rewrite Etw in Hq1, Hq2.
    inversion Hq1 as [|? ? Hd1 Hr1]; subst. inversion Hq2 as [|? ? Hd2 Hr2]; subst.
    assert (Hsame : to_page (fst (System.processor_onmessage sampleRate v data
                                    (with_to_worklet rest w))) = to_page w /\
                    to_worklet (fst (System.processor_onmessage sampleRate v data
                                       (with_to_worklet rest w))) = rest).
    { destruct v; unfold System.processor_onmessage.
      - exact (worklet_onmessage_no_buffer (with_to_worklet rest w) data Hd1).
      - exact (part000_onmessage_no_buffers sampleRate (with_to_worklet rest w) data Hd2). }
    destruct Hsame as [Hp' Hq'].
    split; [|split].
    + apply (stuck_page w); [|exact Hs].
      exact (processor_onmessage_page v data (ui w) (with_to_worklet rest w) eq_refl).
    + split; [rewrite Hp'; exact Hp1|rewrite Hq'; exact Hr1].
    + split; [rewrite Hp'; exact Hp2|rewrite Hq'; exact Hr2].
  - destruct (phase (ui w) =? 2) eqn:Hph; [|exact Hw].
    apply Nat.eqb_eq in Hph. destruct Hw as ((_ & Hle & _) & _). lia.
  - destruct (negb (phase (ui w) =? 0) && running (ui w)); [|exact Hw].
    destruct Hw as (Hs & Hb & Hbs). split; [|split].
    + apply (stuck_page w); [|exact Hs]. exact (audio_callback_page v (ui w) w eq_refl).
    + apply audio_callback_unanswerable. exact Hb.
    + apply audio_callback_unanswerable. exact Hbs.
Qed.

Lemma unanswerable_in_flight (w : world) :
  unanswerable "buffer" w -> unanswerable "buffers" w -> in_flight w = 0.
Proof.
  intros [Hp Hq1] [_ Hq2]. unfold in_flight. rewrite Hp. cbn [length].
  rewrite Nat.add_0_r.
  induction (to_worklet w) as [|d q IH]; [reflexivity|].
  inversion Hq1 as [|? ? Hd1 Hr1]; subst. inversion Hq2 as [|? ? Hd2 Hr2]; subst.
  cbn [List.filter]. unfold is_mirror_request at 1. rewrite Hd1, Hd2.
  destruct (get d "wasm") as [payload|e]; [rewrite andb_false_r|]; apply IH; assumption.
Qed.

(** X12. On a document without the play checkbox the page script dies at
    the line that installs the listener, whichever revision the worklet is:
    the worklet may still be bootstrapped and render, but in every run the
    page never makes its arrays, never requests a frame, never posts a mirror
    request and is never sent a reply. *)
Theorem X12_no_checkbox_no_mirror (v : System.revision) (es : list System.event)
    (dL dR : option string) (autoplay : bool) :
  let w := run v es (System.initial false dL dR autoplay) in
  phase (ui w) <= 1 /\ frames (ui w) = 0 /\
  bufLeft (ui w) = VUndefined /\ bufRight (ui w) = VUndefined /\
  in_flight w = 0 /\ to_page w = [].
Proof.
  cbv zeta.
  assert (H : forall w, stuck w /\ unanswerable "buffer" w /\ unanswerable "buffers" w ->
              stuck (run v es w) /\ unanswerable "buffer" (run v es w) /\
              unanswerable "buffers" (run v es w)).
  { unfold System.run. induction es as [|e es IH]; intros w Hw; [exact Hw|].
    cbn [fold_left]. apply IH, step_stuck, Hw. }
  destruct (H (System.initial false dL dR autoplay)) as ((_ & Hph & Hf & HbL & HbR) & Hb & Hbs).
  { split; [|split]; [|split; [reflexivity|constructor]..].
    unfold stuck. cbn. repeat split; lia. }
  split; [exact Hph|]. split; [exact Hf|]. split; [exact HbL|]. split; [exact HbR|].
  split; [apply unanswerable_in_flight; assumption|exact (proj1 Hb)].
Qed.

End Pending.

(** ** The play checkbox and the mirror *)

Section Suspended.
Context `{W : Package}.
Variable sampleRate : float.
Variable num_to_string : float -> string.
Variable set_from_array_like : list float -> val -> result (list float).

Lemma blind_bind {A B : Type} (b : bool) (c : M A) (k : A -> M B) :
  blind b c -> (forall a, blind b (k a)) -> blind b (bind c k).
Proof.
  intros Hc Hk w. unfold bind. rewrite Hc.
  destruct (c w) as [w1 [a|e]]; cbn [fst snd]; [apply Hk|reflexivity].
Qed.

Ltac blind_prim :=
  let w := fresh "w" in
  intros w; unfold_prims; unfold set_running;
  repeat first [progress world_cbn | progress cbv beta iota zeta | case_match];
  reflexivity.

Ltac blind_all :=
  repeat
    lazymatch goal with
    | |- blind _ (bind _ _) => apply blind_bind; [|intros ?]
    | |- blind _ (if ?c then _ else _) => destruct c
    | |- blind _ (match ?x with _ => _ end) => destruct x
    | |- blind _ _ => blind_prim
    end.

Lemma processor_onmessage_blind (b : bool) (v : System.revision) (data : val) :
  blind b (System.processor_onmessage sampleRate v data).
Proof.
  destruct v; unfold System.processor_onmessage, Worklet.onmessage, Part000.onmessage;
    blind_all.
Qed.

Lemma page_onmessage_blind (b : bool) (data : val) :
  blind b (Part001.onmessage set_from_array_like data).
Proof. unfold Part001.onmessage. blind_all. Qed.

Lemma drawFrame_blind (b : bool) : blind b (Part001.drawFrame num_to_string).
Proof. unfold Part001.drawFrame. blind_all. Qed.

Lemma main_boot_blind (b : bool) (fetched : list Byte.byte) :
  blind b (Part001.main_boot fetched).
Proof. unfold Part001.main_boot. blind_all. Qed.

Lemma main_display_blind (b : bool) : blind b Part001.main_display.
Proof. unfold Part001.main_display. blind_all. Qed.

(** X13. The play checkbox gates the audio and nothing else.  No callback
    of the mirror looks at whether the audio context runs: the page script's
    top level, drawFrame, the reply handler and the message handler of either
    worklet revision do the same, and leave the context as it is, suspended
    or running.  So a suspended page keeps polling, and the worklet keeps
    drawing from the generator for it. *)
Theorem X13_mirror_ignores_play (v : System.revision) (e : System.event) (w : world)
    (b : bool) :
  e <> System.Audio -> (forall checked, e <> System.Input checked) ->
  System.step sampleRate num_to_string set_from_array_like v e (set_running b w) =
  set_running b (System.step sampleRate num_to_string set_from_array_like v e w).
Proof.
  intros Haudio Hinput. unfold System.step, System.after.
  destruct e as [fetched| |checked| | | |].
  - change (phase (ui (set_running b w))) with (phase (ui w)).
    destruct (phase (ui w) =? 0); [|reflexivity]. rewrite main_boot_blind. reflexivity.
  - change (phase (ui (set_running b w))) with (phase (ui w)).
    destruct (phase (ui w) =? 1); [|reflexivity]. rewrite main_display_blind. reflexivity.
  - exfalso. exact (Hinput checked eq_refl).
  - change (frames (ui (set_running b w))) with (frames (ui w)).
    destruct (frames (ui w)) as [|n]; [reflexivity|].
    change (with_ui (Part001.with_frames n (ui (set_running b w))) (set_running b w))
      with (set_running b (with_ui (Part001.with_frames n (ui w)) w)).
    rewrite drawFrame_blind. reflexivity.
  - change (to_worklet (set_running b w)) with (to_worklet w).
    destruct (to_worklet w) as [|data rest]; [reflexivity|].
    change (with_to_worklet rest (set_running b w))
      with (set_running b (with_to_worklet rest w)).
    rewrite processor_onmessage_blind. reflexivity.
  - change (phase (ui (set_running b w))) with (phase (ui w)).
    destruct (phase (ui w) =? 2); [|reflexivity].
    change (to_page (set_running b w)) with (to_page w).
    destruct (to_page w) as [|data rest]; [reflexivity|].
    change (with_to_page rest (set_running b w)) with (set_running b (with_to_page rest w)).
    rewrite page_onmessage_blind. reflexivity.
  - exfalso. exact (Haudio eq_refl).
Qed.

End Suspended.

(** ** The model at work *)

Section Examples.
Import System.
Import Demo.
Import Port.

(** Truthiness, property reads and the port on small inputs. *)
Example falsy_values :
  map truthy [VUndefined; VNull; VBool false; VNumber 0%float; VNumber nan; VString ""]
    = [false; false; false; false; false; false].
Proof. reflexivity. Qed.

Example truthy_values :
  map truthy [VBool true; VNumber 1%float; VString "0"; VArrayBuffer 0; VObject []]
    = [true; true; true; true; true].
Proof. reflexivity. Qed.

Example read_of_undefined_throws : get VUndefined "wasm" = Throw TypeError.
Proof. reflexivity. Qed.

Example read_of_missing_field : get (request 0 1) "wasm" = Ret VUndefined.
Proof. reflexivity. Qed.

Example copy_keeps_identity :
  postMessage (request 0 0) [] [Samples [1%float]]
    = Ret ([Samples [1%float]; Samples [1%float]], request 1 1).
Proof. reflexivity. Qed.

Example transfer_detaches :
  postMessage (request_000 0 1) [VArrayBuffer 0; VArrayBuffer 1]
              [Samples [1%float]; Samples [2%float]]
    = Ret ([Detached; Detached; Samples [1%float]; Samples [2%float]], request_000 2 3).
Proof. reflexivity. Qed.

Example transfer_listed_twice :
  postMessage (request_000 0 0) [VArrayBuffer 0; VArrayBuffer 0] [Samples [1%float]]
    = Throw DataCloneError.
Proof. reflexivity. Qed.

Example set_too_long :
  set_from_typed_array 0 1 [Samples [0%float]; Samples [1%float; 2%float]] = Throw RangeError.
Proof. reflexivity. Qed.

(** C1 fails as stated: after the page has loaded and drawn one frame, two
    mirror requests are in flight and no reply has been received. *)
Lemma C1_counterexample :
  let w := run worklet_js [Boot binary; Loaded; Frame] in
  to_worklet w = [VObject [("wasm", VArrayBuffer 1)]; request 4 5; request 6 7] /\
  in_flight w = 2 /\ ~ in_flight w <= 1.
Proof.
  cbv zeta. split; [vm_compute; reflexivity|].
  assert (H : in_flight (run worklet_js [Boot binary; Loaded; Frame]) = 2)
    by (vm_compute; reflexivity).
  rewrite H. split; [reflexivity|lia].
Qed.

Lemma C1_witness :
  in_flight (step worklet_js Frame replied) = S (in_flight replied).
Proof.
  apply (proj1 (proj2 (C1_one_request_per_frame (W := package) sampleRate
                         num_to_string set_from_array_like))).
  exists 2, 3, "", "".
  split; [vm_compute; reflexivity|]. split; [vm_compute; reflexivity|].
  split; [eexists; split; [vm_compute; reflexivity|discriminate]|].
  split; [eexists; split; [vm_compute; reflexivity|discriminate]|].
  split; [vm_compute; reflexivity|]. split; [vm_compute; reflexivity|].
  vm_compute. lia.
Defined.

(** C2 fails as stated: the mirror request delivered after a failed
    bootstrap, with no handle in place, gets no reply. *)
Lemma C2_counterexample :
  let w' := step worklet_js ToWorklet failed in
  ready failed = false /\ to_worklet failed = [request 4 5] /\ to_page failed = [] /\
  to_worklet w' = [] /\ to_page w' = [] /\
  ~ exists reply, to_page w' = to_page failed ++ [reply].
Proof.
  cbv zeta.
  split; [vm_compute; reflexivity|]. split; [vm_compute; reflexivity|].
  split; [vm_compute; reflexivity|]. split; [vm_compute; reflexivity|].
  split; [vm_compute; reflexivity|].
  intros [reply H]. vm_compute in H. discriminate.
Qed.

Lemma C2_witness :
  let w1 := fst (Worklet.onmessage (W := package) sampleRate (request 4 5) failed) in
  let w2 := fst (Part000.onmessage (W := package) sampleRate (request 4 5) failed) in
  (to_page w1 = to_page failed /\ heap_ w1 = heap_ failed) /\
  (to_page w2 = to_page failed /\ heap_ w2 = heap_ failed).
Proof.
  apply (C2_uninitialized_request_unanswered (W := package)); reflexivity.
Defined.

Lemma C3_witness :
  Worklet.onmessage (W := package) sampleRate (request 4 5) failed = (failed, Ret tt).
Proof.
  apply (C3_uninitialized_request_ignored (W := package)); reflexivity.
Defined.

Lemma C4_witness :
  Worklet.process (W := package) [[]] [[VFloat32Array 4; VFloat32Array 5]] (VObject []) failed
    = (failed, Ret true) /\
  snd (Worklet.process (W := package) [[]] [[VFloat32Array 4; VFloat32Array 5]] (VObject [])
         booted) = Ret true.
Proof.
  split.
  - apply (C4_process_keeps_running (W := package) failed). reflexivity.
  - pose proof (C4_process_keeps_running (W := package) booted [[]]
                  [[VFloat32Array 4; VFloat32Array 5]] (VObject [])) as (_ & _ & H).
    assert (Hcall :
      @process package
              (default VUndefined ([VFloat32Array 4; VFloat32Array 5] !! 0))
              (default VUndefined ([VFloat32Array 4; VFloat32Array 5] !! 1))
              the_handle (wasm booted) (heap_ booted)
      = (fst (fst (Sawtooth.fill (VFloat32Array 4) (VFloat32Array 5) 1
                     (wasm booted) (heap_ booted))),
         snd (fst (Sawtooth.fill (VFloat32Array 4) (VFloat32Array 5) 1
                     (wasm booted) (heap_ booted))),
         Ret tt)) by (vm_compute; reflexivity).
    assert (Hh : handle (this booted) = Some the_handle) by (vm_compute; reflexivity).
    assert (Hf : processFn (this booted) = Some wasm_process) by (vm_compute; reflexivity).
    destruct (H _ [VFloat32Array 4; VFloat32Array 5] _ _ Hh Hf eq_refl Hcall) as [Hw _].
    rewrite Hw. reflexivity.
Defined.

Lemma C5_witness :
  Worklet.onmessage (W := package) sampleRate (VObject [("wasm", VArrayBuffer 1)]) loaded =
    (with_this ready_fields (with_wasm (instance 0) loaded), Ret tt).
Proof.
  apply (C5_bootstrap_makes_ready (W := package) sampleRate num_to_string
           set_from_array_like loaded
           (VObject [("wasm", VArrayBuffer 1)]) (VArrayBuffer 1)
           (instance 0) (instance 0) the_handle);
    vm_compute; reflexivity.
Defined.

(** C6 fails as stated: when the page handles the reply the worklet sent, the
    samples arrive in its arrays, and no request is issued: nothing is on its
    way to the worklet afterwards. *)
Lemma C6_counterexample :
  let w' := step worklet_js ToPage replied in
  to_page replied = [request 6 7] /\ to_worklet replied = [] /\
  samples (heap_ w') 2 = Some (Sawtooth.stream 0 256) /\
  to_worklet w' = [] /\ in_flight w' = 0 /\
  ~ exists next, to_worklet w' = to_worklet replied ++ [next].
Proof.
  cbv zeta.
  split; [vm_compute; reflexivity|]. split; [vm_compute; reflexivity|].
  split; [vm_compute; reflexivity|]. split; [vm_compute; reflexivity|].
  split; [vm_compute; reflexivity|].
  intros [next H]. vm_compute in H. discriminate.
Qed.

Lemma C6_witness :
  let w' := fst (Part001.onmessage (W := package) set_from_array_like (request 6 7) replied) in
  samples (heap_ w') 2 = Some (Sawtooth.stream 0 256) /\
  samples (heap_ w') 3 = Some (Sawtooth.stream 256 256) /\
  to_worklet w' = to_worklet replied.
Proof.
  cbv zeta.
  destruct (C6_reply_copied_request_on_frame (W := package) num_to_string set_from_array_like
              replied (request 6 7)
              (VObject [("left", VFloat32Array 6); ("right", VFloat32Array 7)])
              2 3 6 7 zeros zeros (Sawtooth.stream 0 256) (Sawtooth.stream 256 256) "" "")
    as (_ & HL & HR & Hq & _);
    try (vm_compute; reflexivity); try (intros H; discriminate H).
  split; [exact HL|]. split; [exact HR|exact Hq].
Defined.

(** C7 fails as stated: after the page has posted its first mirror request
    its own array is still attached and full, and the request that travels
    refers to a second buffer with the same contents; after src/worklet.js
    has replied, the array it filled is still attached on its side and the
    reply refers to yet another copy. *)
Lemma C7_counterexample :
  (bufLeft (ui loaded) = VFloat32Array 2 /\
   to_worklet loaded = [VObject [("wasm", VArrayBuffer 1)]; request 4 5] /\
   heap_ loaded !! 2 = Some (Samples zeros) /\ heap_ loaded !! 4 = Some (Samples zeros) /\
   heap_ loaded !! 2 <> Some Detached) /\
  (to_page replied = [request 6 7] /\
   heap_ replied !! 4 = Some (Samples (Sawtooth.stream 0 256)) /\
   heap_ replied !! 6 = Some (Samples (Sawtooth.stream 0 256)) /\
   heap_ replied !! 4 <> Some Detached).
Proof.
  assert (H2 : heap_ loaded !! 2 = Some (Samples zeros)) by (vm_compute; reflexivity).
  assert (H4 : heap_ replied !! 4 = Some (Samples (Sawtooth.stream 0 256)))
    by (vm_compute; reflexivity).
  split.
  - split; [vm_compute; reflexivity|]. split; [vm_compute; reflexivity|].
    split; [exact H2|]. split; [vm_compute; reflexivity|]. rewrite H2. discriminate.
  - split; [vm_compute; reflexivity|]. split; [exact H4|].
    split; [vm_compute; reflexivity|]. rewrite H4. discriminate.
Qed.

Lemma live_request (h : heap) (a b : nat) (la lb : list float) :
  h !! a = Some (Samples la) -> h !! b = Some (Samples lb) ->
  Port.live h (request a b) /\ Port.live h (request_000 a b).
Proof.
  intros Ha Hb.
  assert (Port.attached h a) by (eexists; split; [exact Ha|discriminate]).
  assert (Port.attached h b) by (eexists; split; [exact Hb|discriminate]).
  split; cbn; auto.
Qed.

Lemma C7_witness :
  let w' := fst (Part000.onmessage (W := package) sampleRate (request_000 4 5) booted_000) in
  exists reply,
    to_page w' = to_page booted_000 ++ [reply] /\
    heap_ w' !! 4 = Some Detached /\ heap_ w' !! 5 = Some Detached.
Proof.
  cbv zeta.
  destruct (proj2 (proj2 (proj2 (C7_copied_out_moved_back_only_by_part000 (W := package)
                                   sampleRate num_to_string)))
              booted_000 (request_000 4 5) VUndefined
              (VObject [("left", VFloat32Array 4); ("right", VFloat32Array 5)]) 4 5 the_handle
              (fst (fst (Sawtooth.fill (VFloat32Array 4) (VFloat32Array 5) 1
                           (wasm booted_000) (heap_ booted_000))))
              (snd (fst (Sawtooth.fill (VFloat32Array 4) (VFloat32Array 5) 1
                           (wasm booted_000) (heap_ booted_000)))))
    as (reply & Hq & H4 & H5 & _);
    try (vm_compute; reflexivity); try (intros H; discriminate H).
  - apply (live_request _ 4 5 zeros zeros); vm_compute; reflexivity.
  - exists reply. split; [exact Hq|]. split; [exact H4|exact H5].
Defined.

Lemma C8_witness :
  ready (System.run (W := package) sampleRate num_to_string set_from_array_like worklet_js
           [Frame; ToWorklet; Audio; ToPage;
            ToWorklet; Audio] booted) = true.
Proof.
  apply (C8_ready_is_one_way (W := package) sampleRate num_to_string set_from_array_like booted).
  vm_compute. reflexivity.
Defined.

Lemma C9_witness :
  let data := VObject [("wasm", VArrayBuffer 1);
                       ("buffer", VObject [("left", VFloat32Array 4);
                                           ("right", VFloat32Array 5)])] in
  is_bootstrap data = true /\
  Worklet.onmessage (W := package) sampleRate data loaded =
    (with_this ready_fields (with_wasm (instance 0) loaded), Ret tt) /\
  Part000.onmessage (W := package) sampleRate data loaded =
    (with_this ready_fields (with_wasm (instance 0) loaded), Ret tt).
Proof.
  cbv zeta. split; [reflexivity|].
  assert (Hinit : @initSync package (VArrayBuffer 1) (heap_ loaded) (wasm loaded) =
                  (instance 0, Ret tt)) by (vm_compute; reflexivity).
  assert (Hnew : @new_handle package sampleRate (instance 0) = (instance 0, Ret the_handle))
    by (vm_compute; reflexivity).
  destruct (C9_payload_means_bootstrap_only (W := package) sampleRate loaded
              (VObject [("wasm", VArrayBuffer 1);
                        ("buffer", VObject [("left", VFloat32Array 4);
                                            ("right", VFloat32Array 5)])]) eq_refl)
    as (payload & Hp & _ & Hw & H000 & _ & _ & _ & _ & Hok).
  cbn in Hp. injection Hp as <-.
  rewrite Hw, H000. split; exact (Hok _ _ _ Hinit Hnew).
Defined.

Lemma C10_witness :
  exists reply h2,
    Worklet.onmessage (W := package) sampleRate (request 4 5) booted =
      (with_to_page [reply] (with_heap h2 (with_wasm (instance 512) booted)), Ret tt) /\
    Port.observe h2 reply =
      PObject [("buffer", PObject
                  [("left", PFloat32Array (Some (Samples (Sawtooth.stream 0 256))));
                   ("right", PFloat32Array (Some (Samples (Sawtooth.stream 256 256))))])].
Proof.
  destruct (C10_reply_is_the_filled_request (W := package) sampleRate booted (request 4 5)
              VUndefined (VObject [("left", VFloat32Array 4); ("right", VFloat32Array 5)])
              (VFloat32Array 4) (VFloat32Array 5) the_handle (instance 512)
              (snd (fst (Sawtooth.fill (VFloat32Array 4) (VFloat32Array 5) 1
                           (wasm booted) (heap_ booted)))))
    as (reply & h2 & Hmsg & _ & Hobs & _ & _);
    try (vm_compute; reflexivity).
  - apply (live_request _ 4 5 zeros zeros); vm_compute; reflexivity.
  - exists reply, h2. split; [exact Hmsg|]. rewrite Hobs. vm_compute. reflexivity.
Defined.

(** A bootstrap message whose payload is not a binary fails in the stand-in
    package; the Ready endpoint it is sent to stays Ready, with its handle. *)
Lemma X2_witness :
  let data := VObject [("wasm", VArrayBuffer 2)] in
  let w' := fst (Worklet.onmessage (W := package) sampleRate data booted) in
  handle (this w') = Some the_handle /\ ready w' = true /\ to_page w' = [].
Proof.
  cbv zeta.
  assert (H : Worklet.onmessage (W := package) sampleRate
                (VObject [("wasm", VArrayBuffer 2)]) booted =
              (fst (Worklet.onmessage (W := package) sampleRate
                      (VObject [("wasm", VArrayBuffer 2)]) booted),
               Throw (ForeignError 1))) by (vm_compute; reflexivity).
  destruct (X2_failed_bootstrap_keeps_handle (W := package) sampleRate booted _
              (VObject [("wasm", VArrayBuffer 2)]) (VArrayBuffer 2) (ForeignError 1)
              eq_refl eq_refl (or_introl H)) as (Hh & Hr & _ & Hp & _).
  rewrite Hh, Hr, Hp. repeat split; vm_compute; reflexivity.
Defined.

(** One array as both channels, sent to part_000. *)
Lemma X3_witness :
  snd (Part000.onmessage (W := package) sampleRate (request_000 4 4) booted_000)
    = Throw DataCloneError.
Proof.
  assert (Hfill : @get_sample package (VFloat32Array 4) (VFloat32Array 4) the_handle
                    (wasm booted_000) (heap_ booted_000) =
                  (fst (fst (Sawtooth.fill (VFloat32Array 4) (VFloat32Array 4) 1
                               (wasm booted_000) (heap_ booted_000))),
                   snd (fst (Sawtooth.fill (VFloat32Array 4) (VFloat32Array 4) 1
                               (wasm booted_000) (heap_ booted_000))),
                   Ret tt)) by (vm_compute; reflexivity).
  assert (Hh : handle (this booted_000) = Some the_handle) by (vm_compute; reflexivity).
  rewrite (X3_part000_same_array_twice (W := package) sampleRate booted_000 (request_000 4 4)
             VUndefined (VObject [("left", VFloat32Array 4); ("right", VFloat32Array 4)])
             4 the_handle _ _ Hh eq_refl eq_refl eq_refl eq_refl eq_refl eq_refl Hfill).
  reflexivity.
Defined.

(** A reply whose right array is one element too long. *)
Lemma X5_witness :
  let w := with_heap (heap_ loaded ++ [Samples (Sawtooth.stream 0 256);
                                       Samples (repeat 0%float 257)]) loaded in
  Part001.onmessage (W := package) set_from_array_like (request 6 7) w =
    (with_heap (<[2 := Samples (Sawtooth.stream 0 256)]> (heap_ w)) w, Throw RangeError).
Proof.
  cbv zeta.
  apply (proj2 (proj2 (X5_reply_handler_failures (W := package) set_from_array_like
                         (with_heap (heap_ loaded ++ [Samples (Sawtooth.stream 0 256);
                                                      Samples (repeat 0%float 257)]) loaded)
                         (request 6 7)))
           (VObject [("left", VFloat32Array 6); ("right", VFloat32Array 7)])
           2 3 6 7 zeros zeros (Sawtooth.stream 0 256) (repeat 0%float 257));
    first [reflexivity | lia | vm_compute; reflexivity | vm_compute; lia].
Defined.

(** A document without the left path element. *)
Lemma X6_witness :
  let w := System.run (W := package) sampleRate num_to_string set_from_array_like worklet_js
             [Boot binary; Loaded]
             (System.initial (W := package) true None (Some "") true) in
  let w' := System.run (W := package) sampleRate num_to_string set_from_array_like worklet_js
              (repeat Frame 3) w in
  frames (ui w) = 1 /\ frames (ui w') = 0 /\ to_worklet w' = to_worklet w.
Proof.
  cbv zeta.
  destruct (X6_missing_path_element_stops_polling (W := package) sampleRate num_to_string
              set_from_array_like worklet_js
              (System.run (W := package) sampleRate num_to_string set_from_array_like
                 worklet_js [Boot binary; Loaded]
                 (System.initial (W := package) true None (Some "") true))
              3 (or_introl eq_refl)) as (Hf & Hq & _).
  split; [reflexivity|]. split; [rewrite Hf; reflexivity|exact Hq].
Defined.

Lemma X8_witness :
  attached (heap_ loaded) 2 /\
  attached
    (heap_ (System.run (W := package) sampleRate num_to_string set_from_array_like worklet_js
              [ToWorklet; ToWorklet; ToPage; Frame; Audio] loaded)) 2.
Proof.
  assert (H : attached (heap_ loaded) 2).
  { exists (Samples zeros). split; [reflexivity|discriminate]. }
  split; [exact H|].
  apply (X8_worklet_js_never_detaches (W := package)). exact H.
Defined.

Lemma X9_witness :
  page_running
    (System.run (W := package) sampleRate num_to_string set_from_array_like worklet_js
       [ToWorklet; ToPage; Input false; ToWorklet; Frame; ToPage; Audio] loaded).
Proof.
  apply (X9_polling_never_stops (W := package)).
  exists 2, 3, "", "".
  split; [reflexivity|]. split; [reflexivity|].
  split; [exists (Samples zeros); split; [reflexivity|discriminate]|].
  split; [exists (Samples zeros); split; [reflexivity|discriminate]|].
  split; [reflexivity|]. split; [reflexivity|]. vm_compute. lia.
Defined.

Lemma X10_witness :
  let w' := System.run (W := package) sampleRate num_to_string set_from_array_like worklet_js
              [ToWorklet; ToWorklet; ToPage] loaded in
  observe (heap_ w') (bufLeft (ui w')) =
    PFloat32Array (Some (Samples (Sawtooth.stream 0 256))) /\
  observe (heap_ w') (bufRight (ui w')) =
    PFloat32Array (Some (Samples (Sawtooth.stream 256 256))) /\
  to_page w' = [].
Proof.
  cbv zeta.
  assert (Hinit : @initSync package (VArrayBuffer 1) (heap_ loaded) imported =
                  (instance 0, Ret tt)) by (vm_compute; reflexivity).
  assert (Hnew : @new_handle package sampleRate (instance 0) = (instance 0, Ret the_handle))
    by (vm_compute; reflexivity).
  assert (Hfill : @get_sample package (VFloat32Array 4) (VFloat32Array 5) the_handle
                    (instance 0) (heap_ loaded) =
                  (instance 512,
                   snd (fst (Sawtooth.fill (VFloat32Array 4) (VFloat32Array 5) 1
                               (Some 0) (heap_ loaded))),
                   Ret tt)) by (vm_compute; reflexivity).
  destruct (X10_first_round_trip (W := package) sampleRate num_to_string set_from_array_like
              binary "" "" true (VArrayBuffer 1) (VFloat32Array 4) (VFloat32Array 5)
              (instance 0) (instance 0) (instance 512) the_handle _
              eq_refl Hinit Hnew Hfill) as (HL & HR & _ & Hp & _).
  split; [|split; [|exact Hp]].
  - etransitivity; [exact HL|]. vm_compute. reflexivity.
  - etransitivity; [exact HR|]. vm_compute. reflexivity.
Defined.

Lemma X13_witness :
  Demo.step worklet_js Frame (set_running false loaded) =
  set_running false (Demo.step worklet_js Frame loaded).
Proof.
  apply (X13_mirror_ignores_play (W := package)); [discriminate|intros c; discriminate].
Defined.

End Examples.
